(** * Authcord: the redirect gateway of [app.js]

    A shallow embedding of the two revisions of [app.js] (the richer one,
    with the [member] flag, linkbusting and the creation endpoint, and the
    simplified one) together with the tables of [authcord.sql], followed by
    the properties of the authorization-and-resolution pipeline.

    Conventions of the embedding:
    - JavaScript strings are [string]s of characters below 256; on ASCII
      strings [toUpperCase] and [toLowerCase] are JavaScript's, and what
      rests on the case of a string the caller chooses is stated for ASCII
      strings;
    - [req.ip] is what Express's getter gives without [trust proxy] (which
      [app.js] sets only when [ENV] is [production]): the transport address;
    - a table is the list of its rows, in the order the engine scans them;
    - the handlers run in a small state-and-exception monad over the database,
      the mutable [req]/[res] objects and the oracles of the outside world
      ([Math.random], [uuidv4], [bcrypt.compare], [new URL], the clock and
      the statements the database rejects);
    - a knex statement that is awaited runs at once and throws when the
      database rejects it; a statement that is only dispatched (built and
      [.then]-ed, never awaited) is queued and the handler goes on; when the
      database rejects one that has no [.catch], the rejection is unhandled
      and ends the process (Node 15 and later). *)

From Stdlib Require Import String Ascii List ZArith Bool Arith Lia Permutation.
Import ListNotations.

Set Warnings "-register-all".

Local Open Scope string_scope.
Local Open Scope list_scope.

(** ** JavaScript values and the string primitives the handlers call *)

Module Js.

(** A value of a parsed request body ([body-parser], JSON or urlencoded). *)
Inductive jsval : Type :=
| JUndefined
| JNull
| JBool (b : bool)
| JNum (z : Z)
| JStr (s : string)
| JArr (items : list jsval)
| JObj (fields : list (string * jsval)).

(** [if (v)], [!v], [v ? a : b]. *)
Definition truthy (v : jsval) : bool :=
  match v with
  | JUndefined | JNull => false
  | JBool b => b
  | JNum z => negb (Z.eqb z 0)
  | JStr s => negb (String.eqb s "")
  | JArr _ | JObj _ => true
  end.

(** Truthiness of a field that is a string when present. *)
Definition truthy_str (o : option string) : bool :=
  match o with
  | Some s => negb (String.eqb s "")
  | None => false
  end.

(** Truthiness of a number (the [member] column, a [tinyint]). *)
Definition truthy_num (z : Z) : bool := negb (Z.eqb z 0).

Definition typeof (v : jsval) : string :=
  match v with
  | JUndefined => "undefined"
  | JNull => "object"
  | JBool _ => "boolean"
  | JNum _ => "number"
  | JStr _ => "string"
  | JArr _ | JObj _ => "object"
  end.

(** Strings are sequences of characters below 256, and the case mappings
    below are the ASCII ones.  On ASCII strings ([is_ascii]) they are those
    of JavaScript: [toUpperCase] and [toLowerCase] touch the 26 letters only
    and keep the length.  Outside ASCII they are not: JavaScript also maps
    some other characters onto ASCII letters (dotless i to [I], long s to
    [S]) and can lengthen a string (sharp s to [SS]).  A property that
    rests on the case of a string the caller chooses is stated for ASCII
    strings. *)
Definition is_ascii (s : string) : bool :=
  forallb (fun c => (nat_of_ascii c <? 128)%nat) (list_ascii_of_string s).

Definition upper_ascii (c : ascii) : ascii :=
  let n := nat_of_ascii c in
  if (97 <=? n)%nat && (n <=? 122)%nat then ascii_of_nat (n - 32) else c.

Definition lower_ascii (c : ascii) : ascii :=
  let n := nat_of_ascii c in
  if (65 <=? n)%nat && (n <=? 90)%nat then ascii_of_nat (n + 32) else c.

Fixpoint toUpperCase (s : string) : string :=
  match s with
  | EmptyString => EmptyString
  | String c s' => String (upper_ascii c) (toUpperCase s')
  end.

Fixpoint toLowerCase (s : string) : string :=
  match s with
  | EmptyString => EmptyString
  | String c s' => String (lower_ascii c) (toLowerCase s')
  end.

(** [arr.includes(x)] on an array of strings. *)
Definition includes (arr : list string) (x : string) : bool :=
  existsb (String.eqb x) arr.

(** [arr.join(sep)]. *)
Definition join (sep : string) (arr : list string) : string :=
  String.concat sep arr.

Fixpoint drop (n : nat) (s : string) : string :=
  match n, s with
  | O, _ => s
  | S _, EmptyString => EmptyString
  | S k, String _ s' => drop k s'
  end.

(** [s.split(sep)] for a non-empty separator: a left-to-right scan that
    cuts at every occurrence and resumes after it.  [skip] counts the
    characters of the occurrence still to be passed over, [acc] is the
    piece being collected. *)
Fixpoint split_from (sep : string) (skip : nat) (acc : string) (s : string)
  : list string :=
  match s with
  | EmptyString => [acc]
  | String c s' =>
      match skip with
      | S k => split_from sep k acc s'
      | O =>
          if String.prefix sep s
          then acc :: split_from sep (String.length sep - 1) "" s'
          else split_from sep 0 (acc ++ String c "") s'
      end
  end.

Definition split (sep s : string) : list string := split_from sep 0 "" s.

(** [s.replace(pat, rep)] with a string pattern: only the first
    occurrence is replaced.  ([rep] is taken literally; the handlers only
    pass alphanumeric replacements, which hold no [$] pattern.) *)
Fixpoint replace (pat rep s : string) : string :=
  if String.prefix pat s
  then rep ++ drop (String.length pat) s
  else match s with
       | EmptyString => EmptyString
       | String c s' => String c (replace pat rep s')
       end.

(** [s.charAt(i)]: the empty string out of range. *)
Definition charAt (i : nat) (s : string) : string :=
  match String.get i s with
  | Some c => String c ""
  | None => ""
  end.

End Js.

(** ** The random source and [rs] *)

Module Rand.

(** The [n]-th call of [Math.random()] is the [n]-th draw of an oracle
    [rnd]; [Math.floor(Math.random() * k)] reads it as [rnd n mod k] and
    [Math.round(Math.random())] as [rnd n mod 2]. *)
Definition oracle := nat -> nat.

Definition characters : string :=
  "ABCDEFGHIJKLMNOPQRSTUVWXYZabcdefghijklmnopqrstuvwxyz0123456789".

Definition charactersLength : nat := String.length characters.

(** The loop of [rs]: [p] is the number of draws consumed so far. *)
Fixpoint rs_loop (rnd : oracle) (n : nat) (result : string) (p : nat)
  : string * nat :=
  match n with
  | O => (result, p)
  | S k =>
      rs_loop rnd k
        (result ++ Js.charAt (rnd p mod charactersLength) characters) (S p)
  end.

Definition rs (rnd : oracle) (length : nat) (p : nat) : string * nat :=
  rs_loop rnd length "" p.

End Rand.

(** ** The tables of [authcord.sql] and the knex query builder *)

Module Db.

Inductive table : Type :=
| Users | Sessions | SavedSessions | Ips | Shortlinks | Outbound | DynamicUrls.

Inductive verb : Type := Select | Insert | Delete.

(** A statement, as far as the fault oracle and the trace tell them apart. *)
Definition op : Type := (verb * table)%type.

Definition table_eqb (a b : table) : bool :=
  match a, b with
  | Users, Users | Sessions, Sessions | SavedSessions, SavedSessions
  | Ips, Ips | Shortlinks, Shortlinks | Outbound, Outbound
  | DynamicUrls, DynamicUrls => true
  | _, _ => false
  end.

Definition verb_eqb (a b : verb) : bool :=
  match a, b with
  | Select, Select | Insert, Insert | Delete, Delete => true
  | _, _ => false
  end.

Definition op_eqb (a b : op) : bool :=
  verb_eqb (fst a) (fst b) && table_eqb (snd a) (snd b).

Record user_row : Type := mkUser {
  user_id : Z;
  user_email : string;
  user_member : Z;
  user_password : string
}.

(** [sessions] of [authcord.sql]: the key [id] is the uuid. *)
Record session_row : Type := mkSession {
  session_id : string;
  session_user_id : Z;
  session_user_agent : string;
  session_created_at : Z
}.

Record saved_session_row : Type := mkSavedSession {
  saved_id : string;
  saved_user_id : Z;
  saved_user_agent : string;
  saved_ip_address : string;
  saved_created_at : Z
}.

Record ip_row : Type := mkIp {
  ip_id : Z;
  ip_user_id : Z;
  ip_address : string
}.

Record shortlink_row : Type := mkShortlink {
  sl_id : Z;
  sl_code : string;
  sl_method : string;
  sl_data : option string;
  sl_linkbust : option string;
  sl_destination : string
}.

Record outbound_row : Type := mkOutbound {
  ob_id : Z;
  ob_ip_address : string;
  ob_user_agent : string;
  ob_code : string;
  ob_auth_method : option string;
  ob_auth_value : Js.jsval
}.

Record dynamic_url_row : Type := mkDynamicUrl {
  du_id : Z;
  du_user_id : Z;
  du_full_url : string
}.

(** The database.  The two revisions of [app.js] differ in the columns of
    [sessions] and [saved_sessions], so these two row types are left open. *)
Record database (S SS : Type) : Type := mkDb {
  users : list user_row;
  sessions : list S;
  saved_sessions : list SS;
  ips : list ip_row;
  shortlinks : list shortlink_row;
  outbound : list outbound_row;
  dynamic_urls : list dynamic_url_row
}.

Arguments mkDb {S SS}.
Arguments users {S SS}.
Arguments sessions {S SS}.
Arguments saved_sessions {S SS}.
Arguments ips {S SS}.
Arguments shortlinks {S SS}.
Arguments outbound {S SS}.
Arguments dynamic_urls {S SS}.

Section Builder.
Context {R : Type}.

(** [.where(col, v)] *)
Definition where_ (p : R -> bool) (rows : list R) : list R := filter p rows.

(** [.first()] *)
Definition first (rows : list R) : option R := hd_error rows.

Fixpoint insert_by (le : R -> R -> bool) (x : R) (rows : list R) : list R :=
  match rows with
  | [] => [x]
  | y :: rows' => if le x y then x :: rows else y :: insert_by le x rows'
  end.

(** [.orderBy(col, dir)]: a stable sort; [le] compares the column in the
    direction asked for. *)
Definition orderBy (le : R -> R -> bool) (rows : list R) : list R :=
  fold_right (insert_by le) [] rows.

(** [.where(...).delete()] *)
Definition delete_where (p : R -> bool) (rows : list R) : list R :=
  filter (fun r => negb (p r)) rows.

(** The key an AUTO_INCREMENT column gives the next insert, taken as the
    greatest key held plus one.  That is the counter of a table from which
    the row with the greatest key was never deleted; after such a delete
    the real counter is higher still.  What the properties below use of a
    new key is that it lies above every key the table holds. *)
Definition next_id (key : R -> Z) (rows : list R) : Z :=
  fold_right (fun r m => Z.max (key r + 1) m) 1%Z rows.
End Builder.

Definition id_desc (a b : shortlink_row) : bool := (sl_id b <=? sl_id a)%Z.

(** [knex("shortlinks").where("code", code).orderBy("id", "DESC").first()] *)
Definition shortlink_by_code {S SS} (d : database S SS) (code : string)
  : option shortlink_row :=
  first (orderBy id_desc
           (where_ (fun r => String.eqb (sl_code r) code) (shortlinks d))).

End Db.

(** ** Requests, responses and the handler monad *)

Module Http.
Import Db.

(** The outside world of one request. *)
Record env : Type := mkEnv {
  faults : op -> bool;                 (* statements the database rejects *)
  rnd : Rand.oracle;                   (* Math.random *)
  uuidv4 : string;                     (* the uuid drawn by this request *)
  now : Z;                             (* CURRENT_TIMESTAMP *)
  bcrypt_compare : string -> string -> bool;
  url_valid : string -> bool;          (* does [new URL(s)] succeed *)
  url_append : string -> string -> string -> string;
                                       (* href after searchParams.append *)
  json_parse : string -> option Js.jsval;  (* None: JSON.parse throws *)
  json_stringify : Js.jsval -> string
}.

(** [req.session.user], as [POST /login] leaves it. *)
Record session_user (S : Type) : Type := mkSessionUser {
  su_row : user_row;
  su_ips : list string;
  su_sessions : list S
}.
Arguments mkSessionUser {S}.
Arguments su_row {S}.
Arguments su_ips {S}.
Arguments su_sessions {S}.

(** What the client and the session store bring to a request. *)
Record request (S : Type) : Type := mkRequest {
  rq_method : string;                      (* the HTTP verb *)
  rq_session_user : option (session_user S);
  rq_cookie_sessionId : option string;     (* req.cookies.sessionId *)
  rq_x_forwarded_for : option string;
  rq_remote_address : string;
  rq_user_agent : string;
  rq_code : string                         (* req.params.code *)
}.
Arguments mkRequest {S}.
Arguments rq_method {S}.
Arguments rq_session_user {S}.
Arguments rq_cookie_sessionId {S}.
Arguments rq_x_forwarded_for {S}.
Arguments rq_remote_address {S}.
Arguments rq_user_agent {S}.
Arguments rq_code {S}.

(** The properties the middlewares write on [req]. *)
Record reqvars (S : Type) : Type := mkReqvars {
  v_session_user : option (session_user S);
  v_ip : string;
  v_method : string;                   (* req.method *)
  v_method_name : option string;       (* req.method_name *)
  v_method_value : Js.jsval;           (* req.method_value *)
  v_user_id : option Z                 (* req.user_id *)
}.
Arguments mkReqvars {S}.
Arguments v_session_user {S}.
Arguments v_ip {S}.
Arguments v_method {S}.
Arguments v_method_name {S}.
Arguments v_method_value {S}.
Arguments v_user_id {S}.

Inductive cookie_action : Type :=
| SetCookie (name value : string)
| ClearCookie (name : string).

(** The head of the response: [res.status], [res.cookie], [res.clearCookie]. *)
Record resvars : Type := mkResvars {
  r_status : Z;
  r_cookies : list cookie_action
}.

(** A statement that was built and [.then]-ed but never awaited. *)
Inductive write : Type :=
| WOutbound (ip user_agent code : string) (auth_method : option string)
    (auth_value : Js.jsval)
| WDynamicUrl (user_id : option Z) (full_url : string)
| WShortlink (code method : string) (data : option string)
    (destination : string) (linkbust : option string).

Definition write_op (w : write) : op :=
  match w with
  | WOutbound _ _ _ _ _ => (Insert, Outbound)
  | WDynamicUrl _ _ => (Insert, DynamicUrls)
  | WShortlink _ _ _ _ _ => (Insert, Shortlinks)
  end.

Inductive event : Type :=
| Awaited (o : op)
| Dispatched (o : op).

Record state (S SS : Type) : Type := mkState {
  st_db : database S SS;
  st_req : reqvars S;
  st_res : resvars;
  st_draws : nat;                      (* calls of Math.random so far *)
  st_trace : list event;               (* statements issued, oldest first *)
  st_pending : list write              (* dispatched, completion unknown *)
}.
Arguments mkState {S SS}.
Arguments st_db {S SS}.
Arguments st_req {S SS}.
Arguments st_res {S SS}.
Arguments st_draws {S SS}.
Arguments st_trace {S SS}.
Arguments st_pending {S SS}.

(** How a run ends: with a value, or without one, when the handler throws
    or the process ends under it.  Either way the client gets no response
    from it. *)
Inductive outcome (A : Type) : Type :=
| Ok (a : A)
| Throw.
Arguments Ok {A}.
Arguments Throw {A}.

(** What the client receives. *)
Inductive reply : Type :=
| Redirect (location : string)
| Render (view : string) (locals : list (string * Js.jsval))
| Json (fields : list (string * Js.jsval)).

(** The end of a middleware: [return next()] or a response. *)
Inductive flow : Type :=
| Next
| Sent (r : reply).

(** [req.body] of [POST /login]. *)
Record login_body : Type := mkLoginBody {
  b_email : option string;
  b_password : option string
}.

Section Monad.
Context {S SS : Type}.

Definition M (A : Type) : Type :=
  env -> state S SS -> outcome A * state S SS.

Definition ret {A} (a : A) : M A := fun _ s => (Ok a, s).

Definition bind {A B} (m : M A) (k : A -> M B) : M B :=
  fun e s =>
    match m e s with
    | (Ok a, s') => k a e s'
    | (Throw, s') => (Throw, s')
    end.

Definition throw {A} : M A := fun _ s => (Throw, s).

(** Reading one component of the outside world. *)
Definition asks {A} (f : env -> A) : M A := fun e s => (Ok (f e), s).

Definition gets {A} (f : state S SS -> A) : M A := fun _ s => (Ok (f s), s).

Definition modify (f : state S SS -> state S SS) : M unit :=
  fun _ s => (Ok tt, f s).

Definition set_db (d : database S SS) (s : state S SS) : state S SS :=
  mkState d (st_req s) (st_res s) (st_draws s) (st_trace s) (st_pending s).

Definition set_req (v : reqvars S) (s : state S SS) : state S SS :=
  mkState (st_db s) v (st_res s) (st_draws s) (st_trace s) (st_pending s).

Definition set_res (r : resvars) (s : state S SS) : state S SS :=
  mkState (st_db s) (st_req s) r (st_draws s) (st_trace s) (st_pending s).

Definition set_draws (p : nat) (s : state S SS) : state S SS :=
  mkState (st_db s) (st_req s) (st_res s) p (st_trace s) (st_pending s).

Definition log (ev : event) (s : state S SS) : state S SS :=
  mkState (st_db s) (st_req s) (st_res s) (st_draws s)
    (st_trace s ++ [ev]) (st_pending s).

Definition enqueue (w : write) (s : state S SS) : state S SS :=
  mkState (st_db s) (st_req s) (st_res s) (st_draws s)
    (st_trace s) (st_pending s ++ [w]).

(** The state the cookie tier leaves behind when the cookie names no
    row: the lookup is on the trace and the cookie is cleared. *)
Definition cookie_cleared (s : state S SS) : state S SS :=
  set_res (mkResvars (r_status (st_res s))
             (r_cookies (st_res s) ++ [ClearCookie "sessionId"]))
    (log (Awaited (Select, Sessions)) s).

(** [await knex(...)...]: the statement runs now; the handler throws
    when the database rejects it ([None] from [q]: a constraint of the
    schema is violated). *)
Definition await {A} (o : op) (q : database S SS -> option (A * database S SS))
  : M A :=
  fun e s =>
    let s' := log (Awaited o) s in
    if faults e o then (Throw, s')
    else match q (st_db s) with
         | Some (a, d) => (Ok a, set_db d s')
         | None => (Throw, s')
         end.

(** A read-only awaited statement. *)
Definition query {A} (o : op) (q : database S SS -> A) : M A :=
  await o (fun d => Some (q d, d)).

(** [knex(...).insert(...).then(...)] without [await]: the statement is
    sent and the handler goes on at once.  What becomes of the statement is
    settled later and outside the handler: its effect on the database by
    [settle], and, when the database rejects a statement that was given no
    [.catch], the end of the process by [unhandled]. *)
Definition dispatch (w : write) : M unit :=
  fun _ s => (Ok tt, enqueue w (log (Dispatched (write_op w)) s)).

(** A computation on the request's random source: [f] receives the
    oracle and the number of draws consumed and returns the new count. *)
Definition draw {A} (f : Rand.oracle -> nat -> A * nat) : M A :=
  fun e s =>
    let (a, p) := f (rnd e) (st_draws s) in
    (Ok a, set_draws p s).

(** [rs(n)] *)
Definition rs (n : nat) : M string := draw (fun r p => Rand.rs r n p).

(** One call of [Math.round(Math.random())]. *)
Definition coin : M bool :=
  draw (fun r p => (Nat.eqb (r p mod 2) 1, Datatypes.S p)).

Definition set_status (code : Z) : M unit :=
  modify (fun s => set_res (mkResvars code (r_cookies (st_res s))) s).

Definition add_cookie (c : cookie_action) : M unit :=
  modify (fun s =>
    set_res (mkResvars (r_status (st_res s)) (r_cookies (st_res s) ++ [c])) s).

Definition update_req (f : reqvars S -> reqvars S) : M unit :=
  modify (fun s => set_req (f (st_req s)) s).

(** The state a request starts from. *)
Definition start (d : database S SS) (rq : request S) : state S SS :=
  mkState d
    (mkReqvars (rq_session_user rq) "" (rq_method rq) None Js.JUndefined None)
    (mkResvars 200 []) 0 [] [].

(** [req.ip = req.headers["x-forwarded-for"] || req.connection.remoteAddress;
    next()].  Express defines [req.ip] by a getter without a setter, and
    [app.js] is not in strict mode, so the assignment is dropped without an
    error: whatever the header says, the handlers read the getter's value.
    [app.js] sets [trust proxy] only when [ENV] is [production]; this is the
    model of the other case, in which the getter gives the transport
    address.  The middleware changes nothing; [v_ip], which stands for what
    [req.ip] reads, is filled in at this point. *)
Definition ip_middleware (rq : request S) : M unit :=
  update_req (fun v =>
    mkReqvars (v_session_user v) (rq_remote_address rq)
      (v_method v) (v_method_name v) (v_method_value v) (v_user_id v)).

(** A route with two handlers: the second runs when the first calls [next]. *)
Definition route (first second : M flow) : M reply :=
  bind first (fun f =>
    match f with
    | Sent r => ret r
    | Next => bind second (fun f' =>
        match f' with
        | Sent r => ret r
        | Next => throw
        end)
    end).
(** The last lines of the second handler of [GET /l/:code], the same in
    both revisions: a redirect for [GET], the rendered form otherwise;
    [JSON.parse(null)] is [null]. *)
Definition deliver (sl : shortlink_row) (destination : string) : M flow :=
  if String.eqb (sl_method sl) "GET" then ret (Sent (Redirect destination))
  else
    match sl_data sl with
    | None =>
        ret (Sent (Render "postlink.handlebars"
                     [("data", Js.JNull); ("destination", Js.JStr destination)]))
    | Some text =>
        bind (asks (fun e => json_parse e text)) (fun parsed =>
          match parsed with
          | Some data =>
              ret (Sent (Render "postlink.handlebars"
                           [("data", data); ("destination", Js.JStr destination)]))
          | None => throw
          end)
    end.

(** [res.status(400).render("login.handlebars", {error})] *)
Definition login_error (message : string) : M reply :=
  bind (set_status 400) (fun _ =>
    ret (Render "login.handlebars" [("error", Js.JStr message)])).

(** The effect of a dispatched statement once the database runs it.
    AUTO_INCREMENT supplies the key; [dynamic_urls.user_id] is NOT NULL,
    so a row without a user id is refused. *)
Definition apply_write (w : write) (d : database S SS) : database S SS :=
  match w with
  | WOutbound ip ua code m v =>
      mkDb (users d) (sessions d) (saved_sessions d) (ips d) (shortlinks d)
        (outbound d ++ [mkOutbound (next_id ob_id (outbound d)) ip ua code m v])
        (dynamic_urls d)
  | WDynamicUrl (Some uid) url =>
      mkDb (users d) (sessions d) (saved_sessions d) (ips d) (shortlinks d)
        (outbound d)
        (dynamic_urls d ++ [mkDynamicUrl (next_id du_id (dynamic_urls d)) uid url])
  | WDynamicUrl None _ => d
  | WShortlink code method data destination linkbust =>
      mkDb (users d) (sessions d) (saved_sessions d) (ips d)
        (shortlinks d ++
           [mkShortlink (next_id sl_id (shortlinks d)) code method data
              linkbust destination])
        (outbound d) (dynamic_urls d)
  end.

(** The database after the dispatched statements have completed, in the
    order they were issued; a rejected one is dropped. *)
Definition settle (e : env) (s : state S SS) : database S SS :=
  fold_left
    (fun d w => if faults e (write_op w) then d else apply_write w d)
    (st_pending s) (st_db s).

(** Whether the statement was dispatched with a [.catch]: [POST /l] gives
    its insert one; the two inserts of [GET /l/:code] have a [.then] only. *)
Definition caught (w : write) : bool :=
  match w with
  | WShortlink _ _ _ _ _ => true
  | WOutbound _ _ _ _ _ | WDynamicUrl _ _ => false
  end.

(** The dispatched statements the database rejects and no [.catch]
    receives: each is a promise rejected without a handler, on which Node
    (15 and later) ends the process. *)
Definition unhandled (e : env) (pending : list write) : list write :=
  filter (fun w => negb (caught w) && faults e (write_op w)) pending.
End Monad.

Declare Scope handler_scope.
Delimit Scope handler_scope with handler.
Notation "x <- m ;; k" := (bind m (fun x => k))
  (at level 61, m at next level, right associativity) : handler_scope.
Notation "m ;; k" := (bind m (fun _ => k))
  (at level 61, right associativity) : handler_scope.

End Http.

(** ** The richer revision of [app.js] *)

Module Richer.
Import Db Http.
Local Open Scope handler_scope.

Definition db : Type := database session_row saved_session_row.
Definition H (A : Type) : Type := @M session_row saved_session_row A.
Definition rstate : Type := state session_row saved_session_row.

(** A row of [users] joined with [sessions] or [ips]:
    [select users.id, users.member, <key>]. *)
Record joined_row : Type := mkJoined {
  j_id : Z;
  j_member : Z;
  j_key : string
}.

(** [knex("users").select(...).innerJoin("sessions", "sessions.user_id",
    "=", "users.id").where("sessions.id", cookie).first()] *)
Definition user_by_session (cookie : string) (d : db) : option joined_row :=
  first
    (flat_map
       (fun s =>
          map (fun u => mkJoined (user_id u) (user_member u) (session_id s))
            (where_ (fun u => (user_id u =? session_user_id s)%Z) (users d)))
       (where_ (fun s => String.eqb (session_id s) cookie) (sessions d))).

(** [knex("users").select(...).innerJoin("ips", "ips.user_id", "=",
    "users.id").where("ips.ip_address", ip).first()]; [ip] is [null] when
    [req.ip] is falsy, and the column is NOT NULL. *)
Definition user_by_ip (ip : option string) (d : db) : option joined_row :=
  match ip with
  | None => None
  | Some a =>
      first
        (flat_map
           (fun i =>
              map (fun u => mkJoined (user_id u) (user_member u) (ip_address i))
                (where_ (fun u => (user_id u =? ip_user_id i)%Z) (users d)))
           (where_ (fun i => String.eqb (ip_address i) a) (ips d)))
  end.

Definition set_auth (name : string) (value : Js.jsval) (uid : Z)
  (v : reqvars session_row) : reqvars session_row :=
  mkReqvars (v_session_user v) (v_ip v) (v_method v) (Some name) value (Some uid).

(** First tier of the trust middleware of [GET /l/:code]: [Some f] when the
    middleware returns [f] here, [None] when control goes on. *)
Definition tier_user : H (option flow) :=
  su <- gets (fun s => v_session_user (st_req s)) ;;
  match su with
  | Some u =>
      update_req
        (set_auth "USER" (Js.JNum (user_id (su_row u))) (user_id (su_row u))) ;;
      if Js.truthy_num (user_member (su_row u))
      then ret (Some Next)
      else ret None
  | None => ret None
  end.

(** Second tier: the [sessionId] cookie. *)
Definition tier_cookie (rq : request session_row) : H (option flow) :=
  if Js.truthy_str (rq_cookie_sessionId rq) then
    match rq_cookie_sessionId rq with
    | Some cookie =>
        session <- query (Select, Sessions) (user_by_session cookie) ;;
        match session with
        | Some j =>
            if Js.truthy_num (j_member j)
            then update_req (set_auth "SESSION" (Js.JStr cookie) (j_id j)) ;;
                 ret (Some Next)
            else ret None
        | None =>
            add_cookie (ClearCookie "sessionId") ;;
            ret None
        end
    | None => ret None
    end
  else ret None.

(** Third tier: the caller's address, then the 401. *)
Definition tier_ip : H flow :=
  req_ip <- gets (fun s => v_ip (st_req s)) ;;
  let ip := if Js.truthy (Js.JStr req_ip) then Some req_ip else None in
  ipSession <- query (Select, Ips) (user_by_ip ip) ;;
  match ipSession with
  | Some j =>
      if Js.truthy_num (j_member j)
      then update_req (set_auth "IP" (Js.JStr req_ip) (j_id j)) ;;
           ret Next
      else set_status 401 ;; ret (Sent (Render "unauthorized.handlebars" []))
  | None => set_status 401 ;; ret (Sent (Render "unauthorized.handlebars" []))
  end.

(** The first handler of [GET /l/:code]. *)
Definition trust (rq : request session_row) : H flow :=
  r1 <- tier_user ;;
  match r1 with
  | Some f => ret f
  | None =>
      r2 <- tier_cookie rq ;;
      match r2 with
      | Some f => ret f
      | None => tier_ip
      end
  end.

(** The [RANDOM] case: [for (let i = 0; i < destination.split("%RAN%").length;
    i++) { destination = destination.replace("%RAN%", rs(5)) }].  The bound
    is read again on every turn.  [fuel] bounds the number of turns;
    [None] when it runs out. *)
Fixpoint random_loop (rnd : Rand.oracle) (fuel i : nat) (destination : string)
  (p : nat) : option (string * nat) :=
  if (i <? List.length (Js.split "%RAN%" destination))%nat then
    match fuel with
    | O => None
    | Datatypes.S fuel' =>
        let (ran, p') := Rand.rs rnd 5 p in
        random_loop rnd fuel' (i + 1) (Js.replace "%RAN%" ran destination) p'
    end
  else Some (destination, p).

(** The loop with the fuel it needs (see [random_loop_fuel]). *)
Definition linkbust_random (rnd : Rand.oracle) (destination : string) (p : nat)
  : string * nat :=
  match random_loop rnd (Datatypes.S (String.length destination)) 0 destination p with
  | Some r => r
  | None => (destination, p)
  end.

(** The [CAPITALS] case: [split("").map(v => Math.round(Math.random()) ?
    v.toUpperCase() : v.toLowerCase()).join("")].  One draw and one
    character out per character in: this is the code on ASCII destinations
    (see [Js.is_ascii]); elsewhere [toUpperCase] can give two characters
    for one. *)
Fixpoint linkbust_capitals (destination : string) : H string :=
  match destination with
  | EmptyString => ret EmptyString
  | String v rest =>
      up <- coin ;;
      rest' <- linkbust_capitals rest ;;
      ret (String (if up then Js.upper_ascii v else Js.lower_ascii v) rest')
  end.

(** The [CACHEBUST] case: [new URL] throws on a string it cannot parse. *)
Definition linkbust_cachebust (destination : string) : H string :=
  parses <- asks (fun e => url_valid e destination) ;;
  if parses then
    ranKey <- rs 5 ;;
    ranVal <- rs 5 ;;
    asks (fun e => url_append e destination ranKey ranVal)
  else throw.

(** The body of the [switch (technique)]. *)
Definition apply_technique (technique destination : string) : H string :=
  if String.eqb technique "CAPITALS" then linkbust_capitals destination
  else if String.eqb technique "CACHEBUST" then linkbust_cachebust destination
  else if String.eqb technique "RANDOM" then
    draw (fun r p => linkbust_random r destination p)
  else ret destination.

(** [for (const technique of techniques)]. *)
Fixpoint apply_techniques (techniques : list string) (destination : string)
  : H string :=
  match techniques with
  | [] => ret destination
  | technique :: rest =>
      d <- apply_technique technique destination ;;
      apply_techniques rest d
  end.

(** [if (shortlink.linkbust) { ... }] *)
Definition linkbust (sl : shortlink_row) : H string :=
  match sl_linkbust sl with
  | Some lb =>
      if Js.truthy (Js.JStr lb)
      then apply_techniques (Js.split "|" lb) (sl_destination sl)
      else ret (sl_destination sl)
  | None => ret (sl_destination sl)
  end.

(** The second handler of [GET /l/:code], step by step.  Its two inserts
    are dispatched, and what becomes of them is left open here;
    [resolve_in_process] is the handler as the process runs it. *)
Definition resolve (rq : request session_row) : H flow :=
  v <- gets st_req ;;
  dispatch (WOutbound (v_ip v) (rq_user_agent rq) (rq_code rq)
              (v_method_name v) (v_method_value v)) ;;
  shortlink <- query (Select, Shortlinks) (fun d => shortlink_by_code d (rq_code rq)) ;;
  match shortlink with
  | None => ret (Sent (Render "404.handlebars" []))
  | Some sl =>
      destination <- linkbust sl ;;
      dispatch (WDynamicUrl (v_user_id v) destination) ;;
      deliver sl destination
  end.

Definition outbound_write (w : write) : bool :=
  match w with
  | WOutbound _ _ _ _ _ => true
  | _ => false
  end.

(** The second handler as the process runs it.  [resolve] is the handler
    step by step, the fate of its two dispatched inserts left open.  Neither
    has a [.catch].  The outbound insert is sent before the handler waits for
    the shortlinks query: when the database rejects it, the rejection
    arrives while the handler waits, reaches no handler, and the process
    ends before any response is written.  The dynamic_urls insert is sent
    after the last [await], and the response is written in the same turn. *)
Definition resolve_in_process (rq : request session_row) : H flow :=
  fun e s =>
    match resolve rq e s with
    | (Ok f, s') =>
        if existsb outbound_write (unhandled e (st_pending s'))
        then (Throw, s')
        else (Ok f, s')
    | (Throw, s') => (Throw, s')
    end.

(** [app.get("/l/:code", trust, resolve)] behind the address middleware:
    what the client receives. *)
Definition get_l_code (rq : request session_row) : H reply :=
  ip_middleware rq ;;
  route (trust rq) (resolve_in_process rq).

(** *** [POST /l] *)

(** [req.body] of a creation request.  [code], [method] and [destination]
    are strings when present; [data] and [linkbust], which the handler
    inspects with [typeof], keep the whole value. *)
Record link_body : Type := mkLinkBody {
  b_code : option string;
  b_method : option string;
  b_destination : option string;
  b_data : Js.jsval;
  b_linkbust : Js.jsval
}.

Definition bad_request (message : string) : H reply :=
  set_status 400 ;; ret (Json [("error", Js.JStr message)]).

(** [req.body.linkbust.map(lb => lb.toUpperCase())]: [None] when an
    element has no [toUpperCase] (a TypeError). *)
Fixpoint upper_all (items : list Js.jsval) : option (list string) :=
  match items with
  | [] => Some []
  | Js.JStr lb :: rest =>
      match upper_all rest with
      | Some l => Some (Js.toUpperCase lb :: l)
      | None => None
      end
  | _ :: _ => None
  end.

(** The three [if (linkbust.includes(..)) linkbustList.push(..)]. *)
Definition linkbust_list (linkbust : list string) : list string :=
  (if Js.includes linkbust "RANDOM" then ["RANDOM"] else []) ++
  (if Js.includes linkbust "CACHEBUST" then ["CACHEBUST"] else []) ++
  (if Js.includes linkbust "CAPITALS" then ["CAPITALS"] else []).

(** The block that computes [linkbustList]: [inl] is the 400 of a
    [linkbust] that is not an object, [inr None] a TypeError. *)
Definition normalize_linkbust (v : Js.jsval)
  : string + option (option string) :=
  if Js.truthy v then
    if negb (String.eqb (Js.typeof v) "object")
    then inl "The `linkbust` parameter must be an array."
    else match v with
         | Js.JArr items =>
             match upper_all items with
             | Some linkbust => inr (Some (Some (Js.join "|" (linkbust_list linkbust))))
             | None => inr None
             end
         | _ => inr None
         end
  else inr (Some None).

(** The checks on [data]: the message of the 400, if any. *)
Definition check_data (method : string) (data : Js.jsval) : option string :=
  if Js.truthy data then
    if String.eqb method "GET"
    then Some "A method of `GET` cannot contain form-data."
    else if negb (String.eqb (Js.typeof data) "object")
    then Some "The `data` parameter must be a key-value object."
    else None
  else None.

(** The end of the handler: the insert is built and [.then]-ed, and the
    answer is sent without waiting for it. *)
Definition store (b : link_body) (code method destination : string)
  (linkbustList : option string) : H reply :=
  data <- (if Js.truthy (b_data b)
           then asks (fun e => Some (json_stringify e (b_data b)))
           else ret None) ;;
  dispatch
    (WShortlink code (Js.toUpperCase method) data destination linkbustList) ;;
  ret (Json [("message", Js.JStr "Shortlink creation in progress.");
             ("code", Js.JStr code)]).

Definition create (b : link_body) : H reply :=
  code <- (match b_code b with
           | Some c => if Js.truthy_str (b_code b) then ret c else rs 5
           | None => rs 5
           end) ;;
  match b_method b with
  | None => bad_request "Missing `method` parameter."
  | Some method =>
      if negb (Js.truthy_str (b_method b))
      then bad_request "Missing `method` parameter."
      else if negb (Js.includes ["GET"; "POST"] (Js.toUpperCase method))
      then bad_request
             "Invalid `method` parameter. The method must either be POST or GET."
      else
        match b_destination b with
        | None => bad_request "Missing `destination` parameter."
        | Some destination =>
            if negb (Js.truthy_str (b_destination b))
            then bad_request "Missing `destination` parameter."
            else
              match check_data method (b_data b) with
              | Some message => bad_request message
              | None =>
                  match normalize_linkbust (b_linkbust b) with
                  | inl message => bad_request message
                  | inr None => throw
                  | inr (Some linkbustList) =>
                      store b code method destination linkbustList
                  end
              end
        end
  end.

Definition post_l (rq : request session_row) (b : link_body) : H reply :=
  ip_middleware rq ;;
  create b.

(** *** [POST /login] *)

Definition id_asc (a b : session_row) : bool :=
  String.leb (session_id a) (session_id b).

(** [knex("sessions").where("user_id", uid).orderBy("id", "ASC")] *)
Definition sessions_of (uid : Z) (d : db) : list session_row :=
  orderBy id_asc (where_ (fun s => (session_user_id s =? uid)%Z) (sessions d)).

(** [knex("sessions").where("user_id", uid).where("id", sid).delete()] *)
Definition delete_session (uid : Z) (sid : string) (d : db) : db :=
  mkDb (users d)
    (delete_where
       (fun s => (session_user_id s =? uid)%Z && String.eqb (session_id s) sid)
       (sessions d))
    (saved_sessions d) (ips d) (shortlinks d) (outbound d) (dynamic_urls d).

(** [knex("sessions").insert(row)]: [id] is the primary key. *)
Definition insert_session (row : session_row) (d : db) : option (unit * db) :=
  if existsb (fun s => String.eqb (session_id s) (session_id row)) (sessions d)
  then None
  else Some (tt, mkDb (users d) (sessions d ++ [row]) (saved_sessions d)
                   (ips d) (shortlinks d) (outbound d) (dynamic_urls d)).

(** [knex("saved_sessions").insert(row)]: [id] is the primary key. *)
Definition insert_saved_session (row : saved_session_row) (d : db)
  : option (unit * db) :=
  if existsb (fun s => String.eqb (saved_id s) (saved_id row)) (saved_sessions d)
  then None
  else Some (tt, mkDb (users d) (sessions d) (saved_sessions d ++ [row])
                   (ips d) (shortlinks d) (outbound d) (dynamic_urls d)).

(** The block guarded by [if (!req.cookies.sessionId && !validSession)]. *)
Definition issue_session (rq : request session_row) (user : user_row) : H unit :=
  sessionId <- asks uuidv4 ;;
  created_at <- asks now ;;
  currentSessions <- query (Select, Sessions) (sessions_of (user_id user)) ;;
  (if (List.length currentSessions =? 5)%nat then
     match currentSessions with
     | lastSession :: _ =>
         await (Delete, Sessions)
           (fun d => Some (tt, delete_session (user_id user) (session_id lastSession) d))
     | [] => ret tt
     end
   else ret tt) ;;
  await (Insert, Sessions)
    (insert_session
       (mkSession sessionId (user_id user) (rq_user_agent rq) created_at)) ;;
  req_ip <- gets (fun s => v_ip (st_req s)) ;;
  await (Insert, SavedSessions)
    (insert_saved_session
       (mkSavedSession sessionId (user_id user) (rq_user_agent rq) req_ip created_at)) ;;
  add_cookie (SetCookie "sessionId" sessionId).

(** The cookie check: the value of [validSession]. *)
Definition valid_session (rq : request session_row) (user : user_row) : H bool :=
  if Js.truthy_str (rq_cookie_sessionId rq) then
    match rq_cookie_sessionId rq with
    | Some cookie =>
        currentSession <-
          query (Select, Sessions)
            (fun d => first (where_ (fun s => String.eqb (session_id s) cookie)
                               (sessions d))) ;;
        match currentSession with
        | Some cs => ret (session_user_id cs =? user_id user)%Z
        | None => ret false
        end
    | None => ret false
    end
  else ret false.

Definition login (rq : request session_row) (b : login_body) : H reply :=
  match b_email b with
  | None => login_error "Missing email address."
  | Some email =>
  if negb (Js.truthy_str (b_email b)) then login_error "Missing email address."
  else
  match b_password b with
  | None => login_error "Missing password."
  | Some password =>
  if negb (Js.truthy_str (b_password b)) then login_error "Missing password."
  else
    found <- query (Select, Users)
               (fun d => first (where_ (fun u => String.eqb (user_email u) email)
                                  (users d))) ;;
    match found with
    | None => login_error "User does not exist."
    | Some user =>
        matches <- asks (fun e => bcrypt_compare e password (user_password user)) ;;
        if negb matches
        then login_error "Invalid password."
        else
          validSession <- valid_session rq user ;;
          (if negb (Js.truthy_str (rq_cookie_sessionId rq)) && negb validSession
           then issue_session rq user
           else ret tt) ;;
          user_ips <- query (Select, Ips)
                        (fun d => map ip_address
                                    (where_ (fun i => (ip_user_id i =? user_id user)%Z)
                                       (ips d))) ;;
          user_sessions <- query (Select, Sessions)
                             (fun d => where_ (fun s => (session_user_id s =? user_id user)%Z)
                                         (sessions d)) ;;
          update_req (fun v =>
            mkReqvars (Some (mkSessionUser user user_ips user_sessions))
              (v_ip v) (v_method v) (v_method_name v) (v_method_value v)
              (v_user_id v)) ;;
          ret (Redirect "/")
    end
  end
  end.

Definition post_login (rq : request session_row) (b : login_body) : H reply :=
  ip_middleware rq ;;
  login rq b.

End Richer.

(** ** The simplified revision of [app.js] *)

Module Simplified.
Import Db Http.
Local Open Scope handler_scope.

(** Modelled from the spec: the [sessions] table of the simplified
    revision, whose schema is not in [authcord.sql].  The spec's Session is
    (session_id, user_id, user_agent, created_at); [id] is the column the
    revision's queries order and delete by, an AUTO_INCREMENT key as in the
    other tables. *)
Record session_row : Type := mkSession {
  s_id : Z;
  s_session_id : string;
  s_user_id : Z;
  s_user_agent : string;
  s_created_at : Z
}.

(** Modelled from the spec: the [saved_sessions] table of the simplified
    revision (the mirror of [sessions], keyed identically, with the
    caller's address), whose schema is not in [authcord.sql]. *)
Record saved_session_row : Type := mkSavedSession {
  ss_session_id : string;
  ss_user_id : Z;
  ss_user_agent : string;
  ss_ip_address : string;
  ss_created_at : Z
}.

Definition db : Type := database session_row saved_session_row.
Definition H (A : Type) : Type := @M session_row saved_session_row A.
Definition sstate : Type := state session_row saved_session_row.

(** [req.method = name; req.method_value = value] *)
Definition set_auth (name : string) (value : Js.jsval)
  (v : reqvars session_row) : reqvars session_row :=
  mkReqvars (v_session_user v) (v_ip v) name (v_method_name v) value (v_user_id v).

(** Second tier of the trust middleware: the [sessionId] cookie.  [Some f]
    when the middleware returns [f] here, [None] when control goes on. *)
Definition tier_cookie (rq : request session_row) : H (option flow) :=
  if Js.truthy_str (rq_cookie_sessionId rq) then
    match rq_cookie_sessionId rq with
    | Some cookie =>
        hasSession <-
          query (Select, Sessions)
            (fun d => first (where_ (fun s => String.eqb (s_session_id s) cookie)
                               (sessions d))) ;;
        match hasSession with
        | Some _ =>
            update_req (set_auth "SESSION" (Js.JStr cookie)) ;;
            ret (Some Next)
        | None =>
            add_cookie (ClearCookie "sessionId") ;;
            ret None
        end
    | None => ret None
    end
  else ret None.

(** Third tier: the caller's address, then the 401. *)
Definition tier_ip : H flow :=
  req_ip <- gets (fun s => v_ip (st_req s)) ;;
  ipIsAuthed <-
    query (Select, Ips)
      (fun d => first (where_ (fun i => String.eqb (ip_address i) req_ip) (ips d))) ;;
  match ipIsAuthed with
  | Some _ =>
      update_req (set_auth "IP" (Js.JStr req_ip)) ;;
      ret Next
  | None =>
      set_status 401 ;;
      ret (Sent (Render "unauthorized.handlebars" []))
  end.

(** The first handler of [GET /l/:code]. *)
Definition trust (rq : request session_row) : H flow :=
  su <- gets (fun s => v_session_user (st_req s)) ;;
  match su with
  | Some u =>
      update_req (set_auth "USER" (Js.JNum (user_id (su_row u)))) ;;
      ret Next
  | None =>
      r2 <- tier_cookie rq ;;
      match r2 with
      | Some f => ret f
      | None => tier_ip
      end
  end.

(** The second handler of [GET /l/:code]: the outbound row is awaited. *)
Definition resolve (rq : request session_row) : H flow :=
  v <- gets st_req ;;
  await (Insert, Outbound)
    (fun d => Some (tt, apply_write
                          (WOutbound (v_ip v) (rq_user_agent rq) (rq_code rq)
                             (Some (v_method v)) (v_method_value v)) d)) ;;
  shortlink <- query (Select, Shortlinks) (fun d => shortlink_by_code d (rq_code rq)) ;;
  match shortlink with
  | None => ret (Sent (Render "404.handlebars" []))
  | Some sl => deliver sl (sl_destination sl)
  end.

Definition get_l_code (rq : request session_row) : H reply :=
  ip_middleware rq ;;
  route (trust rq) (resolve rq).

(** *** [POST /login] *)

Definition id_asc (a b : session_row) : bool := (s_id a <=? s_id b)%Z.

(** [knex("sessions").where("user_id", uid).orderBy("id", "ASC")] *)
Definition sessions_of (uid : Z) (d : db) : list session_row :=
  orderBy id_asc (where_ (fun s => (s_user_id s =? uid)%Z) (sessions d)).

(** [knex("sessions").where("user_id", uid).where("id", id).delete()] *)
Definition delete_session (uid : Z) (id : Z) (d : db) : db :=
  mkDb (users d)
    (delete_where (fun s => (s_user_id s =? uid)%Z && (s_id s =? id)%Z) (sessions d))
    (saved_sessions d) (ips d) (shortlinks d) (outbound d) (dynamic_urls d).

(** [knex("sessions").insert({session_id, user_id, user_agent})]: session
    ids are unique. *)
Definition insert_session (sid : string) (uid : Z) (ua : string) (at_ : Z) (d : db)
  : option (unit * db) :=
  if existsb (fun s => String.eqb (s_session_id s) sid) (sessions d)
  then None
  else Some (tt, mkDb (users d)
                   (sessions d ++ [mkSession (next_id s_id (sessions d)) sid uid ua at_])
                   (saved_sessions d) (ips d) (shortlinks d) (outbound d)
                   (dynamic_urls d)).

Definition insert_saved_session (row : saved_session_row) (d : db)
  : option (unit * db) :=
  if existsb (fun s => String.eqb (ss_session_id s) (ss_session_id row))
       (saved_sessions d)
  then None
  else Some (tt, mkDb (users d) (sessions d) (saved_sessions d ++ [row])
                   (ips d) (shortlinks d) (outbound d) (dynamic_urls d)).

(** The block guarded by [if (!req.cookies.sessionId && !validSession)]. *)
Definition issue_session (rq : request session_row) (user : user_row) : H unit :=
  sessionId <- asks uuidv4 ;;
  created_at <- asks now ;;
  currentSessions <- query (Select, Sessions) (sessions_of (user_id user)) ;;
  (if (List.length currentSessions =? 5)%nat then
     match currentSessions with
     | lastSession :: _ =>
         await (Delete, Sessions)
           (fun d => Some (tt, delete_session (user_id user) (s_id lastSession) d))
     | [] => ret tt
     end
   else ret tt) ;;
  await (Insert, Sessions)
    (insert_session sessionId (user_id user) (rq_user_agent rq) created_at) ;;
  req_ip <- gets (fun s => v_ip (st_req s)) ;;
  await (Insert, SavedSessions)
    (insert_saved_session
       (mkSavedSession sessionId (user_id user) (rq_user_agent rq) req_ip created_at)) ;;
  add_cookie (SetCookie "sessionId" sessionId).

(** The cookie check: here any row with that session id makes
    [validSession] true. *)
Definition valid_session (rq : request session_row) : H bool :=
  if Js.truthy_str (rq_cookie_sessionId rq) then
    match rq_cookie_sessionId rq with
    | Some cookie =>
        currentSession <-
          query (Select, Sessions)
            (fun d => first (where_ (fun s => String.eqb (s_session_id s) cookie)
                               (sessions d))) ;;
        match currentSession with
        | Some _ => ret true
        | None => ret false
        end
    | None => ret false
    end
  else ret false.

Definition login (rq : request session_row) (b : login_body) : H reply :=
  match b_email b with
  | None => login_error "Missing email address."
  | Some email =>
  if negb (Js.truthy_str (b_email b))
  then login_error "Missing email address."
  else
  match b_password b with
  | None => login_error "Missing password."
  | Some password =>
  if negb (Js.truthy_str (b_password b))
  then login_error "Missing password."
  else
    found <- query (Select, Users)
               (fun d => first (where_ (fun u => String.eqb (user_email u) email)
                                  (users d))) ;;
    match found with
    | None => login_error "User does not exist."
    | Some user =>
        matches <- asks (fun e => bcrypt_compare e password (user_password user)) ;;
        if negb matches
        then login_error "Invalid password."
        else
          validSession <- valid_session rq ;;
          (if negb (Js.truthy_str (rq_cookie_sessionId rq)) && negb validSession
           then issue_session rq user
           else ret tt) ;;
          user_ips <- query (Select, Ips)
                        (fun d => map ip_address
                                    (where_ (fun i => (ip_user_id i =? user_id user)%Z)
                                       (ips d))) ;;
          user_sessions <- query (Select, Sessions)
                             (fun d => where_ (fun s => (s_user_id s =? user_id user)%Z)
                                         (sessions d)) ;;
          update_req (fun v =>
            mkReqvars (Some (mkSessionUser user user_ips user_sessions))
              (v_ip v) (v_method v) (v_method_name v) (v_method_value v)
              (v_user_id v)) ;;
          ret (Redirect "/")
    end
  end
  end.

Definition post_login (rq : request session_row) (b : login_body) : H reply :=
  ip_middleware rq ;;
  login rq b.

End Simplified.

(** ** The pages behind the browser session *)

Module Pages.
Import Db Http.
Local Open Scope handler_scope.

Section Pages.
Context {S SS : Type}.

(** The [authed] middleware. *)
Definition authed : @M S SS flow :=
  su <- gets (fun s => v_session_user (st_req s)) ;;
  match su with
  | Some _ => ret Next
  | None => ret (Sent (Redirect "/login"))
  end.

(** The handler of [GET /login]. *)
Definition login_form : @M S SS reply :=
  su <- gets (fun s => v_session_user (st_req s)) ;;
  match su with
  | Some _ => ret (Redirect "/")
  | None => ret (Render "login.handlebars" [])
  end.

Definition get_login (rq : request S) : @M S SS reply :=
  ip_middleware rq ;;
  login_form.

(** [app.get("/links", authed, ...)] *)
Definition get_links (rq : request S) : @M S SS reply :=
  ip_middleware rq ;;
  route authed (ret (Sent (Render "links.handlebars" []))).

(** [try { body } catch (err) { handler }]: what the body did before it
    threw stays done. *)
Definition try_catch {A} (body handler : @M S SS A) : @M S SS A :=
  fun e s =>
    match body e s with
    | (Ok a, s') => (Ok a, s')
    | (Throw, s') => handler e s'
    end.

(** [req.session.user.ips = ips] *)
Definition set_session_ips (addresses : list string) : @M S SS unit :=
  update_req (fun v =>
    mkReqvars
      (match v_session_user v with
       | Some u => Some (mkSessionUser (su_row u) addresses (su_sessions u))
       | None => None
       end)
      (v_ip v) (v_method v) (v_method_name v) (v_method_value v) (v_user_id v)).

(** [req.session.user.sessions = rows] *)
Definition set_session_sessions (rows : list S) : @M S SS unit :=
  update_req (fun v =>
    mkReqvars
      (match v_session_user v with
       | Some u => Some (mkSessionUser (su_row u) (su_ips u) rows)
       | None => None
       end)
      (v_ip v) (v_method v) (v_method_name v) (v_method_value v) (v_user_id v)).

(** [req.session.user.id]; reading it without a session user is a TypeError. *)
Definition current_user_id : @M S SS Z :=
  su <- gets (fun s => v_session_user (st_req s)) ;;
  match su with
  | Some u => ret (user_id (su_row u))
  | None => throw
  end.

(** [(await knex("ips").where("user_id", uid)).map(row => row.ip_address)] *)
Definition addresses_of (uid : Z) (d : database S SS) : list string :=
  map ip_address (where_ (fun i => (ip_user_id i =? uid)%Z) (ips d)).

(** [knex("ips").where("user_id", uid).delete()] *)
Definition delete_ips (uid : Z) (d : database S SS) : database S SS :=
  mkDb (users d) (sessions d) (saved_sessions d)
    (delete_where (fun i => (ip_user_id i =? uid)%Z) (ips d))
    (shortlinks d) (outbound d) (dynamic_urls d).

(** [knex("ips").insert({user_id, ip_address})] *)
Definition insert_ip (uid : Z) (address : string) (d : database S SS)
  : database S SS :=
  mkDb (users d) (sessions d) (saved_sessions d)
    (ips d ++ [mkIp (next_id ip_id (ips d)) uid address])
    (shortlinks d) (outbound d) (dynamic_urls d).

(** [req.body] of [POST /]. *)
Record ip_body : Type := mkIpBody {
  b_type : option string;
  b_ip_1 : option string;
  b_ip_2 : option string
}.

(** The answer of the [catch] block of [POST /]. *)
Definition ip_error : reply :=
  Render "dashboard.handlebars"
    [("ip_error",
      Js.JStr "There was an erroring trying to update your IP addresses.")].

(** One [if (ip_n) { await knex("ips").insert(...) }] of the simplified
    revision. *)
Definition grant (uid : Z) (ip : option string) : @M S SS unit :=
  match ip with
  | Some address =>
      if Js.truthy_str ip
      then await (Insert, Ips) (fun d => Some (tt, insert_ip uid address d))
      else ret tt
  | None => ret tt
  end.
End Pages.

(** The rows of a user's sessions as the dashboard view receives them. *)
Definition session_to_js (r : session_row) : Js.jsval :=
  Js.JObj [("id", Js.JStr (session_id r));
           ("user_id", Js.JNum (session_user_id r));
           ("user_agent", Js.JStr (session_user_agent r));
           ("created_at", Js.JNum (session_created_at r))].

(** The handler of [GET /] in the richer revision. *)
Definition dashboard : Richer.H flow :=
  uid <- current_user_id ;;
  addresses <- query (Select, Ips) (addresses_of uid) ;;
  set_session_ips addresses ;;
  uid' <- current_user_id ;;
  rows <- query (Select, Sessions)
            (fun d => where_ (fun r => (session_user_id r =? uid')%Z) (sessions d)) ;;
  set_session_sessions rows ;;
  v <- gets st_req ;;
  match v_session_user v with
  | Some u =>
      ret (Sent (Render "dashboard.handlebars"
                   [("ip", Js.JStr (v_ip v));
                    ("ips", Js.JArr (map Js.JStr (su_ips u)));
                    ("sessions", Js.JArr (map session_to_js (su_sessions u)));
                    ("member", Js.JNum (user_member (su_row u)))]))
  | None => throw
  end.

(** [app.get("/", authed, ...)] in the richer revision. *)
Definition get_root (rq : request session_row) : Richer.H reply :=
  ip_middleware rq ;;
  route authed dashboard.

(** The handler of [POST /] in the simplified revision. *)
Definition simplified_ip_change (b : ip_body) : Simplified.H flow :=
  match b_type b with
  | Some t =>
      if String.eqb t "ip_change" then
        try_catch
          (uid <- current_user_id ;;
           await (Delete, Ips) (fun d => Some (tt, delete_ips uid d)) ;;
           grant uid (b_ip_1 b) ;;
           grant uid (b_ip_2 b) ;;
           addresses <- query (Select, Ips) (addresses_of uid) ;;
           set_session_ips addresses ;;
           ret (Sent (Redirect "/")))
          (ret (Sent ip_error))
      else ret (Sent (Redirect "/"))
  | None => ret (Sent (Redirect "/"))
  end.

(** [app.post("/", authed, ...)] in the simplified revision. *)
Definition simplified_post_root (rq : request Simplified.session_row)
  (b : ip_body) : Simplified.H reply :=
  ip_middleware rq ;;
  route authed (simplified_ip_change b).

(** *** [POST /] in the richer revision, which also writes [saved_ips] *)

(** [saved_ips] of [authcord.sql]. *)
Record saved_ip_row : Type := mkSavedIp {
  sip_id : Z;
  sip_user_id : Z;
  sip_ip_address : string
}.

(** The handler runs on the state of the other handlers together with the
    table [saved_ips], which no other handler touches. *)
Definition wide : Type := (Richer.rstate * list saved_ip_row)%type.

(** The world of the handler: the world of the others, and whether the
    database rejects inserts into [saved_ips]. *)
Record wenv : Type := mkWenv {
  base : env;
  saved_ips_down : bool
}.

Definition W (A : Type) : Type := wenv -> wide -> outcome A * wide.

Definition wret {A} (a : A) : W A := fun _ w => (Ok a, w).

Definition wbind {A B} (m : W A) (k : A -> W B) : W B :=
  fun e w =>
    match m e w with
    | (Ok a, w') => k a e w'
    | (Throw, w') => (Throw, w')
    end.

(** A step of the other handlers' monad, which leaves [saved_ips] alone. *)
Definition lift {A} (m : Richer.H A) : W A :=
  fun e w =>
    match m (base e) (fst w) with
    | (o, s') => (o, (s', snd w))
    end.

(** [await knex("saved_ips").insert({user_id, ip_address})] *)
Definition insert_saved_ip (uid : Z) (address : string) : W unit :=
  fun e w =>
    if saved_ips_down e then (Throw, w)
    else (Ok tt,
          (fst w, snd w ++ [mkSavedIp (next_id sip_id (snd w)) uid address])).

Definition wtry {A} (body handler : W A) : W A :=
  fun e w =>
    match body e w with
    | (Ok a, w') => (Ok a, w')
    | (Throw, w') => handler e w'
    end.

(** One [if (ip_n) { ...insert(ip) twice }] of the richer revision. *)
Definition wgrant (uid : Z) (ip : option string) : W unit :=
  match ip with
  | Some address =>
      if Js.truthy_str ip
      then wbind
             (lift (await (Insert, Ips) (fun d => Some (tt, insert_ip uid address d))))
             (fun _ => insert_saved_ip uid address)
      else wret tt
  | None => wret tt
  end.

(** The handler of [POST /] in the richer revision. *)
Definition ip_change (b : ip_body) : W flow :=
  match b_type b with
  | Some t =>
      if String.eqb t "ip_change" then
        wtry
          (wbind (lift current_user_id) (fun uid =>
           wbind (lift (await (Delete, Ips) (fun d => Some (tt, delete_ips uid d))))
             (fun _ =>
           wbind (wgrant uid (b_ip_1 b)) (fun _ =>
           wbind (wgrant uid (b_ip_2 b)) (fun _ =>
           wbind (lift (query (Select, Ips) (addresses_of uid))) (fun addresses =>
           wbind (lift (set_session_ips addresses)) (fun _ =>
           wret (Sent (Redirect "/")))))))))
          (wret (Sent ip_error))
      else wret (Sent (Redirect "/"))
  | None => wret (Sent (Redirect "/"))
  end.

(** [app.post("/", authed, ...)] in the richer revision. *)
Definition post_root (rq : request session_row) (b : ip_body) : W reply :=
  wbind (lift (ip_middleware rq)) (fun _ =>
  wbind (lift authed) (fun f =>
    match f with
    | Sent r => wret r
    | Next =>
        wbind (ip_change b) (fun f' =>
          match f' with
          | Sent r => wret r
          | Next => fun _ w => (Throw, w)
          end)
    end)).

End Pages.

(** ** The words of the specification *)

Module Spec.
Import Db Http.

(** The fixed priority: RANDOM, then CACHEBUST, then CAPITALS. *)
Definition priority : list string := ["RANDOM"; "CACHEBUST"; "CAPITALS"].

(** A technique is requested by a submitted array when one of its
    elements is the technique's name up to case. *)
Definition requested (items : list string) (technique : string) : bool :=
  existsb (fun x => String.eqb (Js.toUpperCase x) technique) items.

(** The priority sequence restricted to the techniques requested. *)
Definition normalized (items : list string) : list string :=
  filter (requested items) priority.

(** A submitted array all of whose names are ASCII strings. *)
Definition ascii_names (items : list string) : bool :=
  forallb Js.is_ascii items.


(** A string without the character [%], hence without the placeholder. *)
Fixpoint no_percent (s : string) : bool :=
  match s with
  | EmptyString => true
  | String c s' => negb (Ascii.eqb c "%") && no_percent s'
  end.

(** The destination that reaches [new URL] in a row whose list was stored
    by [POST /l] for the array [items]: RANDOM, if requested, has run. *)
Definition before_cachebust (items : list string) (rnd : Rand.oracle)
  (destination : string) (p : nat) : string :=
  if requested items "RANDOM"
  then fst (Richer.linkbust_random rnd destination p)
  else destination.

(** Every run of [m] takes the database to one that [R] relates to it. *)
Definition db_rel {S SS A : Type} (R : database S SS -> database S SS -> Prop)
  (m : @M S SS A) : Prop :=
  forall e s, R (st_db s) (st_db (snd (m e s))).

(** The number of rows a user has in [sessions]. *)
Definition sessions_held (uid : Z) (d : Richer.db) : nat :=
  List.length (filter (fun s => (session_user_id s =? uid)%Z) (sessions d)).

(** At most 5 concurrent sessions per user. *)
Definition capped (d : Richer.db) : Prop :=
  forall uid, sessions_held uid d <= 5.

(** The cap holds and the user has room for one more session. *)
Definition room (uid : Z) (d : Richer.db) : Prop :=
  capped d /\ sessions_held uid d <= 4.

(** The database after the eviction step of a login of [uid]: with exactly
    five sessions the first of the ordered list is deleted. *)
Definition after_eviction (uid : Z) (d : Richer.db) : Richer.db :=
  if (List.length (Richer.sessions_of uid d) =? 5)%nat then
    match Richer.sessions_of uid d with
    | lastSession :: _ => Richer.delete_session uid (session_id lastSession) d
    | [] => d
    end
  else d.

(** [saved_sessions] loses no row from [d] to [d']. *)
Definition retains (d d' : Richer.db) : Prop :=
  incl (saved_sessions d) (saved_sessions d').



(** The user row [u] is a member with id [uid]. *)
Definition member_row (d : Richer.db) (uid : Z) : Prop :=
  exists u, In u (users d) /\ user_id u = uid /\
            Js.truthy_num (user_member u) = true.

(** The URL a reply delivers: the target of a redirect, or the
    [destination] handed to the form view. *)
Definition delivered (r : reply) : option string :=
  match r with
  | Redirect location => Some location
  | Render "postlink.handlebars" [("data", _); ("destination", Js.JStr d)] => Some d
  | _ => None
  end.

(** A computation that changes nothing of the state but the count of random
    draws. *)
Definition only_draws {S SS A : Type} (m : @M S SS A) : Prop :=
  forall e s, exists p, snd (m e s) = set_draws p s.

(** Every character of [s] is one of the 62 characters of [rs]. *)
Definition alphanumeric (s : string) : bool :=
  forallb (fun c => existsb (Ascii.eqb c) (list_ascii_of_string Rand.characters))
    (list_ascii_of_string s).

(** The number of placeholders the RANDOM loop sees in a destination: the
    pieces of [split("%RAN%")] less one. *)
Definition placeholders (d : string) : nat :=
  List.length (Js.split "%RAN%" d) - 1.

(** The code [POST /l] answers with: the one sent, or [rs(5)] at the
    request's position in the random source. *)
Definition code_of (b : Richer.link_body) (e : env) (s : Richer.rstate) : string :=
  match Richer.b_code b with
  | Some c =>
      if Js.truthy_str (Some c) then c else fst (Rand.rs (rnd e) 5 (st_draws s))
  | None => fst (Rand.rs (rnd e) 5 (st_draws s))
  end.

(** The addresses a body of [POST /] grants: [ip_1] and [ip_2], in that
    order, each if it is truthy. *)
Definition truthy_address (ip : option string) : list string :=
  match ip with
  | Some address => if Js.truthy_str ip then [address] else []
  | None => []
  end.

Definition given (b : Pages.ip_body) : list string :=
  truthy_address (Pages.b_ip_1 b) ++ truthy_address (Pages.b_ip_2 b).

(** The database after the addresses were inserted for [uid], one by one. *)
Definition granted {S SS : Type} (uid : Z) (addresses : list string)
  (d : database S SS) : database S SS :=
  fold_left (fun d' address => Pages.insert_ip uid address d') addresses d.

(** [saved_ips] after the addresses were recorded for [uid], one by one. *)
Definition recorded (uid : Z) (addresses : list string)
  (saved : list Pages.saved_ip_row) : list Pages.saved_ip_row :=
  fold_left
    (fun rows address =>
       rows ++ [Pages.mkSavedIp (next_id Pages.sip_id rows) uid address])
    addresses saved.
End Spec.

(** ** Concrete worlds, databases and requests *)

Module Sample.
Import Db Http.

(** A world in which the database accepts every statement. *)
Definition world : env :=
  mkEnv (fun _ => false) (fun n => n) "6f1c" 100%Z String.eqb
    (String.prefix "http")
    (fun d k v => (d ++ "?" ++ k ++ "=" ++ v)%string)
    (fun text => Some (Js.JStr text))
    (fun _ => "{}").

(** The same world, except that the database rejects inserts into
    [outbound]. *)
Definition world_outbound_down : env :=
  mkEnv (fun o => op_eqb o (Insert, Outbound)) (rnd world) (uuidv4 world)
    (now world) (bcrypt_compare world) (url_valid world) (url_append world)
    (json_parse world) (json_stringify world).

Definition alice : user_row := mkUser 1 "alice@example.com" 1 "secret".
Definition bob : user_row := mkUser 2 "bob@example.com" 0 "hunter2".

Definition links : list shortlink_row :=
  [ mkShortlink 1 "promo" "GET" None None "https://old.example.com";
    mkShortlink 2 "other" "GET" None None "https://other.example.com";
    mkShortlink 3 "promo" "GET" None None "https://new.example.com";
    mkShortlink 4 "three" "GET" None (Some "RANDOM")
      "https://example.com/%RAN%/%RAN%/%RAN%";
    mkShortlink 5 "broken" "GET" None (Some "RANDOM|CACHEBUST") "not a url %RAN%" ].

Definition richer_db : Richer.db :=
  mkDb [alice; bob]
    [mkSession "s-alice" 1 "agent" 10]
    [mkSavedSession "s-alice" 1 "agent" "10.0.0.1" 10]
    [mkIp 1 1 "10.0.0.1"] links [] [].

Definition simplified_db : Simplified.db :=
  mkDb [alice; bob]
    [Simplified.mkSession 1 "s-alice" 1 "agent" 10]
    [Simplified.mkSavedSession "s-alice" 1 "agent" "10.0.0.1" 10]
    [mkIp 1 1 "10.0.0.1"] links [] [].

(** A request from [ip] for [code], with the given session user and cookie. *)
Definition request_of {S : Type} (user : option (session_user S))
  (cookie : option string) (ip code : string) : request S :=
  mkRequest "GET" user cookie None ip "agent" code.

Definition as_user {S : Type} (u : user_row) : option (session_user S) :=
  Some (mkSessionUser u [] []).

(** Alice, logged in, with a stale cookie, from an address nobody granted. *)
Definition rq_alice_stale : request session_row :=
  request_of (as_user alice) (Some "stale") "203.0.113.9" "promo".

(** Nobody logged in, a stale cookie, from Alice's granted address. *)
Definition rq_stale : request session_row :=
  request_of None (Some "stale") "10.0.0.1" "promo".

Definition rq_stale_simplified : request Simplified.session_row :=
  request_of None (Some "stale") "10.0.0.1" "promo".

(** Nobody logged in, no cookie, from Alice's granted address. *)
Definition rq_granted (code : string) : request session_row :=
  request_of None None "10.0.0.1" code.

Definition rq_granted_simplified (code : string)
  : request Simplified.session_row :=
  request_of None None "10.0.0.1" code.

(** [POST /l] with [{method: "get", destination: "https://example.com",
    data: {a: "1"}}]. *)
Definition body_get_with_data : Richer.link_body :=
  Richer.mkLinkBody None (Some "get") (Some "https://example.com")
    (Js.JObj [("a", Js.JStr "1")]) Js.JUndefined.

(** Alice's credentials. *)
Definition alice_login : login_body :=
  mkLoginBody (Some "alice@example.com") (Some "secret").

(** A POST from Alice's address with a cookie that names no session. *)
Definition rq_login_stale : request session_row :=
  mkRequest "POST" None (Some "stale") None "10.0.0.1" "agent" "".

(** A POST from Alice's address without a cookie. *)
Definition rq_login : request session_row :=
  mkRequest "POST" None None None "10.0.0.1" "agent" "".

(** [POST /l] with a destination that is no URL and a cache bust. *)
Definition body_broken : Richer.link_body :=
  Richer.mkLinkBody (Some "oops") (Some "GET") (Some "not a url")
    Js.JUndefined (Js.JArr [Js.JStr "cachebust"]).

(** Alice has five sessions; their ids fall as their creation times rise. *)
Definition five_sessions : list session_row :=
  [ mkSession "e5" 1 "agent" 1;
    mkSession "d4" 1 "agent" 2;
    mkSession "c3" 1 "agent" 3;
    mkSession "b2" 1 "agent" 4;
    mkSession "a1" 1 "agent" 5 ].

Definition crowded_db : Richer.db :=
  mkDb [alice; bob] five_sessions
    (map (fun s => mkSavedSession (session_id s) (session_user_id s)
                     (session_user_agent s) "10.0.0.1" (session_created_at s))
       five_sessions)
    [] links [] [].


(** The state in which the handlers of a route find a request: the address
    middleware has run. *)
Definition arrived {S SS : Type} (d : database S SS) (rq : request S) : state S SS :=
  snd (ip_middleware rq world (start d rq)).

(** Nobody logged in, no cookie, from an address nobody granted. *)
Definition rq_stranger : request session_row :=
  request_of None None "203.0.113.9" "promo".

(** Nobody logged in, with the cookie of Bob's session, from an address
    nobody granted; Bob is no member. *)
Definition rq_bob_cookie : request session_row :=
  request_of None (Some "s-bob") "203.0.113.9" "promo".

Definition bob_db : Richer.db :=
  mkDb [alice; bob]
    [mkSession "s-alice" 1 "agent" 10; mkSession "s-bob" 2 "agent" 11]
    [] [mkIp 1 1 "10.0.0.1"] links [] [].

(** [POST /l] with [{code: "promo", method: "get", destination:
    "https://latest.example.com"}]: a code that two rows hold already. *)
Definition body_promo : Richer.link_body :=
  Richer.mkLinkBody (Some "promo") (Some "get") (Some "https://latest.example.com")
    Js.JUndefined Js.JUndefined.


(** Alice's address with a password that is not hers. *)
Definition wrong_password : login_body :=
  mkLoginBody (Some "alice@example.com") (Some "guess").

(** [POST /] with [{type: "ip_change", ip_1: "198.51.100.1", ip_2:
    "198.51.100.2"}]. *)
Definition two_addresses : Pages.ip_body :=
  Pages.mkIpBody (Some "ip_change") (Some "198.51.100.1") (Some "198.51.100.2").

(** Alice, logged in, on the simplified revision. *)
Definition rq_alice_simplified : request Simplified.session_row :=
  request_of (as_user alice) None "10.0.0.1" "".
End Sample.

(** * Properties *)

Import Db Http.

(** Unfolding the monad: every primitive is a function of the world and the
    state, so a handler run on a symbolic state reduces as far as its tests
    allow. *)
Ltac unfold_monad :=
  unfold route, query, await, dispatch, rs, coin, draw, asks, gets, modify,
    update_req, add_cookie, set_status, throw, bind, ret in *.

(** ** The trust middleware *)

Section Trust.
Variable e : env.

(** Simplified revision: a session user is authorized at once. *)
Lemma simplified_trust_session_user
  (rq : request Simplified.session_row) (s : Simplified.sstate)
  (u : session_user Simplified.session_row) :
  v_session_user (st_req s) = Some u ->
  Simplified.trust rq e s =
    (Ok Next,
     set_req (Simplified.set_auth "USER" (Js.JNum (user_id (su_row u))) (st_req s)) s).
Proof.
  intros Hu. unfold Simplified.trust. unfold_monad.
  rewrite Hu. reflexivity.
Qed.

(** Richer revision: a session user who is a member is authorized at once. *)
Lemma richer_trust_member
  (rq : request session_row) (s : Richer.rstate) (u : session_user session_row) :
  v_session_user (st_req s) = Some u ->
  Js.truthy_num (user_member (su_row u)) = true ->
  Richer.trust rq e s =
    (Ok Next,
     set_req (Richer.set_auth "USER" (Js.JNum (user_id (su_row u)))
                (user_id (su_row u)) (st_req s)) s).
Proof.
  intros Hu Hm. unfold Richer.trust, Richer.tier_user. unfold_monad.
  rewrite Hu. cbn. rewrite Hm. reflexivity.
Qed.

(** Richer revision: without the member flag the first tier only leaves
    its marks on [req] and the later tiers decide. *)
Lemma richer_trust_not_member
  (rq : request session_row) (s : Richer.rstate) (u : session_user session_row) :
  v_session_user (st_req s) = Some u ->
  Js.truthy_num (user_member (su_row u)) = false ->
  Richer.trust rq e s =
    bind (Richer.tier_cookie rq)
      (fun r2 => match r2 with
                 | Some f => ret f
                 | None => Richer.tier_ip
                 end)
      e
      (set_req (Richer.set_auth "USER" (Js.JNum (user_id (su_row u)))
                  (user_id (su_row u)) (st_req s)) s).
Proof.
  intros Hu Hm. unfold Richer.trust, Richer.tier_user. unfold_monad.
  rewrite Hu. cbn. rewrite Hm. reflexivity.
Qed.
End Trust.

(** C1.  A request that carries a session user is authorized by the first
    tier with method USER and the user's id as value, and no statement is
    issued, whatever its cookie and address: in the simplified revision
    always, in the richer revision when the user has the member flag; without
    the flag the richer revision goes on to the cookie and address tiers. *)
Theorem C1_session_user_short_circuits :
  (forall e (rq : request Simplified.session_row) s u,
      v_session_user (st_req s) = Some u ->
      exists s',
        Simplified.trust rq e s = (Ok Next, s') /\
        v_method (st_req s') = "USER" /\
        v_method_value (st_req s') = Js.JNum (user_id (su_row u)) /\
        st_trace s' = st_trace s /\ st_res s' = st_res s /\ st_db s' = st_db s) /\
  (forall e (rq : request session_row) s u,
      v_session_user (st_req s) = Some u ->
      Js.truthy_num (user_member (su_row u)) = true ->
      exists s',
        Richer.trust rq e s = (Ok Next, s') /\
        v_method_name (st_req s') = Some "USER" /\
        v_method_value (st_req s') = Js.JNum (user_id (su_row u)) /\
        v_user_id (st_req s') = Some (user_id (su_row u)) /\
        st_trace s' = st_trace s /\ st_res s' = st_res s /\ st_db s' = st_db s) /\
  (forall e (rq : request session_row) s u,
      v_session_user (st_req s) = Some u ->
      Js.truthy_num (user_member (su_row u)) = false ->
      Richer.trust rq e s =
        bind (Richer.tier_cookie rq)
          (fun r2 => match r2 with
                     | Some f => ret f
                     | None => Richer.tier_ip
                     end)
          e
          (set_req (Richer.set_auth "USER" (Js.JNum (user_id (su_row u)))
                      (user_id (su_row u)) (st_req s)) s)).
Proof.
  split; [| split].
  - intros e rq s u Hu. eexists. split.
    + apply simplified_trust_session_user. exact Hu.
    + cbn. repeat split; reflexivity.
  - intros e rq s u Hu Hm. eexists. split.
    + apply richer_trust_member; eassumption.
    + cbn. repeat split; reflexivity.
  - intros e rq s u Hu Hm. apply richer_trust_not_member; assumption.
Qed.

(** C1 at Alice's request: a session user, a stale cookie and an address
    nobody granted. *)
Lemma C1_session_user_short_circuits_witness :
  exists s',
    Richer.trust Sample.rq_alice_stale Sample.world
      (start Sample.richer_db Sample.rq_alice_stale) = (Ok Next, s') /\
    v_method_name (st_req s') = Some "USER" /\
    v_method_value (st_req s') = Js.JNum 1 /\
    v_user_id (st_req s') = Some 1%Z /\
    st_trace s' = [] /\ st_res s' = mkResvars 200 [] /\
    st_db s' = Sample.richer_db.
Proof.
  apply (proj1 (proj2 C1_session_user_short_circuits) Sample.world
           Sample.rq_alice_stale
           (start Sample.richer_db Sample.rq_alice_stale)
           (mkSessionUser Sample.alice [] [])).
  - reflexivity.
  - reflexivity.
Defined.

(** *** The cookie tier on a cookie that names no session *)

Lemma where_none {R : Type} (p : R -> bool) (rows : list R) :
  (forall r, In r rows -> p r = false) -> where_ p rows = [].
Proof.
  unfold where_. induction rows as [| r rows IH]; intros Hp; cbn.
  - reflexivity.
  - rewrite (Hp r (or_introl eq_refl)). apply IH.
    intros r' Hr'. apply Hp. right. exact Hr'.
Qed.

Lemma truthy_str_some (o : option string) :
  Js.truthy_str o = true -> exists c, o = Some c /\ c <> "".
Proof.
  destruct o as [c |]; cbn; [| discriminate].
  intros H. exists c. split; [reflexivity |].
  intros ->. discriminate.
Qed.

Lemma richer_no_session_row (d : Richer.db) (cookie : string) :
  (forall r, In r (sessions d) -> session_id r <> cookie) ->
  Richer.user_by_session cookie d = None.
Proof.
  intros Hno. unfold Richer.user_by_session.
  rewrite where_none; [reflexivity |].
  intros r Hr. apply String.eqb_neq. apply Hno. exact Hr.
Qed.

(** The address tier issues exactly one statement and leaves the cookies
    of the response alone. *)
Lemma richer_tier_ip_trace (e : env) (s : Richer.rstate) :
  st_trace (snd (Richer.tier_ip e s)) = st_trace s ++ [Awaited (Select, Ips)] /\
  r_cookies (st_res (snd (Richer.tier_ip e s))) = r_cookies (st_res s).
Proof.
  unfold Richer.tier_ip. unfold_monad. cbn.
  destruct (faults e (Select, Ips)); cbn; [split; reflexivity |].
  destruct (Richer.user_by_ip _ _) as [j |]; cbn; [| split; reflexivity].
  destruct (Js.truthy_num (Richer.j_member j)); cbn; split; reflexivity.
Qed.

Lemma simplified_tier_ip_trace (e : env) (s : Simplified.sstate) :
  st_trace (snd (Simplified.tier_ip e s)) = st_trace s ++ [Awaited (Select, Ips)] /\
  r_cookies (st_res (snd (Simplified.tier_ip e s))) = r_cookies (st_res s).
Proof.
  unfold Simplified.tier_ip. unfold_monad. cbn.
  destruct (faults e (Select, Ips)); cbn; [split; reflexivity |].
  destruct (first _) as [j |]; cbn; split; reflexivity.
Qed.

Lemma richer_trust_stale_cookie (e : env) (rq : request session_row)
  (s : Richer.rstate) :
  v_session_user (st_req s) = None ->
  Js.truthy_str (rq_cookie_sessionId rq) = true ->
  faults e (Select, Sessions) = false ->
  (forall r, In r (sessions (st_db s)) -> Some (session_id r) <> rq_cookie_sessionId rq) ->
  Richer.trust rq e s = Richer.tier_ip e (cookie_cleared s).
Proof.
  intros Hu Hc Hf Hno.
  destruct (truthy_str_some _ Hc) as [c [Hcookie Hne]].
  unfold Richer.trust, Richer.tier_user, Richer.tier_cookie. unfold_monad.
  rewrite Hu, Hc, Hcookie. cbn. rewrite Hf.
  rewrite richer_no_session_row.
  - reflexivity.
  - intros r Hr Heq. apply (Hno r Hr). rewrite Hcookie, Heq. reflexivity.
Qed.

Lemma simplified_trust_stale_cookie (e : env)
  (rq : request Simplified.session_row) (s : Simplified.sstate) :
  v_session_user (st_req s) = None ->
  Js.truthy_str (rq_cookie_sessionId rq) = true ->
  faults e (Select, Sessions) = false ->
  (forall r, In r (sessions (st_db s)) ->
             Some (Simplified.s_session_id r) <> rq_cookie_sessionId rq) ->
  Simplified.trust rq e s = Simplified.tier_ip e (cookie_cleared s).
Proof.
  intros Hu Hc Hf Hno.
  destruct (truthy_str_some _ Hc) as [c [Hcookie Hne]].
  unfold Simplified.trust, Simplified.tier_cookie. unfold_monad.
  rewrite Hu, Hc, Hcookie. cbn. rewrite Hf.
  rewrite where_none.
  - reflexivity.
  - intros r Hr. apply String.eqb_neq. intros Heq.
    apply (Hno r Hr). rewrite Hcookie, Heq. reflexivity.
Qed.

(** An empty [sessionId] value fails the middleware's test like an absent
    cookie: the cookie tier is skipped altogether. *)
Lemma richer_trust_empty_cookie (e : env) (rq : request session_row)
  (s : Richer.rstate) :
  v_session_user (st_req s) = None ->
  Js.truthy_str (rq_cookie_sessionId rq) = false ->
  Richer.trust rq e s = Richer.tier_ip e s.
Proof.
  intros Hu Hc. unfold Richer.trust, Richer.tier_user, Richer.tier_cookie.
  unfold_monad. rewrite Hu, Hc. reflexivity.
Qed.

(** C2.  With no session user and a [sessionId] cookie (one the middleware's
    test [if (req.cookies.sessionId)] accepts) that names no row of
    [sessions], the middleware clears the cookie and hands the decision to
    the address tier: the lookup by cookie is issued once, then the lookup
    by address once, and nothing else.  Both revisions. *)
Theorem C2_stale_cookie_cleared_then_ip :
  (forall e (rq : request session_row) (s : Richer.rstate),
      v_session_user (st_req s) = None ->
      Js.truthy_str (rq_cookie_sessionId rq) = true ->
      faults e (Select, Sessions) = false ->
      (forall r, In r (sessions (st_db s)) ->
                 Some (session_id r) <> rq_cookie_sessionId rq) ->
      Richer.trust rq e s = Richer.tier_ip e (cookie_cleared s) /\
      r_cookies (st_res (snd (Richer.trust rq e s))) =
        r_cookies (st_res s) ++ [ClearCookie "sessionId"] /\
      st_trace (snd (Richer.trust rq e s)) =
        st_trace s ++ [Awaited (Select, Sessions); Awaited (Select, Ips)]) /\
  (forall e (rq : request Simplified.session_row) (s : Simplified.sstate),
      v_session_user (st_req s) = None ->
      Js.truthy_str (rq_cookie_sessionId rq) = true ->
      faults e (Select, Sessions) = false ->
      (forall r, In r (sessions (st_db s)) ->
                 Some (Simplified.s_session_id r) <> rq_cookie_sessionId rq) ->
      Simplified.trust rq e s = Simplified.tier_ip e (cookie_cleared s) /\
      r_cookies (st_res (snd (Simplified.trust rq e s))) =
        r_cookies (st_res s) ++ [ClearCookie "sessionId"] /\
      st_trace (snd (Simplified.trust rq e s)) =
        st_trace s ++ [Awaited (Select, Sessions); Awaited (Select, Ips)]).
Proof.
  split.
  - intros e rq s Hu Hc Hf Hno.
    rewrite (richer_trust_stale_cookie e rq s Hu Hc Hf Hno).
    destruct (richer_tier_ip_trace e (cookie_cleared s)) as [Ht Hk].
    split; [reflexivity |]. split.
    + rewrite Hk. reflexivity.
    + rewrite Ht. cbn. rewrite <- app_assoc. reflexivity.
  - intros e rq s Hu Hc Hf Hno.
    rewrite (simplified_trust_stale_cookie e rq s Hu Hc Hf Hno).
    destruct (simplified_tier_ip_trace e (cookie_cleared s)) as [Ht Hk].
    split; [reflexivity |]. split.
    + rewrite Hk. reflexivity.
    + rewrite Ht. cbn. rewrite <- app_assoc. reflexivity.
Qed.

(** C2 on a stale cookie sent from Alice's granted address. *)
Lemma C2_stale_cookie_cleared_then_ip_witness :
  Richer.trust Sample.rq_stale Sample.world
    (start Sample.richer_db Sample.rq_stale) =
    Richer.tier_ip Sample.world
      (cookie_cleared (start Sample.richer_db Sample.rq_stale)) /\
  r_cookies (st_res (snd (Richer.trust Sample.rq_stale Sample.world
                            (start Sample.richer_db Sample.rq_stale)))) =
    [] ++ [ClearCookie "sessionId"] /\
  st_trace (snd (Richer.trust Sample.rq_stale Sample.world
                   (start Sample.richer_db Sample.rq_stale))) =
    [] ++ [Awaited (Select, Sessions); Awaited (Select, Ips)].
Proof.
  apply (proj1 C2_stale_cookie_cleared_then_ip Sample.world Sample.rq_stale
           (start Sample.richer_db Sample.rq_stale)).
  - reflexivity.
  - reflexivity.
  - reflexivity.
  - cbn. intros r [<- | []]. cbn. discriminate.
Defined.

(** ** Shortlink resolution *)

Section Resolution.
Context {S SS : Type}.
Implicit Types (d : database S SS) (rows : list shortlink_row).

Lemma first_insert_by {R : Type} (le : R -> R -> bool) (x : R) (l : list R) :
  first (insert_by le x l) =
    match first l with
    | None => Some x
    | Some y => if le x y then Some x else Some y
    end.
Proof.
  destruct l as [| y l]; cbn; [reflexivity |].
  destruct (le x y); reflexivity.
Qed.

Lemma orderBy_cons {R : Type} (le : R -> R -> bool) (x : R) (l : list R) :
  orderBy le (x :: l) = insert_by le x (orderBy le l).
Proof. reflexivity. Qed.

Lemma first_orderBy_none {R : Type} (le : R -> R -> bool) (l : list R) :
  first (orderBy le l) = None <-> l = [].
Proof.
  destruct l as [| x l]; [cbn; tauto |].
  rewrite orderBy_cons, first_insert_by.
  split; [| intros H; discriminate H].
  destruct (first (orderBy le l)) as [y |]; [destruct (le x y) |];
    intros H; discriminate H.
Qed.

(** The first row of the descending order is a row of the list, and no
    row of the list has a greater id. *)
Lemma first_id_desc_greatest rows r :
  first (orderBy id_desc rows) = Some r ->
  In r rows /\ forall r', In r' rows -> (sl_id r' <= sl_id r)%Z.
Proof.
  revert r. induction rows as [| x rows IH]; intros r.
  - discriminate.
  - rewrite orderBy_cons, first_insert_by.
    destruct (first (orderBy id_desc rows)) as [y |] eqn:Hy.
    + destruct (IH y eq_refl) as [Hin Hmax].
      unfold id_desc. destruct (sl_id y <=? sl_id x)%Z eqn:Hle;
        intros Heq; injection Heq as Heq; subst r.
      * apply Z.leb_le in Hle. split; [left; reflexivity |].
        intros r' [<- | Hr']; [lia |]. specialize (Hmax r' Hr'). lia.
      * apply Z.leb_gt in Hle. split; [right; exact Hin |].
        intros r' [<- | Hr']; [lia |]. apply Hmax. exact Hr'.
    + intros Heq; injection Heq as Heq; subst r.
      split; [left; reflexivity |].
      intros r' [<- | Hr']; [lia |].
      apply first_orderBy_none in Hy. subst rows. destruct Hr'.
Qed.

Lemma shortlink_by_code_some d code r :
  shortlink_by_code d code = Some r ->
  In r (shortlinks d) /\ sl_code r = code /\
  forall r', In r' (shortlinks d) -> sl_code r' = code ->
             (sl_id r' <= sl_id r)%Z.
Proof.
  unfold shortlink_by_code, where_. intros H.
  destruct (first_id_desc_greatest _ _ H) as [Hin Hmax].
  apply filter_In in Hin. destruct Hin as [Hin Hcode].
  apply String.eqb_eq in Hcode.
  repeat split; try assumption.
  intros r' Hr' Hc'. apply Hmax. apply filter_In. split; [exact Hr' |].
  apply String.eqb_eq. exact Hc'.
Qed.

Lemma shortlink_by_code_none d code :
  shortlink_by_code d code = None <->
  forall r, In r (shortlinks d) -> sl_code r <> code.
Proof.
  unfold shortlink_by_code, where_. rewrite first_orderBy_none.
  split.
  - intros Hnil r Hr Hc.
    assert (Hin : In r (filter (fun r0 => String.eqb (sl_code r0) code) (shortlinks d))).
    { apply filter_In. split; [exact Hr |]. apply String.eqb_eq. exact Hc. }
    rewrite Hnil in Hin. destruct Hin.
  - intros Hno. apply (where_none (fun r0 => String.eqb (sl_code r0) code)).
    intros r Hr. apply String.eqb_neq. apply Hno. exact Hr.
Qed.



End Resolution.





(** ** Creation: the order of the linkbust list *)

Lemma upper_all_strings (items : list string) :
  Richer.upper_all (map Js.JStr items) = Some (map Js.toUpperCase items).
Proof.
  induction items as [| x items IH]; cbn; [reflexivity |].
  rewrite IH. reflexivity.
Qed.

Lemma includes_upper (items : list string) (technique : string) :
  Js.includes (map Js.toUpperCase items) technique = Spec.requested items technique.
Proof.
  unfold Js.includes, Spec.requested.
  induction items as [| x items IH]; cbn; [reflexivity |].
  rewrite IH, String.eqb_sym. reflexivity.
Qed.

Lemma linkbust_list_normalized (items : list string) :
  Richer.linkbust_list (map Js.toUpperCase items) = Spec.normalized items.
Proof.
  unfold Richer.linkbust_list, Spec.normalized, Spec.priority.
  rewrite !includes_upper. cbn.
  destruct (Spec.requested items "RANDOM"), (Spec.requested items "CACHEBUST"),
    (Spec.requested items "CAPITALS"); reflexivity.
Qed.

Lemma normalize_linkbust_strings (items : list string) :
  Richer.normalize_linkbust (Js.JArr (map Js.JStr items)) =
    inr (Some (Some (Js.join "|" (Spec.normalized items)))).
Proof.
  unfold Richer.normalize_linkbust. cbn.
  rewrite upper_all_strings, linkbust_list_normalized. reflexivity.
Qed.



(** At resolution the stored list is split back into the same sequence. *)
Lemma linkbust_applies_normalized (items : list string) (sl : shortlink_row) :
  sl_linkbust sl = Some (Js.join "|" (Spec.normalized items)) ->
  Richer.linkbust sl =
    Richer.apply_techniques (Spec.normalized items) (sl_destination sl).
Proof.
  unfold Richer.linkbust, Spec.normalized, Spec.priority. cbn.
  intros ->.
  destruct (Spec.requested items "RANDOM"), (Spec.requested items "CACHEBUST"),
    (Spec.requested items "CAPITALS"); reflexivity.
Qed.

Lemma accepted_method_truthy (m : string) :
  Js.includes ["GET"; "POST"] (Js.toUpperCase m) = true ->
  Js.truthy_str (Some m) = true.
Proof.
  destruct m; cbn; [discriminate | reflexivity].
Qed.

Lemma store_queues (e : env) (s : Richer.rstate) (b : Richer.link_body)
  (code m d : string) (lb : option string) :
  fst (Richer.store b code m d lb e s) =
    Ok (Json [("message", Js.JStr "Shortlink creation in progress.");
              ("code", Js.JStr code)]) /\
  st_pending (snd (Richer.store b code m d lb e s)) =
    st_pending s ++
      [WShortlink code (Js.toUpperCase m)
         (if Js.truthy (Richer.b_data b)
          then Some (json_stringify e (Richer.b_data b)) else None)
         d lb] /\
  st_res (snd (Richer.store b code m d lb e s)) = st_res s /\
  st_db (snd (Richer.store b code m d lb e s)) = st_db s.
Proof.
  unfold Richer.store. unfold_monad.
  destruct (Js.truthy (Richer.b_data b)); cbn; repeat split.
Qed.

(** A request that passes every check is answered with the code and
    queues exactly one insert into [shortlinks], whose fields are the
    request's: the destination is stored as sent. *)
Lemma create_accepts (e : env) (s : Richer.rstate) (b : Richer.link_body)
  (m d : string) (lb : option string) :
  Richer.b_method b = Some m ->
  Js.includes ["GET"; "POST"] (Js.toUpperCase m) = true ->
  Richer.b_destination b = Some d ->
  d <> "" ->
  Richer.check_data m (Richer.b_data b) = None ->
  Richer.normalize_linkbust (Richer.b_linkbust b) = inr (Some lb) ->
  exists code,
    fst (Richer.create b e s) =
      Ok (Json [("message", Js.JStr "Shortlink creation in progress.");
                ("code", Js.JStr code)]) /\
    st_pending (snd (Richer.create b e s)) =
      st_pending s ++
        [WShortlink code (Js.toUpperCase m)
           (if Js.truthy (Richer.b_data b)
            then Some (json_stringify e (Richer.b_data b)) else None)
           d lb] /\
    st_res (snd (Richer.create b e s)) = st_res s /\
    st_db (snd (Richer.create b e s)) = st_db s.
Proof.
  intros Hm Hinc Hd Hne Hdata Hlb.
  assert (Hdt : Js.truthy_str (Some d) = true).
  { cbn. apply negb_true_iff. apply String.eqb_neq. exact Hne. }
  pose proof (accepted_method_truthy m Hinc) as Hmt.
  unfold Richer.create, bind.
  rewrite Hm, Hd, Hmt, Hinc, Hdt, Hdata, Hlb. cbn.
  destruct (match Richer.b_code b with
            | Some c => if Js.truthy_str (Richer.b_code b) then ret c else rs 5
            | None => rs 5
            end e s) as [[code |] s1] eqn:Hcode.
  - exists code.
    assert (Hs1 : st_pending s1 = st_pending s /\ st_res s1 = st_res s /\
                  st_db s1 = st_db s).
    { revert Hcode. unfold_monad.
      destruct (Richer.b_code b) as [c |];
        [destruct (Js.truthy_str (Some c)) |];
        try destruct (Rand.rs (rnd e) 5 (st_draws s)) as [r p];
        intros [= _ <-]; repeat split; reflexivity. }
    destruct Hs1 as [Hp [Hr Hdb]].
    destruct (store_queues e s1 b code m d lb) as [H1 [H2 [H3 H4]]].
    rewrite H1, H2, H3, H4, Hp, Hr, Hdb. repeat split.
  - exfalso. revert Hcode. unfold_monad.
    destruct (Richer.b_code b) as [c |];
      [destruct (Js.truthy_str (Some c)) |];
      try destruct (Rand.rs (rnd e) 5 (st_draws s)) as [r p];
      discriminate.
Qed.




(** ** The RANDOM transform *)

Lemma length_append (a b : string) :
  String.length (a ++ b) = String.length a + String.length b.
Proof.
  induction a as [| c a IH]; cbn; [reflexivity |]. rewrite IH. reflexivity.
Qed.

Lemma length_drop (n : nat) (s : string) :
  String.length (Js.drop n s) = String.length s - n.
Proof.
  revert s. induction n as [| n IH]; intros s; cbn.
  - rewrite Nat.sub_0_r. reflexivity.
  - destruct s as [| c s]; cbn; [reflexivity | apply IH].
Qed.

Lemma prefix_length (p s : string) :
  String.prefix p s = true -> String.length p <= String.length s.
Proof.
  revert s. induction p as [| a p IH]; intros s; [cbn; lia |].
  destruct s as [| b s]; cbn; [intros H; discriminate H |].
  destruct (ascii_dec a b); [| intros H; discriminate H].
  intros H. apply IH in H. lia.
Qed.

(** A replacement as long as the pattern keeps the length of the string. *)
Lemma length_replace (pat rep s : string) :
  String.length rep = String.length pat ->
  String.length (Js.replace pat rep s) = String.length s.
Proof.
  intros Hlen. induction s as [| c s IH].
  - unfold Js.replace.
    destruct (String.prefix pat "") eqn:Hp; [| reflexivity].
    apply prefix_length in Hp. cbn in Hp.
    rewrite length_append, length_drop, Hlen. cbn. lia.
  - unfold Js.replace; fold Js.replace.
    destruct (String.prefix pat (String c s)) eqn:Hp.
    + apply prefix_length in Hp.
      rewrite length_append, length_drop, Hlen. lia.
    + cbn. rewrite IH. reflexivity.
Qed.

(** A string is cut into at most one piece more than it has characters,
    and into at least one. *)
Lemma length_split_from (sep : string) (skip : nat) (acc s : string) :
  1 <= List.length (Js.split_from sep skip acc s) <= String.length s + 1.
Proof.
  revert skip acc. induction s as [| c s IH]; intros skip acc; [cbn; lia |].
  unfold Js.split_from; fold Js.split_from. cbn [String.length].
  destruct skip as [| k].
  - destruct (String.prefix sep (String c s)).
    + cbn [List.length]. specialize (IH (String.length sep - 1) ""). lia.
    + specialize (IH 0 (acc ++ String c "")%string). lia.
  - specialize (IH k acc). lia.
Qed.

Lemma charAt_characters (k : nat) :
  k < Rand.charactersLength ->
  String.length (Js.charAt k Rand.characters) = 1.
Proof.
  unfold Rand.charactersLength. cbn. intros Hk.
  do 62 (destruct k as [| k]; [reflexivity |]).
  lia.
Qed.

Lemma length_rs_loop (rnd : Rand.oracle) (n : nat) (acc : string) (p : nat) :
  String.length (fst (Rand.rs_loop rnd n acc p)) = String.length acc + n /\
  snd (Rand.rs_loop rnd n acc p) = p + n.
Proof.
  revert acc p. induction n as [| n IH]; intros acc p.
  - cbn. split; lia.
  - change (Rand.rs_loop rnd (Datatypes.S n) acc p)
      with (Rand.rs_loop rnd n
              (acc ++ Js.charAt (rnd p mod Rand.charactersLength) Rand.characters)
              (Datatypes.S p)).
    destruct (IH (acc ++ Js.charAt (rnd p mod Rand.charactersLength) Rand.characters)%string
                (Datatypes.S p)) as [Hl Hp].
    rewrite Hl, Hp, length_append, charAt_characters.
    + split; lia.
    + apply Nat.mod_upper_bound. unfold Rand.charactersLength. cbn. lia.
Qed.

(** [rs(5)] is five characters long and costs five draws. *)
Lemma length_rs (rnd : Rand.oracle) (n p : nat) :
  String.length (fst (Rand.rs rnd n p)) = n /\ snd (Rand.rs rnd n p) = p + n.
Proof.
  unfold Rand.rs. destruct (length_rs_loop rnd n "" p) as [Hl Hp].
  split; [exact Hl | exact Hp].
Qed.

(** The loop ends: the counter cannot pass the number of pieces, which the
    length of the string bounds, and a turn keeps that length. *)
Lemma random_loop_ends (rnd : Rand.oracle) (fuel : nat) :
  forall (i : nat) (destination : string) (p : nat),
    String.length destination + 1 <= fuel + i ->
    exists r, Richer.random_loop rnd fuel i destination p = Some r.
Proof.
  induction fuel as [| fuel IH]; intros i destination p Hfuel;
    unfold Richer.random_loop; fold Richer.random_loop;
    destruct (i <? List.length (Js.split "%RAN%" destination))%nat eqn:Hi;
    try (eexists; reflexivity).
  - exfalso. apply Nat.ltb_lt in Hi.
    pose proof (length_split_from "%RAN%" 0 "" destination) as Hs.
    unfold Js.split in Hi. lia.
  - destruct (Rand.rs rnd 5 p) as [ran p'] eqn:Hrs.
    apply IH. rewrite length_replace.
    + lia.
    + pose proof (length_rs rnd 5 p) as [Hl _]. rewrite Hrs in Hl. exact Hl.
Qed.

(** [linkbust_random] is the loop itself: its fuel is enough. *)
Lemma random_loop_fuel (rnd : Rand.oracle) (destination : string) (p : nat) :
  Richer.random_loop rnd (Datatypes.S (String.length destination)) 0 destination p =
    Some (Richer.linkbust_random rnd destination p).
Proof.
  unfold Richer.linkbust_random.
  destruct (random_loop_ends rnd (Datatypes.S (String.length destination)) 0
              destination p) as [r Hr]; [lia |].
  rewrite Hr. reflexivity.
Qed.

(** Where the pattern does not occur, [replace] changes nothing. *)
Lemma replace_absent (sep rep s : string) :
  sep <> "" ->
  forall acc, List.length (Js.split_from sep 0 acc s) = 1 -> Js.replace sep rep s = s.
Proof.
  intros Hsep. induction s as [| c s IH]; intros acc Hone.
  - destruct sep; [contradiction | reflexivity].
  - unfold Js.replace; fold Js.replace.
    unfold Js.split_from in Hone; fold Js.split_from in Hone.
    destruct (String.prefix sep (String c s)).
    + exfalso. cbn in Hone.
      pose proof (length_split_from sep (String.length sep - 1) "" s). lia.
    + rewrite (IH _ Hone). reflexivity.
Qed.

(** The part of the RANDOM transform that holds: a destination without the
    placeholder comes out unchanged. *)
Lemma linkbust_random_without_placeholder (rnd : Rand.oracle) (destination : string)
  (p : nat) :
  List.length (Js.split "%RAN%" destination) = 1 ->
  fst (Richer.linkbust_random rnd destination p) = destination.
Proof.
  intros Hone. unfold Richer.linkbust_random.
  assert (Hloop : forall fuel,
    Richer.random_loop rnd (Datatypes.S fuel) 0 destination p =
      Some (destination, snd (Rand.rs rnd 5 p))).
  { intros fuel. unfold Richer.random_loop; fold Richer.random_loop.
    rewrite Hone. change (0 <? 1)%nat with true. cbv iota.
    destruct (Rand.rs rnd 5 p) as [ran p'].
    rewrite (replace_absent "%RAN%" ran destination ltac:(discriminate) "" Hone).
    destruct fuel; unfold Richer.random_loop; fold Richer.random_loop;
      rewrite Hone; reflexivity. }
  rewrite Hloop. reflexivity.
Qed.

(** *** Three placeholders, any random source *)

Lemma append_nil_r (s : string) : (s ++ "")%string = s.
Proof.
  induction s as [| c s IH]; cbn; [reflexivity |]. rewrite IH. reflexivity.
Qed.

Lemma append_assoc (a b c : string) :
  ((a ++ b) ++ c)%string = (a ++ (b ++ c))%string.
Proof.
  induction a as [| x a IH]; cbn; [reflexivity |]. rewrite IH. reflexivity.
Qed.

Lemma no_percent_append (a b : string) :
  Spec.no_percent (a ++ b) = Spec.no_percent a && Spec.no_percent b.
Proof.
  induction a as [| c a IH]; cbn; [reflexivity |].
  rewrite IH, andb_assoc. reflexivity.
Qed.

Lemma charAt_no_percent (k : nat) :
  Spec.no_percent (Js.charAt k Rand.characters) = true.
Proof.
  do 62 (destruct k as [| k]; [reflexivity |]). reflexivity.
Qed.

Lemma rs_loop_no_percent (rnd : Rand.oracle) (n : nat) :
  forall acc p,
    Spec.no_percent acc = true ->
    Spec.no_percent (fst (Rand.rs_loop rnd n acc p)) = true.
Proof.
  induction n as [| n IH]; intros acc p Hacc; [exact Hacc |].
  change (Rand.rs_loop rnd (Datatypes.S n) acc p)
    with (Rand.rs_loop rnd n
            (acc ++ Js.charAt (rnd p mod Rand.charactersLength) Rand.characters)
            (Datatypes.S p)).
  apply IH. rewrite no_percent_append, Hacc, charAt_no_percent. reflexivity.
Qed.

(** [rs] draws from an alphabet without [%]. *)
Lemma rs_no_percent (rnd : Rand.oracle) (n p : nat) :
  Spec.no_percent (fst (Rand.rs rnd n p)) = true.
Proof. apply rs_loop_no_percent. reflexivity. Qed.

Lemma prefix_placeholder_clean (c : ascii) (s : string) :
  Ascii.eqb c "%" = false -> String.prefix "%RAN%" (String c s) = false.
Proof.
  intros Hc.
  change (String.prefix "%RAN%" (String c s))
    with (if ascii_dec "%"%char c then String.prefix "RAN%" s else false).
  destruct (ascii_dec "%"%char c) as [E | _]; [| reflexivity].
  subst c. discriminate Hc.
Qed.

(** The scan passes over a stretch without [%] and collects it. *)
Lemma split_from_clean (a : string) :
  Spec.no_percent a = true ->
  forall acc s,
    Js.split_from "%RAN%" 0 acc (a ++ s) = Js.split_from "%RAN%" 0 (acc ++ a) s.
Proof.
  induction a as [| c a IH]; intros Ha acc s.
  - cbn [append]. rewrite append_nil_r. reflexivity.
  - cbn in Ha. apply andb_true_iff in Ha. destruct Ha as [Hc Ha].
    apply negb_true_iff in Hc.
    cbn [append]. unfold Js.split_from; fold Js.split_from.
    rewrite (prefix_placeholder_clean c _ Hc), (IH Ha), append_assoc.
    reflexivity.
Qed.

Lemma split_from_placeholder (acc s : string) :
  Js.split_from "%RAN%" 0 acc ("%RAN%" ++ s) = acc :: Js.split_from "%RAN%" 0 "" s.
Proof. destruct s; reflexivity. Qed.

Lemma replace_clean (a rep s : string) :
  Spec.no_percent a = true ->
  Js.replace "%RAN%" rep (a ++ s) = (a ++ Js.replace "%RAN%" rep s)%string.
Proof.
  induction a as [| c a IH]; intros Ha; [reflexivity |].
  cbn in Ha. apply andb_true_iff in Ha. destruct Ha as [Hc Ha].
  apply negb_true_iff in Hc.
  cbn [append]. unfold Js.replace at 1; fold Js.replace.
  rewrite (prefix_placeholder_clean c _ Hc), (IH Ha). reflexivity.
Qed.

Lemma replace_placeholder (rep s : string) :
  Js.replace "%RAN%" rep ("%RAN%" ++ s) = (rep ++ s)%string.
Proof.
  destruct s; reflexivity.
Qed.

Lemma random_loop_more_fuel (rnd : Rand.oracle) (fuel k : nat) :
  forall i destination p r,
    Richer.random_loop rnd fuel i destination p = Some r ->
    Richer.random_loop rnd (fuel + k) i destination p = Some r.
Proof.
  induction fuel as [| fuel IH]; intros i destination p r H; cbn [Nat.add].
  - assert (Hi : (i <? List.length (Js.split "%RAN%" destination))%nat = false).
    { unfold Richer.random_loop in H.
      destruct (i <? List.length (Js.split "%RAN%" destination))%nat;
        [discriminate H | reflexivity]. }
    unfold Richer.random_loop in H. rewrite Hi in H.
    destruct k; unfold Richer.random_loop; fold Richer.random_loop;
      rewrite Hi; exact H.
  - unfold Richer.random_loop in H |- *; fold Richer.random_loop in H |- *.
    destruct (i <? List.length (Js.split "%RAN%" destination))%nat; [| exact H].
    destruct (Rand.rs rnd 5 p) as [ran p']. apply IH. exact H.
Qed.

(** Whatever the random source, of three placeholders separated by
    stretches without [%] the loop replaces the first two and leaves the
    third. *)
Lemma linkbust_random_three_placeholders (rnd : Rand.oracle) (p : nat)
  (a b c d : string) :
  Spec.no_percent a = true -> Spec.no_percent b = true ->
  Spec.no_percent c = true -> Spec.no_percent d = true ->
  fst (Richer.linkbust_random rnd
         (a ++ "%RAN%" ++ b ++ "%RAN%" ++ c ++ "%RAN%" ++ d) p) =
    (a ++ fst (Rand.rs rnd 5 p) ++ b ++ fst (Rand.rs rnd 5 (p + 5)) ++ c ++
       "%RAN%" ++ d)%string.
Proof.
  intros Ha Hb Hc Hd.
  set (dest := (a ++ "%RAN%" ++ b ++ "%RAN%" ++ c ++ "%RAN%" ++ d)%string).
  pose proof (length_rs rnd 5 p) as [_ Hp1].
  pose proof (rs_no_percent rnd 5 p) as Hr1.
  pose proof (rs_no_percent rnd 5 (p + 5)) as Hr2.
  assert (Hlast : forall acc, List.length (Js.split_from "%RAN%" 0 acc d) = 1).
  { intros acc. rewrite <- (append_nil_r d), (split_from_clean d Hd). reflexivity. }
  assert (Hrun : Richer.random_loop rnd 3 0 dest p =
            Some ((a ++ fst (Rand.rs rnd 5 p) ++ b ++ fst (Rand.rs rnd 5 (p + 5)) ++ c ++
                     "%RAN%" ++ d)%string,
                  snd (Rand.rs rnd 5 (p + 5)))).
  { unfold Richer.random_loop, dest.
    (* first turn: four pieces *)
    unfold Js.split at 1.
    rewrite (split_from_clean a Ha), split_from_placeholder,
      (split_from_clean b Hb), split_from_placeholder,
      (split_from_clean c Hc), split_from_placeholder.
    cbn [List.length]. rewrite Hlast. cbn [Nat.ltb Nat.leb].
    destruct (Rand.rs rnd 5 p) as [r1 p1] eqn:E1. cbn [fst snd] in *. subst p1.
    rewrite (replace_clean a r1 _ Ha), replace_placeholder.
    (* second turn: three pieces *)
    assert (Hab : Spec.no_percent (a ++ r1 ++ b) = true)
      by (rewrite !no_percent_append, Ha, Hr1, Hb; reflexivity).
    replace (a ++ r1 ++ b ++ "%RAN%" ++ c ++ "%RAN%" ++ d)%string
      with ((a ++ r1 ++ b) ++ "%RAN%" ++ c ++ "%RAN%" ++ d)%string
      by (rewrite !append_assoc; reflexivity).
    unfold Js.split at 1.
    rewrite (split_from_clean _ Hab), split_from_placeholder,
      (split_from_clean c Hc), split_from_placeholder.
    cbn [List.length]. rewrite Hlast. cbn [Nat.add Nat.ltb Nat.leb].
    destruct (Rand.rs rnd 5 (p + 5)) as [r2 p2] eqn:E2. cbn [fst snd] in *.
    rewrite (replace_clean _ r2 _ Hab), replace_placeholder.
    (* third turn: two pieces, and the counter is two *)
    assert (Habc : Spec.no_percent ((a ++ r1 ++ b) ++ r2 ++ c) = true)
      by (rewrite !no_percent_append, Ha, Hr1, Hb, Hr2, Hc; reflexivity).
    replace ((a ++ r1 ++ b) ++ r2 ++ c ++ "%RAN%" ++ d)%string
      with (((a ++ r1 ++ b) ++ r2 ++ c) ++ "%RAN%" ++ d)%string
      by (rewrite !append_assoc; reflexivity).
    unfold Js.split at 1.
    rewrite (split_from_clean _ Habc), split_from_placeholder.
    cbn [List.length]. rewrite Hlast. cbn [Nat.add Nat.ltb Nat.leb].
    rewrite !append_assoc. reflexivity. }
  unfold Richer.linkbust_random.
  assert (Hlen : exists k, Datatypes.S (String.length dest) = 3 + k).
  { unfold dest. rewrite !length_append. cbn [String.length].
    exists (String.length a + (String.length b + (String.length c + String.length d)) + 13).
    lia. }
  destruct Hlen as [k Hk]. rewrite Hk.
  rewrite (random_loop_more_fuel rnd 3 k _ _ _ _ Hrun). reflexivity.
Qed.

(** C5 on the code: with three placeholders the loop stops after two
    turns, its bound having shrunk with the string, and the third placeholder
    is delivered as it is. *)
Theorem C5_random_leaves_third_placeholder :
  Richer.linkbust_random (rnd Sample.world) "https://example.com/%RAN%/%RAN%/%RAN%" 0 =
    ("https://example.com/ABCDE/FGHIJ/%RAN%", 10) /\
  fst (Richer.get_l_code (Sample.rq_granted "three") Sample.world
         (start Sample.richer_db (Sample.rq_granted "three"))) =
    Ok (Redirect "https://example.com/ABCDE/FGHIJ/%RAN%").
Proof.
  split; reflexivity.
Qed.

(** ** Creation: form data on a GET link *)

(** The part that holds: when [method] is the string ["GET"] itself and
    [data] is truthy, the answer is the 400 and nothing is queued. *)
Lemma create_rejects_GET_with_data (e : env) (s : Richer.rstate)
  (b : Richer.link_body) :
  Richer.b_method b = Some "GET" ->
  (exists d, Richer.b_destination b = Some d /\ d <> "") ->
  Js.truthy (Richer.b_data b) = true ->
  fst (Richer.create b e s) =
    Ok (Json [("error", Js.JStr "A method of `GET` cannot contain form-data.")]) /\
  r_status (st_res (snd (Richer.create b e s))) = 400%Z /\
  st_pending (snd (Richer.create b e s)) = st_pending s.
Proof.
  intros Hm [d [Hd Hne]] Hdata.
  assert (Hdt : Js.truthy_str (Some d) = true).
  { cbn. apply negb_true_iff. apply String.eqb_neq. exact Hne. }
  assert (Hinc : Js.includes ["GET"; "POST"] (Js.toUpperCase "GET") = true)
    by reflexivity.
  unfold Richer.create, Richer.check_data, Richer.bad_request, bind.
  rewrite Hm, Hd, Hdt, Hdata, Hinc. cbn.
  destruct (match Richer.b_code b with
            | Some c => if Js.truthy_str (Richer.b_code b) then ret c else rs 5
            | None => rs 5
            end e s) as [[code |] s1] eqn:Hcode.
  - assert (Hs1 : st_pending s1 = st_pending s).
    { revert Hcode. unfold_monad.
      destruct (Richer.b_code b) as [c |];
        [destruct (Js.truthy_str (Some c)) |];
        try destruct (Rand.rs (rnd e) 5 (st_draws s)) as [r p];
        intros [= _ <-]; reflexivity. }
    clear Hcode. unfold_monad. cbn. rewrite Hs1. repeat split.
  - exfalso. revert Hcode. unfold_monad.
    destruct (Richer.b_code b) as [c |];
      [destruct (Js.truthy_str (Some c)) |];
      try destruct (Rand.rs (rnd e) 5 (st_draws s)) as [r p];
      discriminate.
Qed.

(** The slip in general: any spelling of GET other than the upper-case one,
    with an object as [data], is accepted, and the row queued is a GET row
    with form data. *)
Lemma create_accepts_data_on_recased_get (e : env) (s : Richer.rstate)
  (b : Richer.link_body) (m d : string) (lb : option string) :
  Richer.b_method b = Some m ->
  Js.toUpperCase m = "GET" -> m <> "GET" ->
  Richer.b_destination b = Some d -> d <> "" ->
  Js.truthy (Richer.b_data b) = true ->
  Js.typeof (Richer.b_data b) = "object" ->
  Richer.normalize_linkbust (Richer.b_linkbust b) = inr (Some lb) ->
  exists code,
    fst (Richer.create b e s) =
      Ok (Json [("message", Js.JStr "Shortlink creation in progress.");
                ("code", Js.JStr code)]) /\
    st_pending (snd (Richer.create b e s)) =
      st_pending s ++
        [WShortlink code "GET" (Some (json_stringify e (Richer.b_data b))) d lb].
Proof.
  intros Hm Hup Hne Hd Hdne Hdata Htype Hlb.
  assert (Hcheck : Richer.check_data m (Richer.b_data b) = None).
  { unfold Richer.check_data. rewrite Hdata, Htype.
    destruct (String.eqb_spec m "GET") as [-> | _]; [contradiction | reflexivity]. }
  assert (Hinc : Js.includes ["GET"; "POST"] (Js.toUpperCase m) = true)
    by (rewrite Hup; reflexivity).
  destruct (create_accepts e s b m d lb Hm Hinc Hd Hdne Hcheck Hlb)
    as [code [H1 [H2 _]]].
  exists code. rewrite Hup, Hdata in H2. split; assumption.
Qed.

(** C6 on the code: [method: "get"] passes the method check, which
    upper-cases it, but not the comparison [req.body.method === "GET"] that
    guards the form data; the request is answered 200 and a GET row with form
    data is queued for insertion. *)
Theorem C6_lowercase_get_with_data_is_stored :
  Js.includes ["GET"; "POST"] (Js.toUpperCase "get") = true /\
  fst (Richer.post_l (Sample.rq_login) Sample.body_get_with_data Sample.world
         (start Sample.richer_db (Sample.rq_login))) =
    Ok (Json [("message", Js.JStr "Shortlink creation in progress.");
              ("code", Js.JStr "ABCDE")]) /\
  st_res (snd (Richer.post_l (Sample.rq_login) Sample.body_get_with_data
                 Sample.world (start Sample.richer_db (Sample.rq_login)))) =
    mkResvars 200 [] /\
  st_pending (snd (Richer.post_l (Sample.rq_login) Sample.body_get_with_data
                     Sample.world (start Sample.richer_db (Sample.rq_login)))) =
    [WShortlink "ABCDE" "GET" (Some "{}") "https://example.com" None] /\
  shortlinks (settle Sample.world
                (snd (Richer.post_l (Sample.rq_login) Sample.body_get_with_data
                        Sample.world (start Sample.richer_db (Sample.rq_login))))) =
    Sample.links ++ [mkShortlink 6 "ABCDE" "GET" (Some "{}") None "https://example.com"].
Proof.
  repeat split; reflexivity.
Qed.

(** ** Login and the sessions table *)

(** *** What a login does to [sessions] and [saved_sessions] *)

Section DbRel.
Context {S SS : Type}.
Variable R : database S SS -> database S SS -> Prop.
Hypothesis R_refl : forall d, R d d.
Hypothesis R_trans : forall a b c, R a b -> R b c -> R a c.

Lemma db_rel_ret {A} (a : A) : Spec.db_rel R (ret a).
Proof. intros e s. apply R_refl. Qed.

Lemma db_rel_bind {A B} (m : @M S SS A) (k : A -> @M S SS B) :
  Spec.db_rel R m -> (forall a, Spec.db_rel R (k a)) -> Spec.db_rel R (bind m k).
Proof.
  intros Hm Hk e s. unfold bind. specialize (Hm e s).
  destruct (m e s) as [[a |] s1]; cbn in *.
  - eapply R_trans; [exact Hm | apply Hk].
  - exact Hm.
Qed.

Lemma db_rel_asks {A} (f : env -> A) : Spec.db_rel R (asks f).
Proof. intros e s. apply R_refl. Qed.

Lemma db_rel_gets {A} (f : state S SS -> A) : Spec.db_rel R (gets f).
Proof. intros e s. apply R_refl. Qed.

Lemma db_rel_modify (f : state S SS -> state S SS) :
  (forall s, st_db (f s) = st_db s) -> Spec.db_rel R (modify f).
Proof. intros Hf e s. cbn. rewrite Hf. apply R_refl. Qed.

Lemma db_rel_await {A} (o : op) (q : database S SS -> option (A * database S SS)) :
  (forall d a d', q d = Some (a, d') -> R d d') -> Spec.db_rel R (await o q).
Proof.
  intros Hq e s. unfold await.
  destruct (faults e o); [apply R_refl |].
  destruct (q (st_db s)) as [[a d'] |] eqn:Hd; cbn; [| apply R_refl].
  apply (Hq _ _ _ Hd).
Qed.

Lemma db_rel_query {A} (o : op) (q : database S SS -> A) : Spec.db_rel R (query o q).
Proof.
  apply db_rel_await. intros d a d' [= _ <-]. apply R_refl.
Qed.

Lemma db_rel_login_error (message : string) : Spec.db_rel R (login_error message).
Proof.
  unfold login_error. apply db_rel_bind; [| intros; apply db_rel_ret].
  apply db_rel_modify. reflexivity.
Qed.
End DbRel.

(** The login touches the database through [issue_session] only. *)
Lemma db_rel_richer_login (R : Richer.db -> Richer.db -> Prop)
  (rq : request session_row) (b : login_body) :
  (forall d, R d d) ->
  (forall a b c, R a b -> R b c -> R a c) ->
  (forall user, Spec.db_rel R (Richer.issue_session rq user)) ->
  Spec.db_rel R (Richer.login rq b).
Proof.
  intros Hrefl Htrans Hissue. unfold Richer.login, Richer.valid_session.
  repeat
    match goal with
    | |- Spec.db_rel R (bind _ _) => apply db_rel_bind; [assumption | | intros ?]
    | |- Spec.db_rel R (query _ _) => apply db_rel_query; assumption
    | |- Spec.db_rel R (asks _) => apply db_rel_asks; assumption
    | |- Spec.db_rel R (ret _) => apply db_rel_ret; assumption
    | |- Spec.db_rel R (login_error _) => apply db_rel_login_error; assumption
    | |- Spec.db_rel R (update_req _) => apply db_rel_modify; [assumption | reflexivity]
    | |- Spec.db_rel R (Richer.issue_session _ _) => apply Hissue
    | |- Spec.db_rel R (match ?x with _ => _ end) => destruct x
    | |- Spec.db_rel R (if ?x then _ else _) => destruct x
    end.
Qed.

Lemma retains_refl (d : Richer.db) : Spec.retains d d.
Proof. apply incl_refl. Qed.

Lemma retains_trans (a b c : Richer.db) :
  Spec.retains a b -> Spec.retains b c -> Spec.retains a c.
Proof. apply incl_tran. Qed.

(** No statement of [issue_session] removes a row of [saved_sessions]. *)
Lemma issue_session_retains (rq : request session_row) (user : user_row) :
  Spec.db_rel Spec.retains (Richer.issue_session rq user).
Proof.
  unfold Richer.issue_session.
  repeat
    match goal with
    | |- Spec.db_rel _ (bind _ _) =>
        apply db_rel_bind; [apply retains_trans | | intros ?]
    | |- Spec.db_rel _ (query _ _) => apply db_rel_query; apply retains_refl
    | |- Spec.db_rel _ (asks _) => apply db_rel_asks; apply retains_refl
    | |- Spec.db_rel _ (gets _) => apply db_rel_gets; apply retains_refl
    | |- Spec.db_rel _ (ret _) => apply db_rel_ret; apply retains_refl
    | |- Spec.db_rel _ (add_cookie _) =>
        apply db_rel_modify; [apply retains_refl | reflexivity]
    | |- Spec.db_rel _ (match ?x with _ => _ end) => destruct x
    | |- Spec.db_rel _ (if ?x then _ else _) => destruct x
    end.
  - apply db_rel_await; [apply retains_refl |].
    intros d [] d' [= <-]. apply incl_refl.
  - apply db_rel_await; [apply retains_refl |].
    intros d [] d'. unfold Richer.insert_session.
    destruct (existsb _ _); [discriminate |]. intros [= <-]. apply incl_refl.
  - apply db_rel_await; [apply retains_refl |].
    intros d [] d'. unfold Richer.insert_saved_session.
    destruct (existsb _ _); [discriminate |]. intros [= <-].
    cbn. apply incl_appl. apply incl_refl.
Qed.

(** The part of C8 on [saved_sessions] that holds: whatever a login does,
    every row of [saved_sessions] is still there afterwards. *)
Lemma login_retains_saved_sessions (e : env) (rq : request session_row)
  (b : login_body) (s : Richer.rstate) :
  forall row, In row (saved_sessions (st_db s)) ->
              In row (saved_sessions (st_db (snd (Richer.login rq b e s)))).
Proof.
  apply (db_rel_richer_login Spec.retains rq b retains_refl retains_trans
           (issue_session_retains rq) e s).
Qed.

(** *** The cap of five sessions *)

Lemma length_insert_by {R : Type} (le : R -> R -> bool) (x : R) (l : list R) :
  List.length (insert_by le x l) = Datatypes.S (List.length l).
Proof.
  induction l as [| y l IH]; cbn; [reflexivity |].
  destruct (le x y); cbn; [reflexivity |]. rewrite IH. reflexivity.
Qed.

Lemma length_orderBy {R : Type} (le : R -> R -> bool) (l : list R) :
  List.length (orderBy le l) = List.length l.
Proof.
  induction l as [| x l IH]; [reflexivity |].
  rewrite orderBy_cons, length_insert_by, IH. reflexivity.
Qed.

Lemma In_insert_by {R : Type} (le : R -> R -> bool) (x y : R) (l : list R) :
  In y (insert_by le x l) -> y = x \/ In y l.
Proof.
  induction l as [| z l IH]; cbn.
  - intros [<- | []]. left. reflexivity.
  - destruct (le x z); cbn.
    + intros [<- | H]; [left; reflexivity | right; exact H].
    + intros [<- | H]; [right; left; reflexivity |].
      destruct (IH H) as [-> | Hin]; [left; reflexivity | right; right; exact Hin].
Qed.

Lemma In_orderBy {R : Type} (le : R -> R -> bool) (y : R) (l : list R) :
  In y (orderBy le l) -> In y l.
Proof.
  induction l as [| x l IH]; [intros []|].
  rewrite orderBy_cons. intros H.
  destruct (In_insert_by le x y _ H) as [-> | Hin];
    [left; reflexivity | right; apply IH; exact Hin].
Qed.

Lemma held_is_length_sessions_of (uid : Z) (d : Richer.db) :
  Spec.sessions_held uid d = List.length (Richer.sessions_of uid d).
Proof.
  unfold Spec.sessions_held, Richer.sessions_of, where_.
  rewrite length_orderBy. reflexivity.
Qed.

Lemma length_filter_le {R : Type} (p : R -> bool) (l : list R) :
  List.length (filter p l) <= List.length l.
Proof.
  induction l as [| x l IH]; cbn; [lia |].
  destruct (p x); cbn; lia.
Qed.

Lemma held_delete_le (uid uid' : Z) (sid : string) (d : Richer.db) :
  Spec.sessions_held uid' (Richer.delete_session uid sid d) <=
    Spec.sessions_held uid' d.
Proof.
  unfold Spec.sessions_held, Richer.delete_session, delete_where. cbn.
  induction (sessions d) as [| x l IH]; cbn; [lia |].
  destruct ((session_user_id x =? uid)%Z && String.eqb (session_id x) sid); cbn;
    destruct (session_user_id x =? uid')%Z; cbn; lia.
Qed.

Lemma held_delete_lt (uid : Z) (r : session_row) (d : Richer.db) :
  In r (sessions d) -> session_user_id r = uid ->
  Spec.sessions_held uid (Richer.delete_session uid (session_id r) d) <
    Spec.sessions_held uid d.
Proof.
  unfold Spec.sessions_held, Richer.delete_session, delete_where. cbn.
  intros Hin Hu.
  induction (sessions d) as [| x l IH]; [destruct Hin |].
  assert (Hle : List.length
            (filter (fun s => (session_user_id s =? uid)%Z)
               (filter (fun s => negb ((session_user_id s =? uid)%Z &&
                                       String.eqb (session_id s) (session_id r))) l))
          <= List.length (filter (fun s => (session_user_id s =? uid)%Z) l)).
  { clear. induction l as [| y l IH]; cbn; [lia |].
    destruct ((session_user_id y =? uid)%Z && String.eqb (session_id y) (session_id r));
      cbn; destruct (session_user_id y =? uid)%Z; cbn; lia. }
  cbn. destruct Hin as [-> | Hin].
  - rewrite Hu, Z.eqb_refl, String.eqb_refl. cbn. lia.
  - specialize (IH Hin).
    destruct ((session_user_id x =? uid)%Z && String.eqb (session_id x) (session_id r));
      cbn; destruct (session_user_id x =? uid)%Z; cbn; lia.
Qed.

(** With five sessions, the deletion makes room. *)
Lemma evict_makes_room (uid : Z) (d : Richer.db) (last : session_row)
  (rest : list session_row) :
  Spec.capped d ->
  Richer.sessions_of uid d = last :: rest ->
  Spec.room uid (Richer.delete_session uid (session_id last) d).
Proof.
  intros Hcap Hsorted.
  assert (Hin : In last (filter (fun s => (session_user_id s =? uid)%Z) (sessions d))).
  { apply (In_orderBy Richer.id_asc). unfold Richer.sessions_of, where_ in Hsorted.
    rewrite Hsorted. left. reflexivity. }
  apply filter_In in Hin. destruct Hin as [Hin Hu]. apply Z.eqb_eq in Hu.
  split.
  - intros uid'. pose proof (held_delete_le uid uid' (session_id last) d).
    specialize (Hcap uid'). lia.
  - pose proof (held_delete_lt uid last d Hin Hu). specialize (Hcap uid). lia.
Qed.

(** Without five sessions, a capped user has room. *)
Lemma fewer_than_five_has_room (uid : Z) (d : Richer.db) :
  Spec.capped d ->
  (List.length (Richer.sessions_of uid d) =? 5)%nat = false ->
  Spec.room uid d.
Proof.
  intros Hcap H5. split; [exact Hcap |].
  apply Nat.eqb_neq in H5. rewrite <- held_is_length_sessions_of in H5.
  specialize (Hcap uid). lia.
Qed.

Lemma insert_session_capped (row : session_row) (d d' : Richer.db) :
  Spec.room (session_user_id row) d ->
  Richer.insert_session row d = Some (tt, d') ->
  Spec.capped d'.
Proof.
  intros [Hcap Hroom]. unfold Richer.insert_session.
  destruct (existsb _ _); [discriminate |]. intros [= <-] uid.
  unfold Spec.capped, Spec.sessions_held in *. cbn.
  rewrite filter_app, length_app. cbn.
  destruct (session_user_id row =? uid)%Z eqn:Hu; cbn.
  - apply Z.eqb_eq in Hu. subst uid. lia.
  - specialize (Hcap uid). lia.
Qed.

Lemma insert_saved_session_capped (row : saved_session_row) (d d' : Richer.db) :
  Spec.capped d ->
  Richer.insert_saved_session row d = Some (tt, d') ->
  Spec.capped d'.
Proof.
  intros Hcap. unfold Richer.insert_saved_session.
  destruct (existsb _ _); [discriminate |]. intros [= <-]. exact Hcap.
Qed.

Lemma room_capped (uid : Z) (d : Richer.db) : Spec.room uid d -> Spec.capped d.
Proof. intros [H _]. exact H. Qed.

(** The block that issues a session keeps the cap. *)
Lemma issue_session_capped (rq : request session_row) (user : user_row) :
  Spec.db_rel (fun d d' => Spec.capped d -> Spec.capped d')
    (Richer.issue_session rq user).
Proof.
  intros e s Hcap. unfold Richer.issue_session. unfold_monad. cbn.
  destruct (faults e (Select, Sessions)); cbn; [exact Hcap |].
  set (d := st_db s) in *.
  destruct (List.length (Richer.sessions_of (user_id user) d) =? 5)%nat eqn:H5.
  - destruct (Richer.sessions_of (user_id user) d) as [| last rest] eqn:Hs;
      [discriminate H5 |].
    cbn. destruct (faults e (Delete, Sessions)); cbn; [exact Hcap |].
    pose proof (evict_makes_room _ _ _ _ Hcap Hs) as Hr.
    destruct (faults e (Insert, Sessions)); cbn; [apply (room_capped _ _ Hr) |].
    destruct (Richer.insert_session _ _) as [[[] d2] |] eqn:Hins; cbn;
      [| apply (room_capped _ _ Hr)].
    pose proof (insert_session_capped
                  (mkSession (uuidv4 e) (user_id user) (rq_user_agent rq) (now e))
                  _ _ Hr Hins) as Hc2.
    destruct (faults e (Insert, SavedSessions)); cbn; [exact Hc2 |].
    destruct (Richer.insert_saved_session _ _) as [[[] d3] |] eqn:Hsv; cbn;
      [| exact Hc2].
    apply (insert_saved_session_capped _ _ _ Hc2 Hsv).
  - cbn. pose proof (fewer_than_five_has_room _ _ Hcap H5) as Hr.
    destruct (faults e (Insert, Sessions)); cbn; [exact Hcap |].
    destruct (Richer.insert_session _ _) as [[[] d2] |] eqn:Hins; cbn;
      [| exact Hcap].
    pose proof (insert_session_capped
                  (mkSession (uuidv4 e) (user_id user) (rq_user_agent rq) (now e))
                  _ _ Hr Hins) as Hc2.
    destruct (faults e (Insert, SavedSessions)); cbn; [exact Hc2 |].
    destruct (Richer.insert_saved_session _ _) as [[[] d3] |] eqn:Hsv; cbn;
      [| exact Hc2].
    apply (insert_saved_session_capped _ _ _ Hc2 Hsv).
Qed.

(** The part of C8 on the cap that holds: a login keeps every user at five
    sessions or fewer. *)
Lemma login_keeps_cap (e : env) (rq : request session_row) (b : login_body)
  (s : Richer.rstate) :
  Spec.capped (st_db s) -> Spec.capped (st_db (snd (Richer.login rq b e s))).
Proof.
  apply (db_rel_richer_login (fun d d' => Spec.capped d -> Spec.capped d') rq b).
  - intros d H. exact H.
  - intros a b0 c Hab Hbc Ha. apply Hbc, Hab, Ha.
  - apply issue_session_capped.
Qed.

(** *** What the guard of the session block lets through *)

(** The part of C7 that holds, and more: with any cookie on the request,
    valid or not, a login leaves the database as it was and sets no
    cookie. *)
Lemma login_with_cookie_issues_nothing (e : env) (rq : request session_row)
  (b : login_body) (s : Richer.rstate) :
  Js.truthy_str (rq_cookie_sessionId rq) = true ->
  st_db (snd (Richer.login rq b e s)) = st_db s /\
  r_cookies (st_res (snd (Richer.login rq b e s))) = r_cookies (st_res s).
Proof.
  intros Hc. unfold Richer.login, Richer.valid_session, login_error.
  rewrite !Hc. unfold_monad. cbn.
  repeat
    match goal with
    | |- context [match ?x with _ => _ end] =>
        lazymatch x with
        | context [match _ with _ => _ end] => fail
        | _ => destruct x; cbn
        end
    end;
    split; reflexivity.
Qed.

Lemma existsb_none {R : Type} (p : R -> bool) (l : list R) :
  (forall r, In r l -> p r = false) -> existsb p l = false.
Proof.
  induction l as [| x l IH]; cbn; intros H; [reflexivity |].
  rewrite (H x (or_introl eq_refl)). apply IH.
  intros r Hr. apply H. right. exact Hr.
Qed.

Lemma sessions_after_eviction (uid : Z) (d : Richer.db) (r : session_row) :
  In r (sessions (Spec.after_eviction uid d)) -> In r (sessions d).
Proof.
  unfold Spec.after_eviction.
  destruct (List.length (Richer.sessions_of uid d) =? 5)%nat; [| tauto].
  destruct (Richer.sessions_of uid d) as [| last rest]; [tauto |].
  unfold Richer.delete_session, delete_where. cbn.
  intros H. apply filter_In in H. tauto.
Qed.

(** The other part of C7 that holds: without a cookie, with the right
    credentials, a database that accepts every statement and a uuid not yet
    in use, the login evicts when the user has exactly five sessions, inserts
    the session, mirrors it and sets the cookie. *)
Lemma login_without_cookie_issues_session (e : env) (rq : request session_row)
  (b : login_body) (s : Richer.rstate) (email password : string) (user : user_row) :
  (forall o, faults e o = false) ->
  Js.truthy_str (rq_cookie_sessionId rq) = false ->
  b_email b = Some email -> email <> "" ->
  b_password b = Some password -> password <> "" ->
  first (where_ (fun u => String.eqb (user_email u) email) (users (st_db s))) =
    Some user ->
  bcrypt_compare e password (user_password user) = true ->
  (forall r, In r (sessions (st_db s)) -> session_id r <> uuidv4 e) ->
  (forall r, In r (saved_sessions (st_db s)) -> saved_id r <> uuidv4 e) ->
  fst (Richer.login rq b e s) = Ok (Redirect "/") /\
  sessions (st_db (snd (Richer.login rq b e s))) =
    sessions (Spec.after_eviction (user_id user) (st_db s)) ++
      [mkSession (uuidv4 e) (user_id user) (rq_user_agent rq) (now e)] /\
  saved_sessions (st_db (snd (Richer.login rq b e s))) =
    saved_sessions (st_db s) ++
      [mkSavedSession (uuidv4 e) (user_id user) (rq_user_agent rq)
         (v_ip (st_req s)) (now e)] /\
  r_cookies (st_res (snd (Richer.login rq b e s))) =
    r_cookies (st_res s) ++ [SetCookie "sessionId" (uuidv4 e)].
Proof.
  intros Hf Hc He Hene Hp Hpne Hu Hpw Hfresh Hfresh'.
  assert (Het : Js.truthy_str (Some email) = true).
  { cbn. apply negb_true_iff, String.eqb_neq. exact Hene. }
  assert (Hpt : Js.truthy_str (Some password) = true).
  { cbn. apply negb_true_iff, String.eqb_neq. exact Hpne. }
  assert (Hnew : existsb (fun r => String.eqb (session_id r) (uuidv4 e))
                   (sessions (Spec.after_eviction (user_id user) (st_db s))) = false).
  { apply existsb_none. intros r Hr. apply String.eqb_neq. apply Hfresh.
    apply (sessions_after_eviction _ _ _ Hr). }
  assert (Hnew' : existsb (fun r => String.eqb (saved_id r) (uuidv4 e))
                    (saved_sessions (st_db s)) = false).
  { apply existsb_none. intros r Hr. apply String.eqb_neq. apply Hfresh'. exact Hr. }
  unfold Richer.login, Richer.valid_session, Richer.issue_session.
  rewrite He, Hp, Het, Hpt, !Hc. unfold_monad.
  unfold Richer.insert_session, Richer.insert_saved_session.
  cbn. repeat (first [rewrite Hf | rewrite Hu | rewrite Hpw]; cbn).
  unfold Spec.after_eviction in *.
  destruct (List.length (Richer.sessions_of (user_id user) (st_db s)) =? 5)%nat;
    [destruct (Richer.sessions_of (user_id user) (st_db s)) as [| last rest] |];
    cbn in *;
    repeat (first [rewrite Hf | rewrite Hnew | rewrite Hnew']; cbn);
    repeat split; reflexivity.
Qed.

(** *** The two defects, on concrete logins *)

(** C7 on the code: Alice logs in with valid credentials and a cookie that
    names no session.  The cookie check finds it invalid, yet the guard
    [!req.cookies.sessionId && !validSession] asks for no cookie at all:
    no session is inserted, nothing is mirrored and no cookie is set. *)
Theorem C7_stale_cookie_blocks_new_session :
  fst (Richer.valid_session Sample.rq_login_stale Sample.alice Sample.world
         (start Sample.richer_db Sample.rq_login_stale)) = Ok false /\
  fst (Richer.post_login Sample.rq_login_stale Sample.alice_login Sample.world
         (start Sample.richer_db Sample.rq_login_stale)) = Ok (Redirect "/") /\
  sessions (st_db (snd (Richer.post_login Sample.rq_login_stale Sample.alice_login
                          Sample.world (start Sample.richer_db Sample.rq_login_stale)))) =
    sessions Sample.richer_db /\
  saved_sessions
    (st_db (snd (Richer.post_login Sample.rq_login_stale Sample.alice_login
                   Sample.world (start Sample.richer_db Sample.rq_login_stale)))) =
    saved_sessions Sample.richer_db /\
  r_cookies (st_res (snd (Richer.post_login Sample.rq_login_stale Sample.alice_login
                            Sample.world (start Sample.richer_db Sample.rq_login_stale)))) =
    [].
Proof.
  repeat split; reflexivity.
Qed.

(** C8 on the code: Alice has five sessions and logs in a sixth time.  The
    rows are ordered by [id], which is the uuid, so the session evicted is
    the one whose uuid sorts first, here the newest ([a1], created at 5),
    while the first-created ([e5], created at 1) stays. *)
Theorem C8_eviction_follows_uuid_order :
  fst (Richer.post_login Sample.rq_login Sample.alice_login Sample.world
         (start Sample.crowded_db Sample.rq_login)) = Ok (Redirect "/") /\
  sessions (st_db (snd (Richer.post_login Sample.rq_login Sample.alice_login
                          Sample.world (start Sample.crowded_db Sample.rq_login)))) =
    [ mkSession "e5" 1 "agent" 1;
      mkSession "d4" 1 "agent" 2;
      mkSession "c3" 1 "agent" 3;
      mkSession "b2" 1 "agent" 4;
      mkSession "6f1c" 1 "agent" 100 ] /\
  map saved_id
    (saved_sessions
       (st_db (snd (Richer.post_login Sample.rq_login Sample.alice_login
                      Sample.world (start Sample.crowded_db Sample.rq_login))))) =
    ["e5"; "d4"; "c3"; "b2"; "a1"; "6f1c"] /\
  map (fun s => (session_id s, session_created_at s)) (sessions Sample.crowded_db) =
    [("e5", 1%Z); ("d4", 2%Z); ("c3", 3%Z); ("b2", 4%Z); ("a1", 5%Z)].
Proof.
  repeat split; reflexivity.
Qed.

(** ** CACHEBUST on a destination that is not a URL *)

(** The transform throws at [new URL]. *)
Lemma linkbust_throws_at_cachebust (e : env) (s : Richer.rstate)
  (sl : shortlink_row) (items : list string) :
  sl_linkbust sl = Some (Js.join "|" (Spec.normalized items)) ->
  Spec.requested items "CACHEBUST" = true ->
  url_valid e
    (Spec.before_cachebust items (rnd e) (sl_destination sl) (st_draws s)) = false ->
  fst (Richer.linkbust sl e s) = Throw.
Proof.
  intros Hlb Hc Hv.
  rewrite (linkbust_applies_normalized items sl Hlb).
  unfold Spec.before_cachebust in Hv.
  unfold Spec.normalized, Spec.priority. cbn [filter]. rewrite Hc.
  destruct (Spec.requested items "RANDOM");
    destruct (Spec.requested items "CAPITALS");
    cbn [Richer.apply_techniques Richer.apply_technique String.eqb Ascii.eqb
         Bool.eqb];
    unfold Richer.linkbust_cachebust; unfold_monad; cbn [st_draws set_draws];
    try (destruct (Richer.linkbust_random (rnd e) (sl_destination sl) (st_draws s))
           as [d p]; cbn [fst] in Hv);
    cbn; rewrite Hv; reflexivity.
Qed.

Lemma richer_resolve_throws (e : env) (rq : request session_row)
  (s : Richer.rstate) (sl : shortlink_row) (items : list string) :
  faults e (Select, Shortlinks) = false ->
  shortlink_by_code (st_db s) (rq_code rq) = Some sl ->
  sl_linkbust sl = Some (Js.join "|" (Spec.normalized items)) ->
  Spec.requested items "CACHEBUST" = true ->
  url_valid e
    (Spec.before_cachebust items (rnd e) (sl_destination sl) (st_draws s)) = false ->
  fst (Richer.resolve rq e s) = Throw.
Proof.
  intros Hf Hfound Hlb Hc Hv.
  unfold Richer.resolve, bind, gets, dispatch, query, await.
  cbn. rewrite Hf, Hfound.
  match goal with
  | |- context [Richer.linkbust sl e ?s1] =>
      pose proof (linkbust_throws_at_cachebust e s1 sl items Hlb Hc Hv) as Hthrow;
      destruct (Richer.linkbust sl e s1) as [[d |] s2]
  end.
  - discriminate Hthrow.
  - reflexivity.
Qed.

Lemma settle_one (e : env) (s s' : Richer.rstate) (w : write) :
  st_pending s = [] ->
  st_pending s' = st_pending s ++ [w] ->
  st_db s' = st_db s ->
  faults e (write_op w) = false ->
  settle e s' = apply_write w (st_db s).
Proof.
  intros Hnil Hp Hdb Hf. unfold settle. rewrite Hp, Hnil, Hdb. cbn.
  rewrite Hf. reflexivity.
Qed.


(** * Further properties of the handlers *)

(** ** Who passes the trust middleware *)

Lemma first_In {R : Type} (l : list R) (x : R) : first l = Some x -> In x l.
Proof.
  destruct l as [| y l]; cbn; [discriminate |].
  intros [= ->]. left. reflexivity.
Qed.

Lemma first_where_existsb {R : Type} (p : R -> bool) (rows : list R) :
  first (where_ p rows) = None <-> existsb p rows = false.
Proof.
  unfold first, where_. induction rows as [| r l IH]; [split; reflexivity |].
  cbn. destruct (p r); cbn; [split; intros H; discriminate H | exact IH].
Qed.

(** A row of the join by cookie comes from a session row with that id and
    the user row it points to. *)
Lemma user_by_session_sound (d : Richer.db) (cookie : string) (j : Richer.joined_row) :
  Richer.user_by_session cookie d = Some j ->
  exists r u,
    In r (sessions d) /\ session_id r = cookie /\
    In u (users d) /\ user_id u = session_user_id r /\
    Richer.j_id j = user_id u /\ Richer.j_member j = user_member u.
Proof.
  unfold Richer.user_by_session, where_. intros H. apply first_In in H.
  apply in_flat_map in H. destruct H as [r [Hr Hj]].
  apply filter_In in Hr. destruct Hr as [Hr Hc]. apply String.eqb_eq in Hc.
  apply in_map_iff in Hj. destruct Hj as [u [<- Hu]].
  apply filter_In in Hu. destruct Hu as [Hu Hid]. apply Z.eqb_eq in Hid.
  exists r, u. cbn. repeat split; assumption.
Qed.

(** A row of the join by address comes from a grant of that address and
    the user row it points to. *)
Lemma user_by_ip_sound (d : Richer.db) (ip : option string) (j : Richer.joined_row) :
  Richer.user_by_ip ip d = Some j ->
  exists a i u,
    ip = Some a /\ In i (ips d) /\ ip_address i = a /\
    In u (users d) /\ user_id u = ip_user_id i /\
    Richer.j_id j = user_id u /\ Richer.j_member j = user_member u.
Proof.
  unfold Richer.user_by_ip, where_. destruct ip as [a |]; [| discriminate].
  intros H. apply first_In in H.
  apply in_flat_map in H. destruct H as [i [Hi Hj]].
  apply filter_In in Hi. destruct Hi as [Hi Ha]. apply String.eqb_eq in Ha.
  apply in_map_iff in Hj. destruct Hj as [u [<- Hu]].
  apply filter_In in Hu. destruct Hu as [Hu Hid]. apply Z.eqb_eq in Hid.
  exists a, i, u. cbn. repeat split; assumption.
Qed.

(** The address tier calls [next] only on a member's grant. *)
Lemma richer_tier_ip_next (e : env) (s s' : Richer.rstate) :
  Richer.tier_ip e s = (Ok Next, s') ->
  st_db s' = st_db s /\ st_pending s' = st_pending s /\
  exists j,
    Richer.user_by_ip (Some (v_ip (st_req s))) (st_db s) = Some j /\
    Js.truthy_num (Richer.j_member j) = true /\
    v_method_name (st_req s') = Some "IP" /\
    v_method_value (st_req s') = Js.JStr (v_ip (st_req s)) /\
    v_user_id (st_req s') = Some (Richer.j_id j).
Proof.
  unfold Richer.tier_ip. unfold_monad.
  remember Richer.user_by_ip as lookup eqn:Hlookup.
  cbn. destruct (faults e (Select, Ips)); cbn; [discriminate |].
  destruct (String.eqb (v_ip (st_req s)) "") eqn:Hip; cbn.
  - subst lookup. cbn. discriminate.
  - destruct (lookup (Some (v_ip (st_req s))) (st_db s)) as [j |] eqn:Hj; cbn;
      [| discriminate].
    destruct (Js.truthy_num (Richer.j_member j)) eqn:Hm; cbn; [| discriminate].
    intros [= <-]. cbn. repeat split. exists j. repeat split; assumption.
Qed.

(** The cookie tier calls [next] only on the session of a member; otherwise
    it leaves the database, the queue and the address alone. *)
Lemma richer_tier_cookie_cases (e : env) (rq : request session_row)
  (s s' : Richer.rstate) (r : option flow) :
  Richer.tier_cookie rq e s = (Ok r, s') ->
  st_db s' = st_db s /\ st_pending s' = st_pending s /\
  v_ip (st_req s') = v_ip (st_req s) /\
  (r = None \/
   r = Some Next /\
   exists c j,
     rq_cookie_sessionId rq = Some c /\
     Richer.user_by_session c (st_db s) = Some j /\
     Js.truthy_num (Richer.j_member j) = true /\
     v_method_name (st_req s') = Some "SESSION" /\
     v_method_value (st_req s') = Js.JStr c /\
     v_user_id (st_req s') = Some (Richer.j_id j)).
Proof.
  unfold Richer.tier_cookie. unfold_monad.
  destruct (Js.truthy_str (rq_cookie_sessionId rq)) eqn:Hc.
  - destruct (rq_cookie_sessionId rq) as [c |] eqn:Hck; [| discriminate Hc].
    cbn. destruct (faults e (Select, Sessions)); cbn; [discriminate |].
    destruct (Richer.user_by_session c (st_db s)) as [j |] eqn:Hj; cbn.
    + destruct (Js.truthy_num (Richer.j_member j)) eqn:Hm; cbn.
      * intros [= <- <-]. cbn. repeat split. right. split; [reflexivity |].
        exists c, j. repeat split; assumption.
      * intros [= <- <-]. cbn. repeat split. left. reflexivity.
    + intros [= <- <-]. cbn. repeat split. left. reflexivity.
  - intros [= <- <-]. repeat split. left. reflexivity.
Qed.

(** The ways the richer middleware can call [next]. *)
Lemma richer_trust_next (e : env) (rq : request session_row) (s s' : Richer.rstate) :
  Richer.trust rq e s = (Ok Next, s') ->
  st_db s' = st_db s /\ st_pending s' = st_pending s /\
  ((exists u,
       v_session_user (st_req s) = Some u /\
       Js.truthy_num (user_member (su_row u)) = true /\
       v_method_name (st_req s') = Some "USER" /\
       v_method_value (st_req s') = Js.JNum (user_id (su_row u)) /\
       v_user_id (st_req s') = Some (user_id (su_row u))) \/
   (exists c j,
       rq_cookie_sessionId rq = Some c /\
       Richer.user_by_session c (st_db s) = Some j /\
       Js.truthy_num (Richer.j_member j) = true /\
       v_method_name (st_req s') = Some "SESSION" /\
       v_method_value (st_req s') = Js.JStr c /\
       v_user_id (st_req s') = Some (Richer.j_id j)) \/
   (exists j,
       Richer.user_by_ip (Some (v_ip (st_req s))) (st_db s) = Some j /\
       Js.truthy_num (Richer.j_member j) = true /\
       v_method_name (st_req s') = Some "IP" /\
       v_method_value (st_req s') = Js.JStr (v_ip (st_req s)) /\
       v_user_id (st_req s') = Some (Richer.j_id j))).
Proof.
  unfold Richer.trust, bind.
  destruct (Richer.tier_user e s) as [[r1 |] s1] eqn:H1; [| discriminate].
  assert (Hs1 : st_db s1 = st_db s /\ st_pending s1 = st_pending s /\
                v_ip (st_req s1) = v_ip (st_req s) /\
                (r1 = None \/
                 r1 = Some Next /\
                 exists u,
                   v_session_user (st_req s) = Some u /\
                   Js.truthy_num (user_member (su_row u)) = true /\
                   v_method_name (st_req s1) = Some "USER" /\
                   v_method_value (st_req s1) = Js.JNum (user_id (su_row u)) /\
                   v_user_id (st_req s1) = Some (user_id (su_row u)))).
  { revert H1. unfold Richer.tier_user. unfold_monad. cbn.
    destruct (v_session_user (st_req s)) as [u |]; cbn.
    - destruct (Js.truthy_num (user_member (su_row u))) eqn:Hm; cbn;
        intros [= <- <-]; cbn; repeat split.
      + right. split; [reflexivity |]. exists u. repeat split. exact Hm.
      + left. reflexivity.
    - intros [= <- <-]. repeat split. left. reflexivity. }
  destruct Hs1 as [Hd1 [Hp1 [Hi1 [-> | [-> Huser]]]]].
  - destruct (Richer.tier_cookie rq e s1) as [[r2 |] s2] eqn:H2; [| discriminate].
    destruct (richer_tier_cookie_cases e rq s1 s2 r2 H2)
      as [Hd2 [Hp2 [Hi2 [-> | [-> Hcookie]]]]].
    + intros H3. destruct (richer_tier_ip_next e s2 s' H3) as [Hd3 [Hp3 Hip]].
      split; [congruence |]. split; [congruence |]. right. right.
      rewrite Hi2, Hi1, Hd2, Hd1 in Hip. exact Hip.
    + intros [= <-]. split; [congruence |]. split; [congruence |]. right. left.
      rewrite Hd1 in Hcookie. exact Hcookie.
  - intros [= <-]. split; [exact Hd1 |]. split; [exact Hp1 |]. left. exact Huser.
Qed.

(** X1.  The richer trust middleware lets members only through: when it
    calls [next], [req.user_id] is set, and it is the id of the session user
    carrying the member flag, or of a member row of [users] that owns the
    session named by the cookie or a grant of the caller's address. *)
Theorem X1_richer_trust_admits_members_only (e : env) (rq : request session_row)
  (s s' : Richer.rstate) :
  Richer.trust rq e s = (Ok Next, s') ->
  exists uid,
    v_user_id (st_req s') = Some uid /\
    ((exists u, v_session_user (st_req s) = Some u /\ user_id (su_row u) = uid /\
                Js.truthy_num (user_member (su_row u)) = true /\
                v_method_name (st_req s') = Some "USER") \/
     (exists c r, rq_cookie_sessionId rq = Some c /\
                  In r (sessions (st_db s)) /\ session_id r = c /\
                  session_user_id r = uid /\ Spec.member_row (st_db s) uid /\
                  v_method_name (st_req s') = Some "SESSION") \/
     (exists i, In i (ips (st_db s)) /\ ip_address i = v_ip (st_req s) /\
                ip_user_id i = uid /\ Spec.member_row (st_db s) uid /\
                v_method_name (st_req s') = Some "IP")).
Proof.
  intros H. destruct (richer_trust_next e rq s s' H) as [_ [_ Hcases]].
  destruct Hcases as [[u [Hu [Hm [Hn [_ Hid]]]]]
                     | [[c [j [Hc [Hj [Hm [Hn [_ Hid]]]]]]]
                       | [j [Hj [Hm [Hn [_ Hid]]]]]]].
  - exists (user_id (su_row u)). split; [exact Hid |]. left.
    exists u. repeat split; assumption.
  - destruct (user_by_session_sound _ _ _ Hj) as [r [u [Hr [Hrc [Hu [Hur [Hju Hjm]]]]]]].
    exists (Richer.j_id j). split; [exact Hid |]. right. left.
    exists c, r. repeat split; try assumption.
    + congruence.
    + exists u. repeat split; [exact Hu | congruence | congruence].
  - destruct (user_by_ip_sound _ _ _ Hj)
      as [a [i [u [Ha [Hi [Hia [Hu [Hui [Hju Hjm]]]]]]]]].
    injection Ha as <-.
    exists (Richer.j_id j). split; [exact Hid |]. right. right.
    exists i. repeat split; try assumption.
    + congruence.
    + exists u. repeat split; [exact Hu | congruence | congruence].
Qed.

(** X1 on a request from Alice's granted address. *)
Lemma X1_richer_trust_admits_members_only_witness :
  exists uid,
    v_user_id (st_req (snd (Richer.trust (Sample.rq_granted "promo") Sample.world
                              (Sample.arrived Sample.richer_db
                                 (Sample.rq_granted "promo"))))) = Some uid /\
    ((exists u, v_session_user
                  (st_req (Sample.arrived Sample.richer_db (Sample.rq_granted "promo")))
                = Some u /\ user_id (su_row u) = uid /\
                Js.truthy_num (user_member (su_row u)) = true /\
                v_method_name
                  (st_req (snd (Richer.trust (Sample.rq_granted "promo") Sample.world
                                  (Sample.arrived Sample.richer_db
                                     (Sample.rq_granted "promo")))))
                = Some "USER") \/
     (exists c r, rq_cookie_sessionId (Sample.rq_granted "promo") = Some c /\
                  In r (sessions
                          (st_db (Sample.arrived Sample.richer_db
                                    (Sample.rq_granted "promo")))) /\
                  session_id r = c /\ session_user_id r = uid /\
                  Spec.member_row
                    (st_db (Sample.arrived Sample.richer_db (Sample.rq_granted "promo")))
                    uid /\
                  v_method_name
                    (st_req (snd (Richer.trust (Sample.rq_granted "promo") Sample.world
                                    (Sample.arrived Sample.richer_db
                                       (Sample.rq_granted "promo")))))
                  = Some "SESSION") \/
     (exists i, In i (ips (st_db (Sample.arrived Sample.richer_db
                                    (Sample.rq_granted "promo")))) /\
                ip_address i =
                  v_ip (st_req (Sample.arrived Sample.richer_db
                                  (Sample.rq_granted "promo"))) /\
                ip_user_id i = uid /\
                Spec.member_row
                  (st_db (Sample.arrived Sample.richer_db (Sample.rq_granted "promo")))
                  uid /\
                v_method_name
                  (st_req (snd (Richer.trust (Sample.rq_granted "promo") Sample.world
                                  (Sample.arrived Sample.richer_db
                                     (Sample.rq_granted "promo")))))
                = Some "IP")).
Proof.
  apply (X1_richer_trust_admits_members_only Sample.world (Sample.rq_granted "promo")
           (Sample.arrived Sample.richer_db (Sample.rq_granted "promo"))).
  reflexivity.
Defined.

(** Case analysis on the innermost test of a goal. *)
Ltac innermost_case :=
  match goal with
  | |- context [match ?x with _ => _ end] =>
      lazymatch x with
      | context [match _ with _ => _ end] => fail
      | _ => destruct x eqn:?; cbn
      end
  end.

(** The only answer the address tier gives itself is the 401. *)
Lemma richer_tier_ip_sent (e : env) (s s' : Richer.rstate) (r : reply) :
  Richer.tier_ip e s = (Ok (Sent r), s') ->
  r = Render "unauthorized.handlebars" [] /\
  r_status (st_res s') = 401%Z /\ st_pending s' = st_pending s /\
  st_db s' = st_db s.
Proof.
  unfold Richer.tier_ip. unfold_monad.
  remember Richer.user_by_ip as lookup eqn:Hlookup.
  cbn. repeat innermost_case; intros [= <- <-]; cbn; repeat split.
Qed.

Lemma richer_trust_sent (e : env) (rq : request session_row)
  (s s' : Richer.rstate) (r : reply) :
  Richer.trust rq e s = (Ok (Sent r), s') ->
  r = Render "unauthorized.handlebars" [] /\
  r_status (st_res s') = 401%Z /\ st_pending s' = st_pending s /\
  st_db s' = st_db s.
Proof.
  unfold Richer.trust, bind.
  destruct (Richer.tier_user e s) as [[r1 |] s1] eqn:H1; [| discriminate].
  assert (Hs1 : st_db s1 = st_db s /\ st_pending s1 = st_pending s /\
                (r1 = None \/ r1 = Some Next)).
  { revert H1. unfold Richer.tier_user. unfold_monad. cbn.
    repeat innermost_case; intros [= <- <-]; cbn; repeat split; tauto. }
  destruct Hs1 as [Hd1 [Hp1 [-> | ->]]]; [| discriminate].
  destruct (Richer.tier_cookie rq e s1) as [[r2 |] s2] eqn:H2; [| discriminate].
  destruct (richer_tier_cookie_cases e rq s1 s2 r2 H2)
    as [Hd2 [Hp2 [_ [-> | [-> _]]]]]; [| discriminate].
  intros H3. destruct (richer_tier_ip_sent e s2 s' r H3) as [Hr [Hst [Hp3 Hd3]]].
  repeat split; congruence.
Qed.

Lemma simplified_trust_sent (e : env) (rq : request Simplified.session_row)
  (s s' : Simplified.sstate) (r : reply) :
  Simplified.trust rq e s = (Ok (Sent r), s') ->
  r = Render "unauthorized.handlebars" [] /\
  r_status (st_res s') = 401%Z /\ st_pending s' = st_pending s /\
  st_db s' = st_db s.
Proof.
  unfold Simplified.trust, Simplified.tier_cookie, Simplified.tier_ip.
  unfold_monad. cbn.
  repeat innermost_case; intros [= <- <-]; cbn; repeat split.
Qed.

(** X2.  Whenever the trust middleware of either revision answers the
    request itself, the answer is the same: status 401 and the unauthorized
    view, with nothing queued and the database untouched, whichever tier
    failed. *)
Theorem X2_refusal_is_uniform :
  (forall e (rq : request session_row) (s s' : Richer.rstate) r,
      Richer.trust rq e s = (Ok (Sent r), s') ->
      r = Render "unauthorized.handlebars" [] /\
      r_status (st_res s') = 401%Z /\ st_pending s' = st_pending s /\
      st_db s' = st_db s) /\
  (forall e (rq : request Simplified.session_row) (s s' : Simplified.sstate) r,
      Simplified.trust rq e s = (Ok (Sent r), s') ->
      r = Render "unauthorized.handlebars" [] /\
      r_status (st_res s') = 401%Z /\ st_pending s' = st_pending s /\
      st_db s' = st_db s).
Proof.
  split.
  - intros e rq s s' r. apply richer_trust_sent.
  - intros e rq s s' r. apply simplified_trust_sent.
Qed.

(** X2 on a stranger's request. *)
Lemma X2_refusal_is_uniform_witness :
  Render "unauthorized.handlebars" [] = Render "unauthorized.handlebars" [] /\
  r_status (st_res (snd (Richer.trust Sample.rq_stranger Sample.world
                           (Sample.arrived Sample.richer_db Sample.rq_stranger)))) =
    401%Z /\
  st_pending (snd (Richer.trust Sample.rq_stranger Sample.world
                     (Sample.arrived Sample.richer_db Sample.rq_stranger))) =
    st_pending (Sample.arrived Sample.richer_db Sample.rq_stranger) /\
  st_db (snd (Richer.trust Sample.rq_stranger Sample.world
                (Sample.arrived Sample.richer_db Sample.rq_stranger))) =
    st_db (Sample.arrived Sample.richer_db Sample.rq_stranger).
Proof.
  apply (proj1 X2_refusal_is_uniform Sample.world Sample.rq_stranger
           (Sample.arrived Sample.richer_db Sample.rq_stranger)).
  reflexivity.
Defined.

(** X4.  In the richer revision a cookie that names the session of a user
    without the member flag is neither accepted nor cleared: the lookup is
    made, the response keeps its cookies and the address tier decides. *)
Theorem X4_cookie_of_non_member_falls_through (e : env) (rq : request session_row)
  (s : Richer.rstate) (c : string) (j : Richer.joined_row) :
  v_session_user (st_req s) = None ->
  rq_cookie_sessionId rq = Some c -> c <> "" ->
  faults e (Select, Sessions) = false ->
  Richer.user_by_session c (st_db s) = Some j ->
  Js.truthy_num (Richer.j_member j) = false ->
  Richer.trust rq e s = Richer.tier_ip e (log (Awaited (Select, Sessions)) s) /\
  r_cookies (st_res (snd (Richer.trust rq e s))) = r_cookies (st_res s).
Proof.
  intros Hu Hc Hne Hf Hj Hm.
  assert (Ht : Js.truthy_str (Some c) = true).
  { cbn. apply negb_true_iff, String.eqb_neq. exact Hne. }
  assert (Heq : Richer.trust rq e s =
                Richer.tier_ip e (log (Awaited (Select, Sessions)) s)).
  { unfold Richer.trust, Richer.tier_user, Richer.tier_cookie. unfold_monad.
    rewrite Hu, Hc, Ht. cbn. rewrite Hf, Hj. cbn. rewrite Hm. reflexivity. }
  split; [exact Heq |]. rewrite Heq.
  destruct (richer_tier_ip_trace e (log (Awaited (Select, Sessions)) s)) as [_ Hk].
  rewrite Hk. reflexivity.
Qed.

(** X4 on the cookie of Bob's session. *)
Lemma X4_cookie_of_non_member_falls_through_witness :
  Richer.trust Sample.rq_bob_cookie Sample.world
    (Sample.arrived Sample.bob_db Sample.rq_bob_cookie) =
    Richer.tier_ip Sample.world
      (log (Awaited (Select, Sessions))
         (Sample.arrived Sample.bob_db Sample.rq_bob_cookie)) /\
  r_cookies (st_res (snd (Richer.trust Sample.rq_bob_cookie Sample.world
                            (Sample.arrived Sample.bob_db Sample.rq_bob_cookie)))) =
    r_cookies (st_res (Sample.arrived Sample.bob_db Sample.rq_bob_cookie)).
Proof.
  apply (X4_cookie_of_non_member_falls_through Sample.world Sample.rq_bob_cookie
           (Sample.arrived Sample.bob_db Sample.rq_bob_cookie) "s-bob"
           (Richer.mkJoined 2 0 "s-bob")).
  - reflexivity.
  - reflexivity.
  - discriminate.
  - reflexivity.
  - reflexivity.
  - reflexivity.
Defined.






(** ** The forwarding header *)



(** ** What the second handler of [GET /l/:code] leaves in the queue *)

Section OnlyDraws.
Context {S SS : Type}.

Lemma set_draws_same (s : state S SS) : set_draws (st_draws s) s = s.
Proof. destruct s. reflexivity. Qed.

Lemma only_draws_ret {A} (a : A) : Spec.only_draws (ret a : @M S SS A).
Proof. intros e s. exists (st_draws s). cbn. symmetry. apply set_draws_same. Qed.

Lemma only_draws_throw {A} : Spec.only_draws (throw : @M S SS A).
Proof. intros e s. exists (st_draws s). cbn. symmetry. apply set_draws_same. Qed.

Lemma only_draws_asks {A} (f : env -> A) : Spec.only_draws (asks f : @M S SS A).
Proof. intros e s. exists (st_draws s). cbn. symmetry. apply set_draws_same. Qed.

Lemma only_draws_draw {A} (f : Rand.oracle -> nat -> A * nat) :
  Spec.only_draws (draw f : @M S SS A).
Proof.
  intros e s. unfold draw. destruct (f (rnd e) (st_draws s)) as [a p].
  exists p. reflexivity.
Qed.

Lemma only_draws_bind {A B} (m : @M S SS A) (k : A -> @M S SS B) :
  Spec.only_draws m -> (forall a, Spec.only_draws (k a)) ->
  Spec.only_draws (bind m k).
Proof.
  intros Hm Hk e s. unfold bind. destruct (Hm e s) as [p Hp].
  destruct (m e s) as [[a |] s1]; cbn in Hp; subst s1.
  - destruct (Hk a e (set_draws p s)) as [q Hq]. exists q. rewrite Hq.
    reflexivity.
  - exists p. reflexivity.
Qed.
End OnlyDraws.

Lemma only_draws_linkbust_capitals (d : string) :
  Spec.only_draws (Richer.linkbust_capitals d).
Proof.
  induction d as [| v rest IH]; cbn [Richer.linkbust_capitals].
  - apply only_draws_ret.
  - apply only_draws_bind; [apply only_draws_draw |]. intros up.
    apply only_draws_bind; [exact IH |]. intros rest'. apply only_draws_ret.
Qed.

Lemma only_draws_linkbust_cachebust (d : string) :
  Spec.only_draws (Richer.linkbust_cachebust d).
Proof.
  unfold Richer.linkbust_cachebust.
  apply only_draws_bind; [apply only_draws_asks |].
  intros [|]; [| apply only_draws_throw].
  apply only_draws_bind; [apply only_draws_draw |]. intros k.
  apply only_draws_bind; [apply only_draws_draw |]. intros v.
  apply only_draws_asks.
Qed.

Lemma only_draws_apply_techniques (ts : list string) :
  forall d, Spec.only_draws (Richer.apply_techniques ts d).
Proof.
  induction ts as [| t ts IH]; intros d; cbn [Richer.apply_techniques].
  - apply only_draws_ret.
  - apply only_draws_bind; [| intros d'; apply IH].
    unfold Richer.apply_technique.
    destruct (String.eqb t "CAPITALS"); [apply only_draws_linkbust_capitals |].
    destruct (String.eqb t "CACHEBUST"); [apply only_draws_linkbust_cachebust |].
    destruct (String.eqb t "RANDOM"); [apply only_draws_draw | apply only_draws_ret].
Qed.

(** The transforms touch nothing but the random source. *)
Lemma only_draws_linkbust (sl : shortlink_row) : Spec.only_draws (Richer.linkbust sl).
Proof.
  unfold Richer.linkbust.
  destruct (sl_linkbust sl) as [lb |]; [| apply only_draws_ret].
  destruct (Js.truthy (Js.JStr lb));
    [apply only_draws_apply_techniques | apply only_draws_ret].
Qed.

(** What [deliver] answers, it answers with the destination it was given,
    and it leaves the state alone. *)
Lemma deliver_delivers {S SS : Type} (sl : shortlink_row) (d : string) (e : env)
  (s s' : state S SS) (f : flow) :
  deliver sl d e s = (Ok f, s') ->
  s' = s /\ exists r, f = Sent r /\ Spec.delivered r = Some d.
Proof.
  unfold deliver. unfold_monad.
  destruct (String.eqb (sl_method sl) "GET").
  - intros [= <- <-]. split; [reflexivity |]. eexists. split; reflexivity.
  - destruct (sl_data sl) as [text |].
    + destruct (json_parse e text) as [data |]; [| discriminate].
      intros [= <- <-]. split; [reflexivity |]. eexists. split; reflexivity.
    + intros [= <- <-]. split; [reflexivity |]. eexists. split; reflexivity.
Qed.

(** X3.  Whatever the richer second handler answers, the queue tells the
    same story: a not-found view leaves exactly the outbound row behind, and
    a redirect or a rendered form leaves the outbound row followed by one
    dynamic_urls row whose URL is the very URL delivered, under the user id
    the trust middleware set. *)
Theorem X3_delivery_matches_audit_rows (e : env) (rq : request session_row)
  (s s' : Richer.rstate) (r : reply) :
  Richer.resolve rq e s = (Ok (Sent r), s') ->
  (r = Render "404.handlebars" [] /\
   st_pending s' =
     st_pending s ++
       [WOutbound (v_ip (st_req s)) (rq_user_agent rq) (rq_code rq)
          (v_method_name (st_req s)) (v_method_value (st_req s))]) \/
  (exists dest,
      Spec.delivered r = Some dest /\
      st_pending s' =
        st_pending s ++
          [WOutbound (v_ip (st_req s)) (rq_user_agent rq) (rq_code rq)
             (v_method_name (st_req s)) (v_method_value (st_req s));
           WDynamicUrl (v_user_id (st_req s)) dest]).
Proof.
  unfold Richer.resolve, bind, gets, dispatch, query, await. cbn.
  destruct (faults e (Select, Shortlinks)); cbn; [discriminate |].
  destruct (shortlink_by_code (st_db s) (rq_code rq)) as [sl |]; cbn.
  - match goal with
    | |- context [Richer.linkbust sl e ?s1] =>
        destruct (only_draws_linkbust sl e s1) as [p Hp];
        destruct (Richer.linkbust sl e s1) as [[d |] s2]; [| discriminate]
    end.
    cbn in Hp. subst s2. cbn.
    intros H. apply deliver_delivers in H. destruct H as [-> [r0 [Hf Hd]]].
    injection Hf as <-. right. exists d. split; [exact Hd |].
    cbn. rewrite <- app_assoc. reflexivity.
  - unfold ret. intros [= <- <-]. left. split; reflexivity.
Qed.

(** X3 on a request for "promo" from Alice's granted address, once the trust
    middleware has passed it. *)
Lemma X3_delivery_matches_audit_rows_witness :
  (Redirect "https://new.example.com" = Render "404.handlebars" [] /\
   st_pending (snd (Richer.resolve (Sample.rq_granted "promo") Sample.world
                      (snd (Richer.trust (Sample.rq_granted "promo") Sample.world
                              (Sample.arrived Sample.richer_db
                                 (Sample.rq_granted "promo")))))) =
     [] ++ [WOutbound "10.0.0.1" "agent" "promo" (Some "IP") (Js.JStr "10.0.0.1")]) \/
  (exists dest,
      Spec.delivered (Redirect "https://new.example.com") = Some dest /\
      st_pending (snd (Richer.resolve (Sample.rq_granted "promo") Sample.world
                         (snd (Richer.trust (Sample.rq_granted "promo") Sample.world
                                 (Sample.arrived Sample.richer_db
                                    (Sample.rq_granted "promo")))))) =
        [] ++ [WOutbound "10.0.0.1" "agent" "promo" (Some "IP") (Js.JStr "10.0.0.1");
               WDynamicUrl (Some 1%Z) dest]).
Proof.
  apply (X3_delivery_matches_audit_rows Sample.world (Sample.rq_granted "promo")
           (snd (Richer.trust (Sample.rq_granted "promo") Sample.world
                   (Sample.arrived Sample.richer_db (Sample.rq_granted "promo"))))).
  reflexivity.
Defined.

(** ** The transforms one by one *)

Lemma lower_upper_ascii (c : ascii) :
  Js.lower_ascii (Js.upper_ascii c) = Js.lower_ascii c.
Proof.
  destruct c as [[|] [|] [|] [|] [|] [|] [|] [|]]; vm_compute; reflexivity.
Qed.

Lemma lower_lower_ascii (c : ascii) :
  Js.lower_ascii (Js.lower_ascii c) = Js.lower_ascii c.
Proof.
  destruct c as [[|] [|] [|] [|] [|] [|] [|] [|]]; vm_compute; reflexivity.
Qed.

Lemma upper_ascii_below (c : ascii) :
  (nat_of_ascii c <? 128)%nat = true ->
  (nat_of_ascii (Js.upper_ascii c) <? 128)%nat = true.
Proof.
  destruct c as [[|] [|] [|] [|] [|] [|] [|] [|]]; vm_compute; intros H; exact H.
Qed.

Lemma lower_ascii_below (c : ascii) :
  (nat_of_ascii c <? 128)%nat = true ->
  (nat_of_ascii (Js.lower_ascii c) <? 128)%nat = true.
Proof.
  destruct c as [[|] [|] [|] [|] [|] [|] [|] [|]]; vm_compute; intros H; exact H.
Qed.

(** X7.  On an ASCII destination CAPITALS never throws, draws once per
    character, and changes nothing but the case of letters: the result has
    the length of the destination and the same lower-case form. *)
Theorem X7_capitals_changes_case_only (d : string) (e : env) (s : Richer.rstate) :
  Js.is_ascii d = true ->
  exists d',
    Richer.linkbust_capitals d e s =
      (Ok d', set_draws (st_draws s + String.length d) s) /\
    Js.toLowerCase d' = Js.toLowerCase d /\
    String.length d' = String.length d /\
    Js.is_ascii d' = true.
Proof.
  revert s. induction d as [| v rest IH]; intros s Hascii.
  - exists "". cbn. rewrite Nat.add_0_r, set_draws_same. repeat split.
  - unfold Js.is_ascii in Hascii. cbn [list_ascii_of_string forallb] in Hascii.
    apply andb_true_iff in Hascii. destruct Hascii as [Hv Hrest].
    cbn [Richer.linkbust_capitals]. unfold bind at 1. unfold coin, draw.
    destruct (IH (set_draws (Datatypes.S (st_draws s)) s) Hrest)
      as [rest' [Hrun [Hlow [Hlen Hasc]]]].
    unfold bind. rewrite Hrun. unfold ret.
    eexists. split; [| split; [| split]].
    + cbn. rewrite <- Nat.add_succ_comm. reflexivity.
    + cbn [Js.toLowerCase]. rewrite Hlow.
      match goal with |- context [if ?b then _ else _] => destruct b end;
        [rewrite lower_upper_ascii | rewrite lower_lower_ascii]; reflexivity.
    + cbn [String.length]. rewrite Hlen. reflexivity.
    + unfold Js.is_ascii. cbn [list_ascii_of_string forallb].
      apply andb_true_iff. split; [| exact Hasc].
      match goal with |- context [if ?b then _ else _] => destruct b end;
        [apply upper_ascii_below | apply lower_ascii_below]; exact Hv.
Qed.

Lemma X7_capitals_changes_case_only_witness :
  exists d',
    Richer.linkbust_capitals "https://Example.com/a" Sample.world
      (start Sample.richer_db (Sample.rq_granted "")) =
      (Ok d',
       set_draws
         (st_draws (start Sample.richer_db (Sample.rq_granted "")) +
          String.length "https://Example.com/a")
         (start Sample.richer_db (Sample.rq_granted ""))) /\
    Js.toLowerCase d' = Js.toLowerCase "https://Example.com/a" /\
    String.length d' = String.length "https://Example.com/a" /\
    Js.is_ascii d' = true.
Proof.
  apply (X7_capitals_changes_case_only "https://Example.com/a" Sample.world
           (start Sample.richer_db (Sample.rq_granted ""))).
  reflexivity.
Defined.

Lemma alphanumeric_append (a b : string) :
  Spec.alphanumeric (a ++ b) = Spec.alphanumeric a && Spec.alphanumeric b.
Proof.
  unfold Spec.alphanumeric.
  induction a as [| c a IH]; cbn [append list_ascii_of_string forallb];
    [reflexivity |].
  rewrite IH, andb_assoc. reflexivity.
Qed.

Lemma charAt_alphanumeric (k : nat) :
  k < Rand.charactersLength ->
  Spec.alphanumeric (Js.charAt k Rand.characters) = true.
Proof.
  unfold Rand.charactersLength. cbn [String.length Rand.characters]. intros Hk.
  do 62 (destruct k as [| k]; [vm_compute; reflexivity |]).
  exfalso. cbn in Hk. lia.
Qed.

Lemma rs_loop_alphanumeric (rnd : Rand.oracle) (n : nat) :
  forall acc p,
    Spec.alphanumeric acc = true ->
    Spec.alphanumeric (fst (Rand.rs_loop rnd n acc p)) = true.
Proof.
  induction n as [| n IH]; intros acc p Hacc; [exact Hacc |].
  change (Rand.rs_loop rnd (Datatypes.S n) acc p)
    with (Rand.rs_loop rnd n
            (acc ++ Js.charAt (rnd p mod Rand.charactersLength) Rand.characters)
            (Datatypes.S p)).
  apply IH. rewrite alphanumeric_append, Hacc, charAt_alphanumeric; [reflexivity |].
  apply Nat.mod_upper_bound. unfold Rand.charactersLength. cbn. lia.
Qed.

(** X9.  [rs(n)] returns exactly [n] characters, each one of the 62 letters
    and digits of its alphabet, and calls [Math.random] exactly [n] times. *)
Theorem X9_rs_length_and_alphabet (rnd : Rand.oracle) (n p : nat) :
  String.length (fst (Rand.rs rnd n p)) = n /\
  snd (Rand.rs rnd n p) = p + n /\
  Spec.alphanumeric (fst (Rand.rs rnd n p)) = true.
Proof.
  destruct (length_rs rnd n p) as [Hl Hp].
  split; [exact Hl |]. split; [exact Hp |].
  apply rs_loop_alphanumeric. reflexivity.
Qed.

(** ** RANDOM on any destination *)

Lemma length_split_from_acc (sep : string) (s : string) :
  forall skip acc acc',
    List.length (Js.split_from sep skip acc s) =
    List.length (Js.split_from sep skip acc' s).
Proof.
  induction s as [| c s IH]; intros skip acc acc'; [reflexivity |].
  unfold Js.split_from; fold Js.split_from.
  destruct skip as [| k]; [| apply IH].
  destruct (String.prefix sep (String c s)).
  - reflexivity.
  - apply IH.
Qed.

Lemma prefix_split (p : string) :
  forall s, String.prefix p s = true -> exists t, s = (p ++ t)%string.
Proof.
  induction p as [| a p IH]; intros s H.
  - exists s. reflexivity.
  - destruct s as [| b s]; [discriminate H |].
    cbn [String.prefix] in H. destruct (ascii_dec a b) as [-> |]; [| discriminate H].
    destruct (IH _ H) as [t ->]. exists t. reflexivity.
Qed.

Lemma prefix_fresh (q0 : string) :
  forall rep t,
    Spec.no_percent rep = true ->
    String.length q0 < String.length rep ->
    String.prefix (q0 ++ "%") (rep ++ t) = false.
Proof.
  induction q0 as [| a q0 IH]; intros rep t Hrep Hlen;
    (destruct rep as [| r rep]; [cbn in Hlen; lia |]);
    cbn [Spec.no_percent] in Hrep; apply andb_true_iff in Hrep;
    destruct Hrep as [Hr Hrep]; apply negb_true_iff in Hr;
    cbn [append String.prefix].
  - destruct (ascii_dec "%" r) as [<- |]; [discriminate Hr | reflexivity].
  - destruct (ascii_dec a r); [| reflexivity].
    apply IH; [exact Hrep | cbn in Hlen; lia].
Qed.

Lemma prefix_replace_false (rep : string) (q0 : string) :
  Spec.no_percent rep = true ->
  forall s,
    String.length q0 < String.length rep ->
    String.prefix (q0 ++ "%") s = false ->
    String.prefix (q0 ++ "%") (Js.replace "%RAN%" rep s) = false.
Proof.
  intros Hrep. induction q0 as [| a q0 IH]; intros s Hlen H.
  - destruct s as [| c s]; [reflexivity |].
    unfold Js.replace; fold Js.replace.
    destruct (String.prefix "%RAN%" (String c s)) eqn:Hp.
    + apply (prefix_fresh ""); assumption.
    + cbn [append String.prefix] in *.
      destruct (ascii_dec "%" c); [| reflexivity]. destruct s; discriminate H.
  - destruct s as [| c s]; [reflexivity |].
    unfold Js.replace; fold Js.replace.
    destruct (String.prefix "%RAN%" (String c s)) eqn:Hp.
    + apply (prefix_fresh (String a q0)); assumption.
    + cbn [append String.prefix] in *.
      destruct (ascii_dec a c); [| reflexivity].
      apply IH; [cbn in Hlen; lia | exact H].
Qed.

Lemma placeholder_not_made (rep : string) (c : ascii) (s : string) :
  Spec.no_percent rep = true ->
  String.length rep = 5 ->
  String.prefix "%RAN%" (String c s) = false ->
  String.prefix "%RAN%" (String c (Js.replace "%RAN%" rep s)) = false.
Proof.
  intros Hrep Hlen H.
  change (String.prefix "%RAN%" (String c s))
    with (if ascii_dec "%"%char c then String.prefix "RAN%" s else false) in H.
  change (String.prefix "%RAN%" (String c (Js.replace "%RAN%" rep s)))
    with (if ascii_dec "%"%char c
          then String.prefix "RAN%" (Js.replace "%RAN%" rep s) else false).
  destruct (ascii_dec "%"%char c); [| reflexivity].
  apply (prefix_replace_false rep "RAN" Hrep); [rewrite Hlen; cbn; lia | exact H].
Qed.

(** One [replace] takes one piece off the split, unless there was only one. *)
Lemma length_split_replace (rep : string) :
  Spec.no_percent rep = true ->
  String.length rep = 5 ->
  forall s acc acc',
    List.length (Js.split_from "%RAN%" 0 acc (Js.replace "%RAN%" rep s)) =
    Nat.max 1 (List.length (Js.split_from "%RAN%" 0 acc' s) - 1).
Proof.
  intros Hrep Hlen. induction s as [| c s IH]; intros acc acc'; [reflexivity |].
  destruct (String.prefix "%RAN%" (String c s)) eqn:Hp.
  - destruct (prefix_split _ _ Hp) as [t Ht]. rewrite Ht.
    rewrite replace_placeholder, split_from_placeholder,
      (split_from_clean rep Hrep).
    cbn [List.length]. rewrite Nat.sub_succ, Nat.sub_0_r.
    rewrite (length_split_from_acc "%RAN%" t 0 (acc ++ rep) "").
    pose proof (length_split_from "%RAN%" 0 "" t). lia.
  - unfold Js.replace; fold Js.replace. rewrite Hp.
    unfold Js.split_from; fold Js.split_from.
    rewrite Hp, (placeholder_not_made rep c s Hrep Hlen Hp).
    apply IH.
Qed.

Lemma placeholders_replace (rep s : string) :
  Spec.no_percent rep = true ->
  String.length rep = 5 ->
  Spec.placeholders (Js.replace "%RAN%" rep s) = Spec.placeholders s - 1.
Proof.
  intros Hrep Hlen. unfold Spec.placeholders, Js.split.
  rewrite (length_split_replace rep Hrep Hlen s "" "").
  pose proof (length_split_from "%RAN%" 0 "" s). lia.
Qed.

Lemma random_loop_counts (rnd : Rand.oracle) (fuel : nat) :
  forall i d p r,
    Richer.random_loop rnd fuel i d p = Some r ->
    let m := Spec.placeholders d in
    Spec.placeholders (fst r) =
      (if (i <=? m)%nat then m - ((m - i) / 2 + 1) else m) /\
    snd r = p + 5 * (if (i <=? m)%nat then (m - i) / 2 + 1 else 0) /\
    String.length (fst r) = String.length d.
Proof.
  induction fuel as [| fuel IH]; intros i d p r H m;
    unfold Richer.random_loop in H; fold Richer.random_loop in H;
    assert (Hm : List.length (Js.split "%RAN%" d) = m + 1)
      by (unfold m, Spec.placeholders, Js.split;
          pose proof (length_split_from "%RAN%" 0 "" d); lia);
    rewrite Hm in H;
    destruct (i <? m + 1)%nat eqn:Hi;
    [ apply Nat.ltb_lt in Hi | apply Nat.ltb_ge in Hi
    | apply Nat.ltb_lt in Hi | apply Nat.ltb_ge in Hi ].
  - discriminate H.
  - injection H as <-. cbn [fst snd].
    destruct (i <=? m)%nat eqn:Hle; [apply Nat.leb_le in Hle; lia |].
    repeat split; lia.
  - destruct (Rand.rs rnd 5 p) as [ran p'] eqn:Hrs.
    pose proof (rs_no_percent rnd 5 p) as Hclean.
    destruct (length_rs rnd 5 p) as [Hl5 Hp5].
    rewrite Hrs in Hclean, Hl5, Hp5. cbn [fst snd] in Hclean, Hl5, Hp5.
    destruct (IH _ _ _ _ H) as [Hc [Hp Hl]].
    rewrite (placeholders_replace ran d Hclean Hl5) in Hc, Hp. fold m in Hc, Hp.
    rewrite (length_replace "%RAN%" ran d) in Hl by (rewrite Hl5; reflexivity).
    destruct (i <=? m)%nat eqn:Hle; [| apply Nat.leb_gt in Hle; lia].
    rewrite Hc, Hp, Hl, Hp5.
    destruct (i + 1 <=? m - 1)%nat eqn:Hn;
      [apply Nat.leb_le in Hn | apply Nat.leb_gt in Hn].
    + replace (m - i) with (m - 1 - (i + 1) + 1 * 2) by lia.
      rewrite Nat.div_add by lia. repeat split; lia.
    + assert (Hs : (m - i) / 2 = 0) by (apply Nat.div_small; lia).
      rewrite Hs. repeat split; lia.
  - injection H as <-. cbn [fst snd].
    destruct (i <=? m)%nat eqn:Hle; [apply Nat.leb_le in Hle; lia |].
    repeat split; lia.
Qed.

Lemma half_left (n : nat) : n - (n / 2 + 1) = (n - 1) / 2.
Proof.
  pose proof (Nat.div_mod_eq n 2). pose proof (Nat.mod_upper_bound n 2).
  pose proof (Nat.div_mod_eq (n - 1) 2). pose proof (Nat.mod_upper_bound (n - 1) 2).
  lia.
Qed.

(** X8.  RANDOM on any destination with [n] placeholders (as
    [split("%RAN%")] counts them): the loop takes [n/2 + 1] turns, so
    [(n - 1)/2] placeholders are still there at the end; every turn calls
    [rs(5)], five draws, also a turn that finds nothing to replace; the
    length of the destination is kept. *)
Theorem X8_random_fills_half_of_the_placeholders (rnd : Rand.oracle)
  (destination : string) (p : nat) :
  let n := Spec.placeholders destination in
  Spec.placeholders (fst (Richer.linkbust_random rnd destination p)) = (n - 1) / 2 /\
  snd (Richer.linkbust_random rnd destination p) = p + 5 * (n / 2 + 1) /\
  String.length (fst (Richer.linkbust_random rnd destination p)) =
    String.length destination.
Proof.
  intros n.
  destruct (random_loop_counts rnd _ _ _ _ _ (random_loop_fuel rnd destination p))
    as [Hc [Hp Hl]].
  fold n in Hc, Hp. cbn [Nat.leb] in Hc, Hp. rewrite Nat.sub_0_r in Hc, Hp.
  rewrite Hc, Hp, Hl. repeat split.
  apply half_left.
Qed.

(** ** Creation, case by case *)

Lemma create_code_step (b : Richer.link_body) (e : env) (s : Richer.rstate) :
  exists s1,
    (match Richer.b_code b with
     | Some c => if Js.truthy_str (Richer.b_code b) then ret c else rs 5
     | None => rs 5
     end) e s = (Ok (Spec.code_of b e s), s1) /\
    st_db s1 = st_db s /\ st_pending s1 = st_pending s /\ st_res s1 = st_res s.
Proof.
  unfold Spec.code_of, rs, draw, ret.
  destruct (Richer.b_code b) as [c |];
    [destruct (Js.truthy_str (Some c)) |];
    try destruct (Rand.rs (rnd e) 5 (st_draws s)) as [r p];
    eexists; repeat split.
Qed.

Lemma bad_request_run (msg : string) (e : env) (s : Richer.rstate) :
  fst (Richer.bad_request msg e s) = Ok (Json [("error", Js.JStr msg)]) /\
  r_status (st_res (snd (Richer.bad_request msg e s))) = 400%Z /\
  st_pending (snd (Richer.bad_request msg e s)) = st_pending s /\
  st_db (snd (Richer.bad_request msg e s)) = st_db s.
Proof. repeat split. Qed.

Lemma create_cases (b : Richer.link_body) (e : env) (s : Richer.rstate) :
  st_db (snd (Richer.create b e s)) = st_db s /\
  ((exists msg,
      fst (Richer.create b e s) = Ok (Json [("error", Js.JStr msg)]) /\
      r_status (st_res (snd (Richer.create b e s))) = 400%Z /\
      st_pending (snd (Richer.create b e s)) = st_pending s) \/
   (fst (Richer.create b e s) = Throw /\
    st_pending (snd (Richer.create b e s)) = st_pending s) \/
   (exists m d lb,
      Richer.b_method b = Some m /\
      Js.includes ["GET"; "POST"] (Js.toUpperCase m) = true /\
      Richer.b_destination b = Some d /\ d <> "" /\
      Richer.check_data m (Richer.b_data b) = None /\
      Richer.normalize_linkbust (Richer.b_linkbust b) = inr (Some lb) /\
      fst (Richer.create b e s) =
        Ok (Json [("message", Js.JStr "Shortlink creation in progress.");
                  ("code", Js.JStr (Spec.code_of b e s))]) /\
      st_pending (snd (Richer.create b e s)) =
        st_pending s ++
          [WShortlink (Spec.code_of b e s) (Js.toUpperCase m)
             (if Js.truthy (Richer.b_data b)
              then Some (json_stringify e (Richer.b_data b)) else None)
             d lb] /\
      st_res (snd (Richer.create b e s)) = st_res s)).
Proof.
  destruct (create_code_step b e s) as [s1 [Hcode [Hdb [Hp Hr]]]].
  remember (Richer.create b e s) as r eqn:Hrun.
  unfold Richer.create, bind in Hrun. rewrite Hcode in Hrun.
  assert (Hbad : forall msg,
    r = Richer.bad_request msg e s1 ->
    st_db (snd r) = st_db s /\
    exists msg0,
      fst r = Ok (Json [("error", Js.JStr msg0)]) /\
      r_status (st_res (snd r)) = 400%Z /\
      st_pending (snd r) = st_pending s).
  { intros msg ->. split; [exact Hdb |]. exists msg. repeat split; exact Hp. }
  destruct (Richer.b_method b) as [m |] eqn:Hm;
    [| destruct (Hbad _ Hrun); split; [| left]; assumption].
  destruct (Js.truthy_str (Some m)) eqn:Hmt; cbn [negb] in Hrun;
    [| destruct (Hbad _ Hrun); split; [| left]; assumption].
  destruct (Js.includes ["GET"; "POST"] (Js.toUpperCase m)) eqn:Hinc;
    cbn [negb] in Hrun;
    [| destruct (Hbad _ Hrun); split; [| left]; assumption].
  destruct (Richer.b_destination b) as [d |] eqn:Hd;
    [| destruct (Hbad _ Hrun); split; [| left]; assumption].
  destruct (Js.truthy_str (Some d)) eqn:Hdt; cbn [negb] in Hrun;
    [| destruct (Hbad _ Hrun); split; [| left]; assumption].
  destruct (Richer.check_data m (Richer.b_data b)) as [msg |] eqn:Hdata;
    [destruct (Hbad _ Hrun); split; [| left]; assumption |].
  destruct (Richer.normalize_linkbust (Richer.b_linkbust b)) as [msg | [lb |]]
    eqn:Hlb; [destruct (Hbad _ Hrun); split; [| left]; assumption | |].
  - destruct (store_queues e s1 b (Spec.code_of b e s) m d lb) as [H1 [H2 [H3 H4]]].
    rewrite <- Hrun in H1, H2, H3, H4.
    split; [rewrite H4; exact Hdb |].
    right. right. exists m, d, lb.
    cbn in Hdt. apply negb_true_iff in Hdt. apply String.eqb_neq in Hdt.
    rewrite H1, H2, H3, Hp, Hr. repeat split; assumption.
  - subst r. split; [exact Hdb |]. right. left. split; [reflexivity | exact Hp].
Qed.

Lemma includes_get_post (x : string) :
  Js.includes ["GET"; "POST"] x = true -> x = "GET" \/ x = "POST".
Proof.
  cbn. intros H. apply orb_true_iff in H. destruct H as [H | H].
  - left. apply String.eqb_eq in H. exact H.
  - rewrite orb_false_r in H. right. apply String.eqb_eq in H. exact H.
Qed.

Lemma code_of_not_empty (b : Richer.link_body) (e : env) (s : Richer.rstate) :
  Spec.code_of b e s <> "".
Proof.
  assert (Hrs : fst (Rand.rs (rnd e) 5 (st_draws s)) <> "").
  { intros Heq. destruct (length_rs (rnd e) 5 (st_draws s)) as [Hl _].
    rewrite Heq in Hl. discriminate Hl. }
  unfold Spec.code_of. destruct (Richer.b_code b) as [c |]; [| exact Hrs].
  destruct (Js.truthy_str (Some c)) eqn:Hc; [| exact Hrs].
  cbn in Hc. apply negb_true_iff in Hc. apply String.eqb_neq in Hc. exact Hc.
Qed.

(** X10.  [POST /l] never touches the database before it answers, and
    it queues either nothing or one insert into [shortlinks].  The insert
    is queued exactly with the success answer, and its row is well formed:
    the code is the one answered and not empty, the method is [GET] or
    [POST] in upper case, the destination is not empty. *)
Theorem X10_create_queues_one_well_formed_row (b : Richer.link_body) (e : env)
  (s : Richer.rstate) :
  st_db (snd (Richer.create b e s)) = st_db s /\
  ((st_pending (snd (Richer.create b e s)) = st_pending s /\
    forall code,
      fst (Richer.create b e s) <>
        Ok (Json [("message", Js.JStr "Shortlink creation in progress.");
                  ("code", Js.JStr code)])) \/
   (exists code method data destination linkbust,
      st_pending (snd (Richer.create b e s)) =
        st_pending s ++ [WShortlink code method data destination linkbust] /\
      fst (Richer.create b e s) =
        Ok (Json [("message", Js.JStr "Shortlink creation in progress.");
                  ("code", Js.JStr code)]) /\
      code <> "" /\ (method = "GET" \/ method = "POST") /\ destination <> "")).
Proof.
  destruct (create_cases b e s) as [Hdb [Hbad | [Hthrow | Hok]]];
    (split; [exact Hdb |]).
  - destruct Hbad as [msg [Hr [_ Hp]]]. left. split; [exact Hp |].
    intros code. rewrite Hr. intros Heq. discriminate Heq.
  - destruct Hthrow as [Hr Hp]. left. split; [exact Hp |].
    intros code. rewrite Hr. intros Heq. discriminate Heq.
  - destruct Hok as [m [d [lb [_ [Hinc [_ [Hne [_ [_ [Hr [Hp _]]]]]]]]]]].
    right. eexists _, _, _, _, _. split; [exact Hp |]. split; [exact Hr |].
    split; [apply code_of_not_empty |]. split; [| exact Hne].
    apply includes_get_post. exact Hinc.
Qed.

Lemma next_id_above {R : Type} (key : R -> Z) (rows : list R) (r : R) :
  In r rows -> (key r < next_id key rows)%Z.
Proof.
  induction rows as [| x rows IH]; intros Hin; [destruct Hin |].
  cbn [next_id fold_right]. fold (next_id key rows).
  destruct Hin as [-> | Hin]; [lia |]. specialize (IH Hin). lia.
Qed.

(** The row an insert into [shortlinks] adds is the one a later lookup of
    its code returns, whatever rows held the code before. *)
Lemma shortlink_by_code_after_insert (d : Richer.db)
  (code method : string) (data : option string) (destination : string)
  (linkbust : option string) :
  shortlink_by_code
    (apply_write (WShortlink code method data destination linkbust) d) code =
  Some (mkShortlink (next_id sl_id (shortlinks d)) code method data linkbust
          destination).
Proof.
  set (row := mkShortlink (next_id sl_id (shortlinks d)) code method data
                linkbust destination).
  set (d' := apply_write (WShortlink code method data destination linkbust) d).
  assert (Hin : In row (shortlinks d')).
  { cbn. apply in_or_app. right. left. reflexivity. }
  destruct (shortlink_by_code d' code) as [r |] eqn:Hlook.
  - destruct (shortlink_by_code_some _ _ _ Hlook) as [Hr [_ Hmax]].
    cbn in Hr. apply in_app_or in Hr. destruct Hr as [Hold | [Hnew | []]].
    + pose proof (next_id_above sl_id _ _ Hold) as Hlt.
      specialize (Hmax row Hin eq_refl). cbn in Hmax. lia.
    + rewrite <- Hnew. reflexivity.
  - exfalso. apply (proj1 (shortlink_by_code_none d' code) Hlook row Hin).
    reflexivity.
Qed.

(** ** From creation to resolution *)

Lemma create_then_lookup (b : Richer.link_body) (e : env) (s : Richer.rstate)
  (code : string) :
  st_pending s = [] ->
  faults e (Insert, Shortlinks) = false ->
  fst (Richer.create b e s) =
    Ok (Json [("message", Js.JStr "Shortlink creation in progress.");
              ("code", Js.JStr code)]) ->
  exists m d lb,
    Richer.b_method b = Some m /\
    Richer.b_destination b = Some d /\
    Richer.normalize_linkbust (Richer.b_linkbust b) = inr (Some lb) /\
    shortlink_by_code (settle e (snd (Richer.create b e s))) code =
      Some (mkShortlink (next_id sl_id (shortlinks (st_db s))) code
              (Js.toUpperCase m)
              (if Js.truthy (Richer.b_data b)
               then Some (json_stringify e (Richer.b_data b)) else None)
              lb d).
Proof.
  intros Hnil Hf Hreply.
  destruct (create_cases b e s) as [Hdb [Hbad | [Hthrow | Hok]]].
  - destruct Hbad as [msg [Hr _]]. rewrite Hr in Hreply. discriminate Hreply.
  - destruct Hthrow as [Hr _]. rewrite Hr in Hreply. discriminate Hreply.
  - destruct Hok as [m [d [lb [Hm [_ [Hd [_ [_ [Hlb [Hr [Hp _]]]]]]]]]]].
    rewrite Hr in Hreply. injection Hreply as Hcode.
    exists m, d, lb. repeat (split; [assumption |]).
    rewrite (settle_one e s _ _ Hnil Hp Hdb Hf), Hcode.
    apply shortlink_by_code_after_insert.
Qed.

(** X11.  Creation followed by lookup: once the queued insert has
    completed, the lookup of [GET /l/:code] for the code that [POST /l]
    answered returns the row just created, with the destination and the
    upper-cased method of the request, and with a key above every row the
    table held: older rows of the same code are shadowed. *)
Theorem X11_latest_creation_shadows_older_rows (b : Richer.link_body) (e : env)
  (s : Richer.rstate) (code : string) :
  st_pending s = [] ->
  faults e (Insert, Shortlinks) = false ->
  fst (Richer.create b e s) =
    Ok (Json [("message", Js.JStr "Shortlink creation in progress.");
              ("code", Js.JStr code)]) ->
  exists sl,
    shortlink_by_code (settle e (snd (Richer.create b e s))) code = Some sl /\
    Richer.b_destination b = Some (sl_destination sl) /\
    option_map Js.toUpperCase (Richer.b_method b) = Some (sl_method sl) /\
    forall old, In old (shortlinks (st_db s)) -> (sl_id old < sl_id sl)%Z.
Proof.
  intros Hnil Hf Hreply.
  destruct (create_then_lookup b e s code Hnil Hf Hreply)
    as [m [d [lb [Hm [Hd [_ Hlook]]]]]].
  eexists. split; [exact Hlook |]. cbn. rewrite Hm, Hd. repeat split.
  intros old Hold. apply next_id_above. exact Hold.
Qed.

Lemma X11_latest_creation_shadows_older_rows_witness :
  exists sl,
    shortlink_by_code
      (settle Sample.world
         (snd (Richer.create Sample.body_promo Sample.world
                 (start Sample.richer_db (Sample.rq_granted "")))))
      "promo" = Some sl /\
    Richer.b_destination Sample.body_promo = Some (sl_destination sl) /\
    option_map Js.toUpperCase (Richer.b_method Sample.body_promo) =
      Some (sl_method sl) /\
    forall old,
      In old (shortlinks (st_db (start Sample.richer_db (Sample.rq_granted "")))) ->
      (sl_id old < sl_id sl)%Z.
Proof.
  apply (X11_latest_creation_shadows_older_rows Sample.body_promo Sample.world
           (start Sample.richer_db (Sample.rq_granted "")) "promo");
    reflexivity.
Defined.






(** ** [POST /login]: who gets in *)

Section Inversion.
Context {S SS : Type}.

Lemma bind_ok {A B : Type} (m : @M S SS A) (k : A -> @M S SS B) (e : env)
  (s s' : state S SS) (b : B) :
  bind m k e s = (Ok b, s') ->
  exists a s1, m e s = (Ok a, s1) /\ k a e s1 = (Ok b, s').
Proof.
  unfold bind. destruct (m e s) as [[a |] s1]; intros H; [| discriminate H].
  exists a, s1. split; [reflexivity | exact H].
Qed.

Lemma query_ok {A : Type} (o : op) (q : database S SS -> A) (e : env)
  (s s' : state S SS) (a : A) :
  query o q e s = (Ok a, s') ->
  a = q (st_db s) /\ s' = log (Awaited o) s.
Proof.
  unfold query, await. destruct (faults e o); intros H; [discriminate H |].
  injection H as <- <-. split; [reflexivity |].
  destruct s; reflexivity.
Qed.

Lemma await_ok {A : Type} (o : op) (q : database S SS -> option (A * database S SS))
  (e : env) (s s' : state S SS) (a : A) :
  await o q e s = (Ok a, s') ->
  exists d, q (st_db s) = Some (a, d) /\ s' = set_db d (log (Awaited o) s).
Proof.
  unfold await. destruct (faults e o); intros H; [discriminate H |].
  destruct (q (st_db s)) as [[a' d] |]; [| discriminate H].
  injection H as <- <-. exists d. split; reflexivity.
Qed.
End Inversion.

Lemma valid_session_reads (rq : request session_row) (user : user_row) (e : env)
  (s s' : Richer.rstate) (v : bool) :
  Richer.valid_session rq user e s = (Ok v, s') ->
  st_db s' = st_db s /\ st_req s' = st_req s /\ st_res s' = st_res s.
Proof.
  unfold Richer.valid_session.
  destruct (Js.truthy_str (rq_cookie_sessionId rq));
    [| intros [= _ <-]; repeat split].
  destruct (rq_cookie_sessionId rq) as [c |]; [| intros [= _ <-]; repeat split].
  intros H. apply bind_ok in H. destruct H as [cs [s1 [Hq H]]].
  apply query_ok in Hq. destruct Hq as [_ ->].
  destruct cs; injection H as _ <-; repeat split.
Qed.

Lemma login_error_run (msg : string) (e : env) (s s' : Richer.rstate) (r : reply) :
  login_error msg e s = (Ok r, s') ->
  r = Render "login.handlebars" [("error", Js.JStr msg)] /\
  r_status (st_res s') = 400%Z /\ r_cookies (st_res s') = r_cookies (st_res s) /\
  st_db s' = st_db s /\ st_req s' = st_req s /\ st_trace s' = st_trace s.
Proof.
  intros H. injection H as <- <-. repeat split.
Qed.

(** X14.  [POST /login] redirects to [/] only for a row of [users] whose
    email is the one sent and whose stored hash [bcrypt.compare] accepts for
    the password sent, both non-empty; the session user it leaves is that
    row, with the addresses and the sessions the database holds for it at
    that moment. *)
Theorem X14_login_admits_matching_credentials_only (e : env)
  (rq : request session_row) (b : login_body) (s s' : Richer.rstate)
  (location : string) :
  Richer.login rq b e s = (Ok (Redirect location), s') ->
  location = "/" /\
  exists email password user,
    b_email b = Some email /\ email <> "" /\
    b_password b = Some password /\ password <> "" /\
    In user (users (st_db s)) /\ user_email user = email /\
    bcrypt_compare e password (user_password user) = true /\
    v_session_user (st_req s') =
      Some (mkSessionUser user
              (map ip_address
                 (where_ (fun i => (ip_user_id i =? user_id user)%Z) (ips (st_db s'))))
              (where_ (fun r => (session_user_id r =? user_id user)%Z)
                 (sessions (st_db s')))).
Proof.
  unfold Richer.login. intros H.
  destruct (b_email b) as [email |] eqn:He;
    [| apply login_error_run in H; destruct H as [H _]; discriminate H].
  destruct (Js.truthy_str (Some email)) eqn:Het; cbn [negb] in H;
    [| apply login_error_run in H; destruct H as [H _]; discriminate H].
  destruct (b_password b) as [password |] eqn:Hpw;
    [| apply login_error_run in H; destruct H as [H _]; discriminate H].
  destruct (Js.truthy_str (Some password)) eqn:Hpt; cbn [negb] in H;
    [| apply login_error_run in H; destruct H as [H _]; discriminate H].
  apply bind_ok in H. destruct H as [found [s1 [H1 H]]].
  apply query_ok in H1. destruct H1 as [Hfound ->].
  destruct found as [user |];
    [| apply login_error_run in H; destruct H as [H _]; discriminate H].
  apply bind_ok in H. destruct H as [matches [s1 [H1 H]]]. injection H1 as <- <-.
  destruct (bcrypt_compare e password (user_password user)) eqn:Hmatch;
    cbn [negb] in H;
    [| apply login_error_run in H; destruct H as [H _]; discriminate H].
  apply bind_ok in H. destruct H as [valid [s2 [H2 H]]].
  apply bind_ok in H. destruct H as [[] [s3 [H3 H]]].
  apply bind_ok in H. destruct H as [user_ips [s4 [H4 H]]].
  apply query_ok in H4. destruct H4 as [-> ->].
  apply bind_ok in H. destruct H as [user_sessions [s5 [H5 H]]].
  apply query_ok in H5. destruct H5 as [-> ->].
  apply bind_ok in H. destruct H as [[] [s6 [H6 H]]]. injection H6 as <-.
  injection H as <- <-. split; [reflexivity |].
  exists email, password, user.
  cbn in Het, Hpt. apply negb_true_iff in Het, Hpt.
  apply String.eqb_neq in Het, Hpt.
  symmetry in Hfound. apply first_In in Hfound.
  apply filter_In in Hfound. destruct Hfound as [Hin Heq].
  apply String.eqb_eq in Heq.
  repeat split; try assumption.
Qed.

Lemma X14_login_admits_matching_credentials_only_witness :
  "/"%string = "/"%string /\
  exists email password user,
    b_email Sample.alice_login = Some email /\ email <> "" /\
    b_password Sample.alice_login = Some password /\ password <> "" /\
    In user (users (st_db (start Sample.richer_db Sample.rq_login))) /\
    user_email user = email /\
    bcrypt_compare Sample.world password (user_password user) = true /\
    v_session_user
      (st_req (snd (Richer.login Sample.rq_login Sample.alice_login Sample.world
                      (start Sample.richer_db Sample.rq_login)))) =
      Some (mkSessionUser user
              (map ip_address
                 (where_ (fun i => (ip_user_id i =? user_id user)%Z)
                    (ips (st_db (snd (Richer.login Sample.rq_login Sample.alice_login
                                        Sample.world
                                        (start Sample.richer_db Sample.rq_login)))))))
              (where_ (fun r => (session_user_id r =? user_id user)%Z)
                 (sessions
                    (st_db (snd (Richer.login Sample.rq_login Sample.alice_login
                                   Sample.world
                                   (start Sample.richer_db Sample.rq_login))))))).
Proof.
  apply (X14_login_admits_matching_credentials_only Sample.world Sample.rq_login
           Sample.alice_login (start Sample.richer_db Sample.rq_login)
           (snd (Richer.login Sample.rq_login Sample.alice_login Sample.world
                   (start Sample.richer_db Sample.rq_login))) "/").
  reflexivity.
Defined.

(** X15.  A login that is answered with a page is answered with the login
    form, one error message and status 400, and has changed nothing: the
    database, the session user, the cookies and the queue of dispatched
    statements are as before. *)
Theorem X15_refused_login_changes_nothing (e : env) (rq : request session_row)
  (b : login_body) (s s' : Richer.rstate) (view : string)
  (locals : list (string * Js.jsval)) :
  Richer.login rq b e s = (Ok (Render view locals), s') ->
  view = "login.handlebars" /\
  (exists msg, locals = [("error", Js.JStr msg)]) /\
  r_status (st_res s') = 400%Z /\
  st_db s' = st_db s /\ st_req s' = st_req s /\
  r_cookies (st_res s') = r_cookies (st_res s) /\
  st_pending s' = st_pending s.
Proof.
  assert (Herr : forall msg s0,
    st_db s0 = st_db s -> st_req s0 = st_req s ->
    r_cookies (st_res s0) = r_cookies (st_res s) ->
    st_pending s0 = st_pending s ->
    login_error msg e s0 = (Ok (Render view locals), s') ->
    view = "login.handlebars" /\
    (exists msg, locals = [("error", Js.JStr msg)]) /\
    r_status (st_res s') = 400%Z /\
    st_db s' = st_db s /\ st_req s' = st_req s /\
    r_cookies (st_res s') = r_cookies (st_res s) /\
    st_pending s' = st_pending s).
  { intros msg s0 Hdb Hreq Hck Hpd H. injection H as <- <- <-.
    split; [reflexivity |]. split; [exists msg; reflexivity |].
    repeat split; assumption. }
  unfold Richer.login. intros H.
  destruct (b_email b) as [email |] eqn:He;
    [| eapply Herr; [| | | | exact H]; reflexivity].
  destruct (Js.truthy_str (Some email)) eqn:Het; cbn [negb] in H;
    [| eapply Herr; [| | | | exact H]; reflexivity].
  destruct (b_password b) as [password |] eqn:Hpw;
    [| eapply Herr; [| | | | exact H]; reflexivity].
  destruct (Js.truthy_str (Some password)) eqn:Hpt; cbn [negb] in H;
    [| eapply Herr; [| | | | exact H]; reflexivity].
  apply bind_ok in H. destruct H as [found [s1 [H1 H]]].
  apply query_ok in H1. destruct H1 as [Hfound ->].
  destruct found as [user |];
    [| eapply Herr; [| | | | exact H]; reflexivity].
  apply bind_ok in H. destruct H as [matches [s1 [H1 H]]]. injection H1 as <- <-.
  destruct (bcrypt_compare e password (user_password user)) eqn:Hmatch;
    cbn [negb] in H;
    [| eapply Herr; [| | | | exact H]; reflexivity].
  apply bind_ok in H. destruct H as [valid [s2 [H2 H]]].
  apply bind_ok in H. destruct H as [[] [s3 [H3 H]]].
  apply bind_ok in H. destruct H as [user_ips [s4 [H4 H]]].
  apply bind_ok in H. destruct H as [user_sessions [s5 [H5 H]]].
  apply bind_ok in H. destruct H as [[] [s6 [H6 H]]].
  discriminate H.
Qed.

Lemma X15_refused_login_changes_nothing_witness :
  "login.handlebars"%string = "login.handlebars"%string /\
  (exists msg, [("error", Js.JStr "Invalid password.")] = [("error", Js.JStr msg)]) /\
  r_status
    (st_res (snd (Richer.login Sample.rq_login Sample.wrong_password Sample.world
                    (start Sample.richer_db Sample.rq_login)))) = 400%Z /\
  st_db (snd (Richer.login Sample.rq_login Sample.wrong_password Sample.world
                (start Sample.richer_db Sample.rq_login))) =
    st_db (start Sample.richer_db Sample.rq_login) /\
  st_req (snd (Richer.login Sample.rq_login Sample.wrong_password Sample.world
                 (start Sample.richer_db Sample.rq_login))) =
    st_req (start Sample.richer_db Sample.rq_login) /\
  r_cookies
    (st_res (snd (Richer.login Sample.rq_login Sample.wrong_password Sample.world
                    (start Sample.richer_db Sample.rq_login)))) =
    r_cookies (st_res (start Sample.richer_db Sample.rq_login)) /\
  st_pending (snd (Richer.login Sample.rq_login Sample.wrong_password Sample.world
                     (start Sample.richer_db Sample.rq_login))) =
    st_pending (start Sample.richer_db Sample.rq_login).
Proof.
  apply (X15_refused_login_changes_nothing Sample.world Sample.rq_login
           Sample.wrong_password (start Sample.richer_db Sample.rq_login)
           (snd (Richer.login Sample.rq_login Sample.wrong_password Sample.world
                   (start Sample.richer_db Sample.rq_login)))
           "login.handlebars" [("error", Js.JStr "Invalid password.")]).
  reflexivity.
Defined.

(** ** The pages behind [authed] *)

Lemma route_authed_refuses {S SS : Type} (h : @M S SS flow) (rq : request S)
  (e : env) (s : state S SS) :
  v_session_user (st_req s) = None ->
  (bind (ip_middleware rq) (fun _ => route Pages.authed h)) e s =
    (Ok (Redirect "/login"), snd (ip_middleware rq e s)).
Proof.
  intros Hnone. unfold bind, ip_middleware, update_req, modify, route, Pages.authed,
    bind, gets, ret. cbn. rewrite Hnone. reflexivity.
Qed.

(** X16.  Without a session user every route behind [authed] answers
    with a redirect to [/login] and does nothing else: [GET /], [GET /links]
    and [POST /] (in both revisions) issue no statement and leave the
    database, [saved_ips] included, as it was, whatever the body says. *)
Theorem X16_authed_routes_redirect_strangers (e : env) (down : bool)
  (rq : request session_row) (rq2 : request Simplified.session_row)
  (b : Pages.ip_body) (s : Richer.rstate) (s2 : Simplified.sstate)
  (saved : list Pages.saved_ip_row) :
  v_session_user (st_req s) = None ->
  v_session_user (st_req s2) = None ->
  Pages.get_root rq e s = (Ok (Redirect "/login"), snd (ip_middleware rq e s)) /\
  Pages.get_links rq e s = (Ok (Redirect "/login"), snd (ip_middleware rq e s)) /\
  Pages.post_root rq b (Pages.mkWenv e down) (s, saved) =
    (Ok (Redirect "/login"), (snd (ip_middleware rq e s), saved)) /\
  Pages.simplified_post_root rq2 b e s2 =
    (Ok (Redirect "/login"), snd (ip_middleware rq2 e s2)) /\
  st_db (snd (ip_middleware rq e s)) = st_db s /\
  st_trace (snd (ip_middleware rq e s)) = st_trace s /\
  st_pending (snd (ip_middleware rq e s)) = st_pending s /\
  st_db (snd (ip_middleware rq2 e s2)) = st_db s2 /\
  st_trace (snd (ip_middleware rq2 e s2)) = st_trace s2.
Proof.
  intros Hnone Hnone2.
  split; [apply route_authed_refuses; exact Hnone |].
  split; [apply route_authed_refuses; exact Hnone |].
  split.
  - unfold Pages.post_root, Pages.wbind, Pages.lift, Pages.authed, bind, gets, ret.
    cbn. rewrite Hnone. reflexivity.
  - split; [apply route_authed_refuses; exact Hnone2 |]. repeat split.
Qed.

Lemma X16_authed_routes_redirect_strangers_witness :
  Pages.get_root Sample.rq_stranger Sample.world
    (start Sample.richer_db Sample.rq_stranger) =
    (Ok (Redirect "/login"),
     snd (ip_middleware Sample.rq_stranger Sample.world
            (start Sample.richer_db Sample.rq_stranger))) /\
  Pages.get_links Sample.rq_stranger Sample.world
    (start Sample.richer_db Sample.rq_stranger) =
    (Ok (Redirect "/login"),
     snd (ip_middleware Sample.rq_stranger Sample.world
            (start Sample.richer_db Sample.rq_stranger))) /\
  Pages.post_root Sample.rq_stranger Sample.two_addresses
    (Pages.mkWenv Sample.world false)
    (start Sample.richer_db Sample.rq_stranger, []) =
    (Ok (Redirect "/login"),
     (snd (ip_middleware Sample.rq_stranger Sample.world
             (start Sample.richer_db Sample.rq_stranger)), [])) /\
  Pages.simplified_post_root (Sample.rq_granted_simplified "") Sample.two_addresses
    Sample.world (start Sample.simplified_db (Sample.rq_granted_simplified "")) =
    (Ok (Redirect "/login"),
     snd (ip_middleware (Sample.rq_granted_simplified "") Sample.world
            (start Sample.simplified_db (Sample.rq_granted_simplified "")))) /\
  st_db (snd (ip_middleware Sample.rq_stranger Sample.world
                (start Sample.richer_db Sample.rq_stranger))) =
    st_db (start Sample.richer_db Sample.rq_stranger) /\
  st_trace (snd (ip_middleware Sample.rq_stranger Sample.world
                   (start Sample.richer_db Sample.rq_stranger))) =
    st_trace (start Sample.richer_db Sample.rq_stranger) /\
  st_pending (snd (ip_middleware Sample.rq_stranger Sample.world
                     (start Sample.richer_db Sample.rq_stranger))) =
    st_pending (start Sample.richer_db Sample.rq_stranger) /\
  st_db (snd (ip_middleware (Sample.rq_granted_simplified "") Sample.world
                (start Sample.simplified_db (Sample.rq_granted_simplified "")))) =
    st_db (start Sample.simplified_db (Sample.rq_granted_simplified "")) /\
  st_trace (snd (ip_middleware (Sample.rq_granted_simplified "") Sample.world
                   (start Sample.simplified_db (Sample.rq_granted_simplified "")))) =
    st_trace (start Sample.simplified_db (Sample.rq_granted_simplified "")).
Proof.
  apply (X16_authed_routes_redirect_strangers Sample.world false
           Sample.rq_stranger (Sample.rq_granted_simplified "")
           Sample.two_addresses
           (start Sample.richer_db Sample.rq_stranger)
           (start Sample.simplified_db (Sample.rq_granted_simplified "")) []);
    reflexivity.
Defined.

(** ** [POST /]: replacing the granted addresses *)

Section Grants.
Context {S SS : Type}.

Lemma addresses_of_delete_ips (uid : Z) (d : database S SS) :
  Pages.addresses_of uid (Pages.delete_ips uid d) = [].
Proof.
  unfold Pages.addresses_of, Pages.delete_ips, where_, delete_where. cbn.
  induction (ips d) as [| i l IH]; [reflexivity |].
  cbn. destruct (ip_user_id i =? uid)%Z eqn:Hi; cbn; [exact IH |].
  rewrite Hi. exact IH.
Qed.

Lemma addresses_of_granted (uid : Z) (addresses : list string) :
  forall d : database S SS,
    Pages.addresses_of uid (Spec.granted uid addresses d) =
    Pages.addresses_of uid d ++ addresses.
Proof.
  induction addresses as [| a l IH]; intros d.
  - cbn. rewrite app_nil_r. reflexivity.
  - cbn [Spec.granted fold_left]. fold (Spec.granted uid l (Pages.insert_ip uid a d)).
    rewrite IH. unfold Pages.addresses_of, Pages.insert_ip, where_. cbn.
    rewrite filter_app, map_app. cbn. rewrite Z.eqb_refl. cbn.
    rewrite <- app_assoc. reflexivity.
Qed.

Lemma others_after_delete_ips (uid uid' : Z) (d : database S SS) :
  uid' <> uid ->
  where_ (fun i => (ip_user_id i =? uid')%Z) (ips (Pages.delete_ips uid d)) =
  where_ (fun i => (ip_user_id i =? uid')%Z) (ips d).
Proof.
  intros Hne. unfold Pages.delete_ips, where_, delete_where. cbn.
  induction (ips d) as [| i l IH]; [reflexivity |].
  cbn. destruct (ip_user_id i =? uid)%Z eqn:Hi; cbn.
  - apply Z.eqb_eq in Hi.
    destruct (ip_user_id i =? uid')%Z eqn:Hi'; [| exact IH].
    apply Z.eqb_eq in Hi'. congruence.
  - rewrite IH. reflexivity.
Qed.

Lemma others_after_granted (uid uid' : Z) (addresses : list string) :
  uid' <> uid ->
  forall d : database S SS,
    where_ (fun i => (ip_user_id i =? uid')%Z) (ips (Spec.granted uid addresses d)) =
    where_ (fun i => (ip_user_id i =? uid')%Z) (ips d).
Proof.
  intros Hne. induction addresses as [| a l IH]; intros d; [reflexivity |].
  cbn [Spec.granted fold_left]. fold (Spec.granted uid l (Pages.insert_ip uid a d)).
  rewrite IH. unfold Pages.insert_ip, where_. cbn.
  rewrite filter_app. cbn.
  destruct (uid =? uid')%Z eqn:Hu; [apply Z.eqb_eq in Hu; congruence |].
  apply app_nil_r.
Qed.

Lemma granted_app (uid : Z) (l1 l2 : list string) (d : database S SS) :
  Spec.granted uid (l1 ++ l2) d = Spec.granted uid l2 (Spec.granted uid l1 d).
Proof. unfold Spec.granted. apply fold_left_app. Qed.

Lemma grant_ok (uid : Z) (ip : option string) (e : env) (s s' : state S SS) :
  Pages.grant uid ip e s = (Ok tt, s') ->
  st_db s' = Spec.granted uid (Spec.truthy_address ip) (st_db s) /\
  st_req s' = st_req s.
Proof.
  unfold Pages.grant, Spec.truthy_address.
  destruct ip as [a |]; [| intros [= <-]; split; reflexivity].
  destruct (Js.truthy_str (Some a)); [| intros [= <-]; split; reflexivity].
  intros H. apply await_ok in H. destruct H as [d [Hd ->]].
  injection Hd as <-. split; reflexivity.
Qed.

Lemma try_catch_ok {A : Type} (body handler : @M S SS A) (e : env)
  (s s' : state S SS) (a : A) :
  Pages.try_catch body handler e s = (Ok a, s') ->
  body e s = (Ok a, s') \/
  exists s1, body e s = (Throw, s1) /\ handler e s1 = (Ok a, s').
Proof.
  unfold Pages.try_catch. destruct (body e s) as [[a' |] s1]; intros H.
  - left. exact H.
  - right. exists s1. split; [reflexivity | exact H].
Qed.
End Grants.

Lemma simplified_ip_change_done (e : env) (b : Pages.ip_body)
  (s s' : Simplified.sstate) (u : session_user Simplified.session_row) :
  v_session_user (st_req s) = Some u ->
  Pages.b_type b = Some "ip_change" ->
  Pages.simplified_ip_change b e s = (Ok (Sent (Redirect "/")), s') ->
  st_db s' =
    Spec.granted (user_id (su_row u)) (Spec.given b)
      (Pages.delete_ips (user_id (su_row u)) (st_db s)) /\
  Pages.addresses_of (user_id (su_row u)) (st_db s') = Spec.given b /\
  (forall uid', uid' <> user_id (su_row u) ->
     where_ (fun i => (ip_user_id i =? uid')%Z) (ips (st_db s')) =
     where_ (fun i => (ip_user_id i =? uid')%Z) (ips (st_db s))) /\
  v_session_user (st_req s') =
    Some (mkSessionUser (su_row u) (Spec.given b) (su_sessions u)).
Proof.
  intros Hu Htype H. unfold Pages.simplified_ip_change in H.
  rewrite Htype in H. cbn [String.eqb] in H.
  change (String.eqb "ip_change" "ip_change") with true in H. cbv iota in H.
  apply try_catch_ok in H. destruct H as [H | [s1 [_ H]]];
    [| discriminate H].
  apply bind_ok in H. destruct H as [uid [s1 [H1 H]]].
  unfold Pages.current_user_id, bind, gets in H1. rewrite Hu in H1.
  injection H1 as <- <-.
  apply bind_ok in H. destruct H as [[] [s2 [H2 H]]].
  apply await_ok in H2. destruct H2 as [d2 [Hd2 ->]]. injection Hd2 as <-.
  apply bind_ok in H. destruct H as [[] [s3 [H3 H]]].
  apply grant_ok in H3. destruct H3 as [Hdb3 Hreq3].
  apply bind_ok in H. destruct H as [[] [s4 [H4 H]]].
  apply grant_ok in H4. destruct H4 as [Hdb4 Hreq4].
  apply bind_ok in H. destruct H as [addresses [s5 [H5 H]]].
  apply query_ok in H5. destruct H5 as [-> ->].
  apply bind_ok in H. destruct H as [[] [s6 [H6 H]]].
  injection H6 as <-. injection H as <-.
  assert (Hdb : st_db s4 =
    Spec.granted (user_id (su_row u)) (Spec.given b)
      (Pages.delete_ips (user_id (su_row u)) (st_db s))).
  { rewrite Hdb4, Hdb3. unfold Spec.given. rewrite granted_app. reflexivity. }
  assert (Haddr : Pages.addresses_of (user_id (su_row u)) (st_db s4) = Spec.given b).
  { rewrite Hdb, addresses_of_granted, addresses_of_delete_ips. reflexivity. }
  cbn. split; [exact Hdb |]. split; [exact Haddr |]. split.
  - intros uid' Hne. rewrite Hdb.
    rewrite (others_after_granted _ _ _ Hne), (others_after_delete_ips _ _ _ Hne).
    reflexivity.
  - rewrite Hreq4, Hreq3. cbn. rewrite Hu, Haddr. reflexivity.
Qed.

(** X17.  [POST /] of the simplified revision, when it answers an
    [ip_change] with the redirect: the addresses the database holds for the
    user are exactly the truthy ones of [ip_1] and [ip_2], in that order;
    the old ones are gone; the rows of every other user are as before; and
    the session user's copy of the addresses is the new list. *)
Theorem X17_simplified_ip_change_replaces_the_grants (e : env) (b : Pages.ip_body)
  (s s' : Simplified.sstate) (u : session_user Simplified.session_row) :
  v_session_user (st_req s) = Some u ->
  Pages.b_type b = Some "ip_change" ->
  Pages.simplified_ip_change b e s = (Ok (Sent (Redirect "/")), s') ->
  st_db s' =
    Spec.granted (user_id (su_row u)) (Spec.given b)
      (Pages.delete_ips (user_id (su_row u)) (st_db s)) /\
  Pages.addresses_of (user_id (su_row u)) (st_db s') = Spec.given b /\
  (forall uid', uid' <> user_id (su_row u) ->
     where_ (fun i => (ip_user_id i =? uid')%Z) (ips (st_db s')) =
     where_ (fun i => (ip_user_id i =? uid')%Z) (ips (st_db s))) /\
  v_session_user (st_req s') =
    Some (mkSessionUser (su_row u) (Spec.given b) (su_sessions u)).
Proof.
  apply simplified_ip_change_done.
Qed.

Lemma X17_simplified_ip_change_replaces_the_grants_witness :
  st_db (snd (Pages.simplified_ip_change Sample.two_addresses Sample.world
                (start Sample.simplified_db Sample.rq_alice_simplified))) =
    Spec.granted 1%Z (Spec.given Sample.two_addresses)
      (Pages.delete_ips 1%Z
         (st_db (start Sample.simplified_db Sample.rq_alice_simplified))) /\
  Pages.addresses_of 1%Z
    (st_db (snd (Pages.simplified_ip_change Sample.two_addresses Sample.world
                   (start Sample.simplified_db Sample.rq_alice_simplified)))) =
    Spec.given Sample.two_addresses /\
  (forall uid', uid' <> 1%Z ->
     where_ (fun i => (ip_user_id i =? uid')%Z)
       (ips (st_db (snd (Pages.simplified_ip_change Sample.two_addresses Sample.world
                           (start Sample.simplified_db
                              Sample.rq_alice_simplified))))) =
     where_ (fun i => (ip_user_id i =? uid')%Z)
       (ips (st_db (start Sample.simplified_db Sample.rq_alice_simplified)))) /\
  v_session_user
    (st_req (snd (Pages.simplified_ip_change Sample.two_addresses Sample.world
                    (start Sample.simplified_db Sample.rq_alice_simplified)))) =
    Some (mkSessionUser Sample.alice (Spec.given Sample.two_addresses) []).
Proof.
  apply (X17_simplified_ip_change_replaces_the_grants Sample.world
           Sample.two_addresses
           (start Sample.simplified_db Sample.rq_alice_simplified)
           (snd (Pages.simplified_ip_change Sample.two_addresses Sample.world
                   (start Sample.simplified_db Sample.rq_alice_simplified)))
           (mkSessionUser Sample.alice [] []));
    reflexivity.
Defined.

Section Failure.
Context {S SS : Type}.

Lemma bind_throw {A B : Type} (m : @M S SS A) (k : A -> @M S SS B) (e : env)
  (s s' : state S SS) :
  bind m k e s = (Throw, s') ->
  m e s = (Throw, s') \/
  exists a s1, m e s = (Ok a, s1) /\ k a e s1 = (Throw, s').
Proof.
  unfold bind. destruct (m e s) as [[a |] s1]; intros H.
  - right. exists a, s1. split; [reflexivity | exact H].
  - left. injection H as <-. reflexivity.
Qed.

Lemma await_throw {A : Type} (o : op)
  (q : database S SS -> option (A * database S SS)) (e : env) (s s' : state S SS) :
  await o q e s = (Throw, s') -> s' = log (Awaited o) s.
Proof.
  unfold await. destruct (faults e o); [intros [= <-]; reflexivity |].
  destruct (q (st_db s)) as [[a d] |]; intros H; [discriminate H |].
  injection H as <-. reflexivity.
Qed.

Lemma grant_throw (uid : Z) (ip : option string) (e : env) (s s' : state S SS) :
  Pages.grant uid ip e s = (Throw, s') ->
  st_db s' = st_db s /\ st_req s' = st_req s.
Proof.
  unfold Pages.grant.
  destruct ip as [a |]; [| intros H; discriminate H].
  destruct (Js.truthy_str (Some a)); [| intros H; discriminate H].
  intros H. apply await_throw in H. subst s'. split; reflexivity.
Qed.
End Failure.

(** X18.  [POST /] of the simplified revision never lets an error of the
    database out of an [ip_change]: the answer is the redirect or the
    dashboard with [ip_error].  The statements are not undone when one of
    them fails: behind the error page the session user's copy is the old
    one, and the database is either untouched or holds, for the user, only
    the first few of the new addresses: the old ones are deleted already. *)
Theorem X18_simplified_ip_change_fails_half_way (e : env) (b : Pages.ip_body)
  (s : Simplified.sstate) :
  exists r s',
    Pages.simplified_ip_change b e s = (Ok (Sent r), s') /\
    (r = Redirect "/" \/
     (r = Pages.ip_error /\
      st_req s' = st_req s /\
      (st_db s' = st_db s \/
       exists u done rest,
         v_session_user (st_req s) = Some u /\
         Spec.given b = done ++ rest /\
         st_db s' =
           Spec.granted (user_id (su_row u)) done
             (Pages.delete_ips (user_id (su_row u)) (st_db s))))).
Proof.
  unfold Pages.simplified_ip_change.
  destruct (Pages.b_type b) as [t |];
    [| eexists _, _; split; [reflexivity | left; reflexivity]].
  destruct (String.eqb t "ip_change");
    [| eexists _, _; split; [reflexivity | left; reflexivity]].
  unfold Pages.try_catch.
  match goal with
  | |- context [match ?body e s with _ => _ end] =>
      destruct (body e s) as [[f |] s1] eqn:H
  end.
  - exists (Redirect "/"), s1. split; [| left; reflexivity].
    apply bind_ok in H. destruct H as [uid [s2 [_ H]]].
    apply bind_ok in H. destruct H as [[] [s3 [_ H]]].
    apply bind_ok in H. destruct H as [[] [s4 [_ H]]].
    apply bind_ok in H. destruct H as [[] [s5 [_ H]]].
    apply bind_ok in H. destruct H as [addresses [s6 [_ H]]].
    apply bind_ok in H. destruct H as [[] [s7 [_ H]]].
    injection H as <- <-. reflexivity.
  - exists Pages.ip_error, s1. split; [reflexivity |]. right.
    split; [reflexivity |].
    apply bind_throw in H. destruct H as [H | [uid [s2 [H2 H]]]].
    { unfold Pages.current_user_id, bind, gets in H.
      destruct (v_session_user (st_req s)); [discriminate H |].
      injection H as <-. split; [reflexivity | left; reflexivity]. }
    unfold Pages.current_user_id, bind, gets in H2.
    destruct (v_session_user (st_req s)) as [u |] eqn:Hu; [| discriminate H2].
    injection H2 as <- <-.
    apply bind_throw in H. destruct H as [H | [[] [s3 [H3 H]]]].
    { apply await_throw in H. subst s1. split; [reflexivity | left; reflexivity]. }
    apply await_ok in H3. destruct H3 as [d3 [Hd3 ->]]. injection Hd3 as <-.
    apply bind_throw in H. destruct H as [H | [[] [s4 [H4 H]]]].
    { apply grant_throw in H. destruct H as [Hdb Hreq].
      split; [exact Hreq |]. right. exists u, [], (Spec.given b).
      split; [reflexivity |]. split; [reflexivity |]. exact Hdb. }
    apply grant_ok in H4. destruct H4 as [Hdb4 Hreq4].
    apply bind_throw in H. destruct H as [H | [[] [s5 [H5 H]]]].
    { apply grant_throw in H. destruct H as [Hdb Hreq].
      split; [rewrite Hreq; exact Hreq4 |]. right.
      exists u, (Spec.truthy_address (Pages.b_ip_1 b)),
        (Spec.truthy_address (Pages.b_ip_2 b)).
      split; [reflexivity |]. split; [reflexivity |].
      rewrite Hdb. exact Hdb4. }
    apply grant_ok in H5. destruct H5 as [Hdb5 Hreq5].
    apply bind_throw in H. destruct H as [H | [addresses [s6 [H6 H]]]].
    { apply await_throw in H. subst s1.
      split; [cbn; rewrite Hreq5; exact Hreq4 |]. right.
      exists u, (Spec.given b), [].
      split; [reflexivity |]. split; [symmetry; apply app_nil_r |].
      cbn. rewrite Hdb5, Hdb4. unfold Spec.given. rewrite granted_app.
      reflexivity. }
    apply bind_throw in H. destruct H as [H | [[] [s7 [_ H]]]];
      discriminate H.
Qed.

(** *** The richer revision, with [saved_ips] *)

Lemma wbind_ok {A B : Type} (m : Pages.W A) (k : A -> Pages.W B)
  (we : Pages.wenv) (w w' : Pages.wide) (b : B) :
  Pages.wbind m k we w = (Ok b, w') ->
  exists a w1, m we w = (Ok a, w1) /\ k a we w1 = (Ok b, w').
Proof.
  unfold Pages.wbind. destruct (m we w) as [[a |] w1]; intros H; [| discriminate H].
  exists a, w1. split; [reflexivity | exact H].
Qed.

Lemma lift_ok {A : Type} (m : Richer.H A) (we : Pages.wenv) (w w' : Pages.wide)
  (a : A) :
  Pages.lift m we w = (Ok a, w') ->
  m (Pages.base we) (fst w) = (Ok a, fst w') /\ snd w' = snd w.
Proof.
  unfold Pages.lift. destruct (m (Pages.base we) (fst w)) as [o s1].
  intros H. injection H as -> <-. split; reflexivity.
Qed.

Lemma recorded_app (uid : Z) (l1 l2 : list string) (saved : list Pages.saved_ip_row) :
  Spec.recorded uid (l1 ++ l2) saved =
  Spec.recorded uid l2 (Spec.recorded uid l1 saved).
Proof. unfold Spec.recorded. apply fold_left_app. Qed.

Lemma recorded_extends (uid : Z) (addresses : list string) :
  forall saved,
    exists added,
      Spec.recorded uid addresses saved = saved ++ added /\
      map Pages.sip_ip_address added = addresses /\
      Forall (fun r => Pages.sip_user_id r = uid) added.
Proof.
  induction addresses as [| a l IH]; intros saved.
  - exists []. cbn. rewrite app_nil_r. repeat split. constructor.
  - cbn [Spec.recorded fold_left].
    fold (Spec.recorded uid l
            (saved ++ [Pages.mkSavedIp (next_id Pages.sip_id saved) uid a])).
    destruct (IH (saved ++ [Pages.mkSavedIp (next_id Pages.sip_id saved) uid a]))
      as [added [Heq [Hmap Hall]]].
    exists (Pages.mkSavedIp (next_id Pages.sip_id saved) uid a :: added).
    rewrite Heq, <- app_assoc. cbn. rewrite Hmap. repeat split.
    constructor; [reflexivity | exact Hall].
Qed.

Lemma wgrant_ok (uid : Z) (ip : option string) (we : Pages.wenv)
  (w w' : Pages.wide) :
  Pages.wgrant uid ip we w = (Ok tt, w') ->
  st_db (fst w') = Spec.granted uid (Spec.truthy_address ip) (st_db (fst w)) /\
  st_req (fst w') = st_req (fst w) /\
  snd w' = Spec.recorded uid (Spec.truthy_address ip) (snd w).
Proof.
  unfold Pages.wgrant, Spec.truthy_address.
  destruct ip as [a |]; [| intros [= <-]; repeat split].
  destruct (Js.truthy_str (Some a)); [| intros [= <-]; repeat split].
  intros H. apply wbind_ok in H. destruct H as [[] [w1 [H1 H]]].
  apply lift_ok in H1. destruct H1 as [H1 Hsaved].
  apply await_ok in H1. destruct H1 as [d [Hd Hs1]]. injection Hd as <-.
  unfold Pages.insert_saved_ip in H.
  destruct (Pages.saved_ips_down we); [discriminate H |].
  injection H as <-. cbn. rewrite Hs1, Hsaved. repeat split.
Qed.

Lemma richer_ip_change_done (we : Pages.wenv)
  (b : Pages.ip_body) (w w' : Pages.wide) (u : session_user session_row) :
  v_session_user (st_req (fst w)) = Some u ->
  Pages.b_type b = Some "ip_change" ->
  Pages.ip_change b we w = (Ok (Sent (Redirect "/")), w') ->
  st_db (fst w') =
    Spec.granted (user_id (su_row u)) (Spec.given b)
      (Pages.delete_ips (user_id (su_row u)) (st_db (fst w))) /\
  Pages.addresses_of (user_id (su_row u)) (st_db (fst w')) = Spec.given b /\
  (exists added,
     snd w' = snd w ++ added /\
     map Pages.sip_ip_address added = Spec.given b /\
     Forall (fun r => Pages.sip_user_id r = user_id (su_row u)) added) /\
  v_session_user (st_req (fst w')) =
    Some (mkSessionUser (su_row u) (Spec.given b) (su_sessions u)).
Proof.
  intros Hu Htype H. unfold Pages.ip_change in H. rewrite Htype in H.
  change (String.eqb "ip_change" "ip_change") with true in H. cbv iota in H.
  unfold Pages.wtry in H.
  match type of H with
  | context [match ?body we w with _ => _ end] =>
      destruct (body we w) as [[f |] w1] eqn:Hbody; [| discriminate H]
  end.
  injection H as -> ->.
  apply wbind_ok in Hbody. destruct Hbody as [uid [w2 [H1 H]]].
  apply lift_ok in H1. destruct H1 as [H1 Hsv2].
  unfold Pages.current_user_id, bind, gets in H1. rewrite Hu in H1.
  injection H1 as <- Hs2.
  apply wbind_ok in H. destruct H as [[] [w3 [H3 H]]].
  apply lift_ok in H3. destruct H3 as [H3 Hsv3].
  apply await_ok in H3. destruct H3 as [d3 [Hd3 Hs3]]. injection Hd3 as <-.
  apply wbind_ok in H. destruct H as [[] [w4 [H4 H]]].
  apply wgrant_ok in H4. destruct H4 as [Hdb4 [Hreq4 Hsv4]].
  apply wbind_ok in H. destruct H as [[] [w5 [H5 H]]].
  apply wgrant_ok in H5. destruct H5 as [Hdb5 [Hreq5 Hsv5]].
  apply wbind_ok in H. destruct H as [addresses [w6 [H6 H]]].
  apply lift_ok in H6. destruct H6 as [H6 Hsv6].
  apply query_ok in H6. destruct H6 as [-> Hs6].
  apply wbind_ok in H. destruct H as [[] [w7 [H7 H]]].
  apply lift_ok in H7. destruct H7 as [H7 Hsv7].
  injection H7 as Hs7. injection H as <-.
  assert (Hdb : st_db (fst w5) =
    Spec.granted (user_id (su_row u)) (Spec.given b)
      (Pages.delete_ips (user_id (su_row u)) (st_db (fst w)))).
  { rewrite Hdb5, Hdb4, Hs3, <- Hs2. unfold Spec.given. rewrite granted_app.
    reflexivity. }
  assert (Haddr : Pages.addresses_of (user_id (su_row u)) (st_db (fst w5)) =
                  Spec.given b).
  { rewrite Hdb, addresses_of_granted, addresses_of_delete_ips. reflexivity. }
  assert (Hreq : st_req (fst w5) = st_req (fst w)).
  { rewrite Hreq5, Hreq4, Hs3, <- Hs2. reflexivity. }
  rewrite <- Hs7, Hs6. cbn. split; [exact Hdb |]. split; [exact Haddr |]. split.
  - rewrite Hsv7, Hsv6, Hsv5, Hsv4, Hsv3, Hsv2, <- recorded_app.
    apply recorded_extends.
  - rewrite Hreq, Hu, Haddr. reflexivity.
Qed.

(** X19.  [POST /] of the richer revision, when it answers an
    [ip_change] with the redirect: the user's addresses in [ips] are exactly
    the truthy ones of [ip_1] and [ip_2], in that order, and [saved_ips]
    has lost no row and gained one row of the user for each of these
    addresses, in the same order. *)
Theorem X19_richer_ip_change_records_every_grant (we : Pages.wenv)
  (b : Pages.ip_body) (w w' : Pages.wide) (u : session_user session_row) :
  v_session_user (st_req (fst w)) = Some u ->
  Pages.b_type b = Some "ip_change" ->
  Pages.ip_change b we w = (Ok (Sent (Redirect "/")), w') ->
  st_db (fst w') =
    Spec.granted (user_id (su_row u)) (Spec.given b)
      (Pages.delete_ips (user_id (su_row u)) (st_db (fst w))) /\
  Pages.addresses_of (user_id (su_row u)) (st_db (fst w')) = Spec.given b /\
  (exists added,
     snd w' = snd w ++ added /\
     map Pages.sip_ip_address added = Spec.given b /\
     Forall (fun r => Pages.sip_user_id r = user_id (su_row u)) added) /\
  v_session_user (st_req (fst w')) =
    Some (mkSessionUser (su_row u) (Spec.given b) (su_sessions u)).
Proof.
  apply richer_ip_change_done.
Qed.

Lemma X19_richer_ip_change_records_every_grant_witness :
  st_db (fst (snd (Pages.ip_change Sample.two_addresses
                     (Pages.mkWenv Sample.world false)
                     (start Sample.richer_db Sample.rq_alice_stale, [])))) =
    Spec.granted 1%Z (Spec.given Sample.two_addresses)
      (Pages.delete_ips 1%Z Sample.richer_db) /\
  Pages.addresses_of 1%Z
    (st_db (fst (snd (Pages.ip_change Sample.two_addresses
                        (Pages.mkWenv Sample.world false)
                        (start Sample.richer_db Sample.rq_alice_stale, []))))) =
    Spec.given Sample.two_addresses /\
  (exists added,
     snd (snd (Pages.ip_change Sample.two_addresses
                 (Pages.mkWenv Sample.world false)
                 (start Sample.richer_db Sample.rq_alice_stale, []))) =
       [] ++ added /\
     map Pages.sip_ip_address added = Spec.given Sample.two_addresses /\
     Forall (fun r => Pages.sip_user_id r = 1%Z) added) /\
  v_session_user
    (st_req (fst (snd (Pages.ip_change Sample.two_addresses
                         (Pages.mkWenv Sample.world false)
                         (start Sample.richer_db Sample.rq_alice_stale, []))))) =
    Some (mkSessionUser Sample.alice (Spec.given Sample.two_addresses) []).
Proof.
  apply (X19_richer_ip_change_records_every_grant
           (Pages.mkWenv Sample.world false) Sample.two_addresses
           (start Sample.richer_db Sample.rq_alice_stale, [])
           (snd (Pages.ip_change Sample.two_addresses
                   (Pages.mkWenv Sample.world false)
                   (start Sample.richer_db Sample.rq_alice_stale, [])))
           (mkSessionUser Sample.alice [] []));
    reflexivity.
Defined.

(** *** A granted address at the trust middleware *)

Lemma simplified_tier_ip_decides (e : env) (s : Simplified.sstate) :
  faults e (Select, Ips) = false ->
  fst (Simplified.tier_ip e s) =
    if existsb (fun i => String.eqb (ip_address i) (v_ip (st_req s))) (ips (st_db s))
    then Ok Next
    else Ok (Sent (Render "unauthorized.handlebars" [])).
Proof.
  intros Hf. unfold Simplified.tier_ip. unfold_monad. rewrite Hf. cbn.
  destruct (first (where_ (fun i => String.eqb (ip_address i) (v_ip (st_req s)))
                     (ips (st_db s)))) as [i |] eqn:Hfound; cbn.
  - destruct (existsb _ _) eqn:Hex; [reflexivity |].
    apply first_where_existsb in Hex. congruence.
  - apply first_where_existsb in Hfound. rewrite Hfound. reflexivity.
Qed.

Lemma simplified_trust_of_stranger (e : env) (rq : request Simplified.session_row)
  (s : Simplified.sstate) :
  v_session_user (st_req s) = None ->
  rq_cookie_sessionId rq = None ->
  Simplified.trust rq e s = Simplified.tier_ip e s.
Proof.
  intros Hu Hc. unfold Simplified.trust, Simplified.tier_cookie, bind, gets.
  rewrite Hu, Hc. reflexivity.
Qed.

(** X20.  In the simplified revision a change of addresses takes effect in
    the trust middleware of [GET /l/:code] at once: after [POST /] answered
    an [ip_change] with the redirect, a request without session user and
    without cookie is let through from each of the new addresses, and is
    answered with the 401 from any address that is not among them and that
    no other user holds, the user's old addresses included. *)
Theorem X20_simplified_grant_and_revocation_take_effect (e : env)
  (b : Pages.ip_body) (s s' s2 : Simplified.sstate)
  (u : session_user Simplified.session_row)
  (rq2 : request Simplified.session_row) :
  v_session_user (st_req s) = Some u ->
  Pages.b_type b = Some "ip_change" ->
  Pages.simplified_ip_change b e s = (Ok (Sent (Redirect "/")), s') ->
  faults e (Select, Ips) = false ->
  v_session_user (st_req s2) = None ->
  rq_cookie_sessionId rq2 = None ->
  st_db s2 = st_db s' ->
  (forall i, In i (ips (st_db s)) -> ip_address i = v_ip (st_req s2) ->
             ip_user_id i = user_id (su_row u)) ->
  fst (Simplified.trust rq2 e s2) =
    if existsb (String.eqb (v_ip (st_req s2))) (Spec.given b)
    then Ok Next
    else Ok (Sent (Render "unauthorized.handlebars" [])).
Proof.
  intros Hu Htype Hrun Hf Hnone Hcookie Hdb Hothers.
  destruct (simplified_ip_change_done e b s s' u Hu Htype Hrun)
    as [_ [Haddr [Hrest _]]].
  rewrite (simplified_trust_of_stranger e rq2 s2 Hnone Hcookie).
  rewrite (simplified_tier_ip_decides e s2 Hf), Hdb.
  destruct (existsb (String.eqb (v_ip (st_req s2))) (Spec.given b)) eqn:Hnew.
  - apply existsb_exists in Hnew. destruct Hnew as [a [Ha Heq]].
    apply String.eqb_eq in Heq. subst a. rewrite <- Haddr in Ha.
    unfold Pages.addresses_of, where_ in Ha. apply in_map_iff in Ha.
    destruct Ha as [i [Hia Hi]]. apply filter_In in Hi. destruct Hi as [Hi _].
    assert (Hex : existsb (fun i0 => String.eqb (ip_address i0) (v_ip (st_req s2)))
                    (ips (st_db s')) = true).
    { apply existsb_exists. exists i. split; [exact Hi |].
      apply String.eqb_eq. exact Hia. }
    rewrite Hex. reflexivity.
  - destruct (existsb (fun i => String.eqb (ip_address i) (v_ip (st_req s2)))
                (ips (st_db s'))) eqn:Hex; [| reflexivity].
    exfalso. apply existsb_exists in Hex. destruct Hex as [i [Hi Hia]].
    apply String.eqb_eq in Hia.
    destruct (Z.eq_dec (ip_user_id i) (user_id (su_row u))) as [Hmine | Hother].
    + assert (Hin : In (ip_address i) (Spec.given b)).
      { rewrite <- Haddr. unfold Pages.addresses_of, where_.
        apply in_map. apply filter_In. split; [exact Hi |].
        apply Z.eqb_eq. exact Hmine. }
      rewrite Hia in Hin.
      assert (Hyes : existsb (String.eqb (v_ip (st_req s2))) (Spec.given b) = true).
      { apply existsb_exists. exists (v_ip (st_req s2)).
        split; [exact Hin | apply String.eqb_refl]. }
      congruence.
    + assert (Hold : In i (where_ (fun i0 => (ip_user_id i0 =? ip_user_id i)%Z)
                             (ips (st_db s)))).
      { rewrite <- (Hrest _ Hother). unfold where_. apply filter_In.
        split; [exact Hi | apply Z.eqb_refl]. }
      unfold where_ in Hold. apply filter_In in Hold. destruct Hold as [Hold _].
      apply Hother. apply Hothers; assumption.
Qed.

(** X20 on Alice's old address after she replaced it. *)
Lemma X20_simplified_grant_and_revocation_take_effect_witness :
  fst (Simplified.trust (Sample.rq_granted_simplified "promo") Sample.world
         (Sample.arrived
            (st_db (snd (Pages.simplified_ip_change Sample.two_addresses
                           Sample.world
                           (start Sample.simplified_db Sample.rq_alice_simplified))))
            (Sample.rq_granted_simplified "promo"))) =
    if existsb
         (String.eqb
            (v_ip (st_req
                     (Sample.arrived
                        (st_db (snd (Pages.simplified_ip_change Sample.two_addresses
                                       Sample.world
                                       (start Sample.simplified_db
                                          Sample.rq_alice_simplified))))
                        (Sample.rq_granted_simplified "promo")))))
         (Spec.given Sample.two_addresses)
    then Ok Next
    else Ok (Sent (Render "unauthorized.handlebars" [])).
Proof.
  apply (X20_simplified_grant_and_revocation_take_effect Sample.world
           Sample.two_addresses
           (start Sample.simplified_db Sample.rq_alice_simplified)
           (snd (Pages.simplified_ip_change Sample.two_addresses Sample.world
                   (start Sample.simplified_db Sample.rq_alice_simplified)))
           (Sample.arrived
              (st_db (snd (Pages.simplified_ip_change Sample.two_addresses
                             Sample.world
                             (start Sample.simplified_db
                                Sample.rq_alice_simplified))))
              (Sample.rq_granted_simplified "promo"))
           (mkSessionUser Sample.alice [] [])
           (Sample.rq_granted_simplified "promo")); try reflexivity.
  intros i Hi _. cbn in Hi. destruct Hi as [<- | []]. reflexivity.
Defined.

(** X21.  The two inserts of a grant are not one step.  When, in the
    richer revision, the database takes the delete and the insert into [ips]
    but rejects the insert into [saved_ips], an [ip_change] with a truthy
    [ip_1] is answered with the error page, and yet that address is now the
    one address granted to the user in [ips], while [saved_ips] is as it
    was, without a row for it, and the session user's copy still shows the
    old addresses. *)
Theorem X21_richer_grant_without_record (we : Pages.wenv) (b : Pages.ip_body)
  (w : Pages.wide) (u : session_user session_row) (a : string) :
  Pages.saved_ips_down we = true ->
  faults (Pages.base we) (Delete, Ips) = false ->
  faults (Pages.base we) (Insert, Ips) = false ->
  v_session_user (st_req (fst w)) = Some u ->
  Pages.b_type b = Some "ip_change" ->
  Pages.b_ip_1 b = Some a -> a <> "" ->
  exists w',
    Pages.ip_change b we w = (Ok (Sent Pages.ip_error), w') /\
    Pages.addresses_of (user_id (su_row u)) (st_db (fst w')) = [a] /\
    snd w' = snd w /\
    st_req (fst w') = st_req (fst w).
Proof.
  intros Hdown Hdel Hins Hu Htype Hip Hne.
  assert (Hta : Js.truthy_str (Some a) = true).
  { cbn. apply negb_true_iff. apply String.eqb_neq. exact Hne. }
  unfold Pages.ip_change. rewrite Htype.
  change (String.eqb "ip_change" "ip_change") with true. cbv iota.
  unfold Pages.wtry, Pages.wbind at 1, Pages.lift at 1,
    Pages.current_user_id, bind, gets.
  rewrite Hu. cbn [fst snd ret].
  unfold Pages.wbind at 1, Pages.lift at 1, await. rewrite Hdel.
  cbn [fst snd st_db log set_db].
  unfold Pages.wbind at 1, Pages.wgrant at 1. rewrite Hip, Hta.
  unfold Pages.wbind at 1, Pages.lift at 1, await. rewrite Hins.
  cbn [fst snd st_db log set_db].
  unfold Pages.insert_saved_ip. rewrite Hdown. unfold Pages.wret.
  eexists. split; [reflexivity |]. cbn [fst snd]. split; [| split; reflexivity].
  change (Pages.addresses_of (user_id (su_row u))
            (Pages.insert_ip (user_id (su_row u)) a
               (Pages.delete_ips (user_id (su_row u)) (st_db (fst w)))) = [a]).
  change (Pages.insert_ip (user_id (su_row u)) a
            (Pages.delete_ips (user_id (su_row u)) (st_db (fst w))))
    with (Spec.granted (user_id (su_row u)) [a]
            (Pages.delete_ips (user_id (su_row u)) (st_db (fst w)))).
  rewrite addresses_of_granted, addresses_of_delete_ips. reflexivity.
Qed.

Lemma X21_richer_grant_without_record_witness :
  exists w',
    Pages.ip_change Sample.two_addresses (Pages.mkWenv Sample.world true)
      (start Sample.richer_db Sample.rq_alice_stale, []) =
      (Ok (Sent Pages.ip_error), w') /\
    Pages.addresses_of 1%Z (st_db (fst w')) = ["198.51.100.1"] /\
    snd w' = [] /\
    st_req (fst w') = st_req (start Sample.richer_db Sample.rq_alice_stale).
Proof.
  apply (X21_richer_grant_without_record (Pages.mkWenv Sample.world true)
           Sample.two_addresses
           (start Sample.richer_db Sample.rq_alice_stale, [])
           (mkSessionUser Sample.alice [] []) "198.51.100.1");
    try reflexivity.
  intros H; discriminate H.
Defined.

(** ** [POST /login]: what every login preserves *)

(** X22.  The cap is an invariant of [POST /login]: from a database in
    which no user holds more than five sessions, a login, whatever its body,
    its cookie and the fate of its statements, leads to a database in which
    no user holds more than five. *)
Theorem X22_login_preserves_the_session_cap (e : env) (rq : request session_row)
  (b : login_body) (s : Richer.rstate) :
  Spec.capped (st_db s) ->
  Spec.capped (st_db (snd (Richer.post_login rq b e s))).
Proof.
  intros Hcap. unfold Richer.post_login, bind, ip_middleware, update_req, modify.
  apply login_keeps_cap. exact Hcap.
Qed.

Lemma X22_login_preserves_the_session_cap_witness :
  Spec.capped
    (st_db (snd (Richer.post_login Sample.rq_login Sample.alice_login Sample.world
                   (start Sample.crowded_db Sample.rq_login)))).
Proof.
  apply (X22_login_preserves_the_session_cap Sample.world Sample.rq_login
           Sample.alice_login (start Sample.crowded_db Sample.rq_login)).
  intros uid. unfold Spec.sessions_held.
  etransitivity; [apply filter_length_le | cbn; lia].
Defined.

(** X23.  [POST /login] never removes a row of [saved_sessions]: every
    row the table held before the request is in it afterwards, also when
    the login evicts a session or fails half way. *)
Theorem X23_login_keeps_the_session_history (e : env) (rq : request session_row)
  (b : login_body) (s : Richer.rstate) (row : saved_session_row) :
  In row (saved_sessions (st_db s)) ->
  In row (saved_sessions (st_db (snd (Richer.post_login rq b e s)))).
Proof.
  intros Hin. unfold Richer.post_login, bind, ip_middleware, update_req, modify.
  apply login_retains_saved_sessions. exact Hin.
Qed.

Lemma X23_login_keeps_the_session_history_witness :
  In (mkSavedSession "s-alice" 1 "agent" "10.0.0.1" 10)
    (saved_sessions
       (st_db (snd (Richer.post_login Sample.rq_login Sample.alice_login
                      Sample.world (start Sample.richer_db Sample.rq_login))))).
Proof.
  apply (X23_login_keeps_the_session_history Sample.world Sample.rq_login
           Sample.alice_login (start Sample.richer_db Sample.rq_login)).
  cbn. left. reflexivity.
Defined.

(** X24.  A first login: without a cookie on the request, with the
    credentials of a row of [users], a database that accepts every statement
    and a uuid no row uses yet, [POST /login] redirects to [/], adds one
    session row for the user (after evicting one if the user held exactly
    five), adds its copy to [saved_sessions] with the transport address of
    the request, whatever [x-forwarded-for] says, and sets the [sessionId]
    cookie to the new id. *)
Theorem X24_first_login_issues_one_mirrored_session (e : env)
  (rq : request session_row) (b : login_body) (s : Richer.rstate)
  (email password : string) (user : user_row) :
  (forall o, faults e o = false) ->
  Js.truthy_str (rq_cookie_sessionId rq) = false ->
  b_email b = Some email -> email <> "" ->
  b_password b = Some password -> password <> "" ->
  first (where_ (fun u => String.eqb (user_email u) email) (users (st_db s))) =
    Some user ->
  bcrypt_compare e password (user_password user) = true ->
  (forall r, In r (sessions (st_db s)) -> session_id r <> uuidv4 e) ->
  (forall r, In r (saved_sessions (st_db s)) -> saved_id r <> uuidv4 e) ->
  fst (Richer.post_login rq b e s) = Ok (Redirect "/") /\
  sessions (st_db (snd (Richer.post_login rq b e s))) =
    sessions (Spec.after_eviction (user_id user) (st_db s)) ++
      [mkSession (uuidv4 e) (user_id user) (rq_user_agent rq) (now e)] /\
  saved_sessions (st_db (snd (Richer.post_login rq b e s))) =
    saved_sessions (st_db s) ++
      [mkSavedSession (uuidv4 e) (user_id user) (rq_user_agent rq)
         (rq_remote_address rq) (now e)] /\
  r_cookies (st_res (snd (Richer.post_login rq b e s))) =
    r_cookies (st_res s) ++ [SetCookie "sessionId" (uuidv4 e)].
Proof.
  intros Hf Hc He Hen Hp Hpn Hu Hm Hfresh Hfresh'.
  unfold Richer.post_login. unfold bind at 1.
  change (ip_middleware rq e s) with (Ok tt, snd (ip_middleware rq e s)).
  apply (login_without_cookie_issues_session e rq b (snd (ip_middleware rq e s))
           email password user); assumption.
Qed.

Lemma X24_first_login_issues_one_mirrored_session_witness :
  fst (Richer.post_login Sample.rq_login Sample.alice_login Sample.world
         (start Sample.richer_db Sample.rq_login)) = Ok (Redirect "/") /\
  sessions (st_db (snd (Richer.post_login Sample.rq_login Sample.alice_login
                          Sample.world (start Sample.richer_db Sample.rq_login)))) =
    sessions (Spec.after_eviction 1%Z Sample.richer_db) ++
      [mkSession "6f1c" 1%Z "agent" 100%Z] /\
  saved_sessions
    (st_db (snd (Richer.post_login Sample.rq_login Sample.alice_login
                   Sample.world (start Sample.richer_db Sample.rq_login)))) =
    saved_sessions Sample.richer_db ++
      [mkSavedSession "6f1c" 1%Z "agent" "10.0.0.1" 100%Z] /\
  r_cookies
    (st_res (snd (Richer.post_login Sample.rq_login Sample.alice_login
                    Sample.world (start Sample.richer_db Sample.rq_login)))) =
    [] ++ [SetCookie "sessionId" "6f1c"].
Proof.
  apply (X24_first_login_issues_one_mirrored_session Sample.world Sample.rq_login
           Sample.alice_login (start Sample.richer_db Sample.rq_login)
           "alice@example.com" "secret" Sample.alice);
    try reflexivity; try (intros H; discriminate H).
  - intros r Hr. cbn in Hr. destruct Hr as [<- | []]. intros H; discriminate H.
  - intros r Hr. cbn in Hr. destruct Hr as [<- | []]. intros H; discriminate H.
Defined.

(** ** From [POST /] to [GET /] *)

Lemma dashboard_shows (e : env) (s : Richer.rstate) (u : session_user session_row) :
  faults e (Select, Ips) = false ->
  faults e (Select, Sessions) = false ->
  v_session_user (st_req s) = Some u ->
  fst (Pages.dashboard e s) =
    Ok (Sent (Render "dashboard.handlebars"
                [("ip", Js.JStr (v_ip (st_req s)));
                 ("ips", Js.JArr (map Js.JStr
                                    (Pages.addresses_of (user_id (su_row u)) (st_db s))));
                 ("sessions",
                  Js.JArr (map Pages.session_to_js
                             (where_ (fun r => (session_user_id r =? user_id (su_row u))%Z)
                                (sessions (st_db s)))));
                 ("member", Js.JNum (user_member (su_row u)))])) /\
  st_db (snd (Pages.dashboard e s)) = st_db s.
Proof.
  intros Hi Hs Hu. unfold Pages.dashboard, Pages.current_user_id,
    Pages.set_session_ips, Pages.set_session_sessions.
  unfold_monad. rewrite Hu, Hi. cbn. rewrite Hu. cbn. rewrite Hs. cbn.
  split; reflexivity.
Qed.

Lemma post_root_runs_ip_change (rq : request session_row) (b : Pages.ip_body)
  (we : Pages.wenv) (s : Richer.rstate) (saved : list Pages.saved_ip_row)
  (u : session_user session_row) (r : reply) (w' : Pages.wide) :
  v_session_user (st_req s) = Some u ->
  Pages.post_root rq b we (s, saved) = (Ok r, w') ->
  Pages.ip_change b we (snd (ip_middleware rq (Pages.base we) s), saved) =
    (Ok (Sent r), w').
Proof.
  intros Hu H. unfold Pages.post_root in H.
  unfold Pages.wbind at 1, Pages.lift at 1 in H. cbn [fst snd] in H.
  change (ip_middleware rq (Pages.base we) s)
    with (Ok tt, snd (ip_middleware rq (Pages.base we) s)) in H.
  cbv iota in H.
  unfold Pages.wbind at 1, Pages.lift at 1, Pages.authed, bind, gets in H.
  cbn [fst snd] in H.
  change (v_session_user (st_req (snd (ip_middleware rq (Pages.base we) s))))
    with (v_session_user (st_req s)) in H.
  rewrite Hu in H. cbn [ret] in H. cbv iota in H.
  unfold Pages.wbind in H.
  destruct (Pages.ip_change b we (snd (ip_middleware rq (Pages.base we) s), saved))
    as [[[| r'] |] w1]; try discriminate H.
  unfold Pages.wret in H. injection H as -> ->. reflexivity.
Qed.

(** X25.  What [POST /] stored is what [GET /] shows: after the richer
    revision answered an [ip_change] of a logged-in user with the redirect,
    the dashboard of that user, from a database that answers its two
    queries, lists under [ips] exactly the truthy ones of [ip_1] and
    [ip_2], in that order. *)
Theorem X25_dashboard_lists_the_new_addresses (we : Pages.wenv)
  (rq rq2 : request session_row) (b : Pages.ip_body) (s s2 : Richer.rstate)
  (saved : list Pages.saved_ip_row) (u : session_user session_row)
  (w' : Pages.wide) :
  v_session_user (st_req s) = Some u ->
  Pages.b_type b = Some "ip_change" ->
  Pages.post_root rq b we (s, saved) = (Ok (Redirect "/"), w') ->
  faults (Pages.base we) (Select, Ips) = false ->
  faults (Pages.base we) (Select, Sessions) = false ->
  st_db s2 = st_db (fst w') ->
  v_session_user (st_req s2) = v_session_user (st_req (fst w')) ->
  exists ip rows member,
    fst (Pages.get_root rq2 (Pages.base we) s2) =
      Ok (Render "dashboard.handlebars"
            [("ip", ip); ("ips", Js.JArr (map Js.JStr (Spec.given b)));
             ("sessions", rows); ("member", member)]).
Proof.
  intros Hu Htype Hpost Hi Hs Hdb Hsession.
  apply (post_root_runs_ip_change rq b we s saved u _ _ Hu) in Hpost.
  assert (Hu1 : v_session_user
                  (st_req (fst (snd (ip_middleware rq (Pages.base we) s), saved))) =
                Some u) by exact Hu.
  destruct (richer_ip_change_done we b _ w' u Hu1 Htype Hpost) as [_ [Haddr [_ Hcopy]]].
  rewrite Hcopy in Hsession.
  unfold Pages.get_root, route. unfold bind at 1.
  change (ip_middleware rq2 (Pages.base we) s2)
    with (Ok tt, snd (ip_middleware rq2 (Pages.base we) s2)).
  cbv iota. unfold bind at 1.
  unfold Pages.authed at 1, bind at 1, gets at 1.
  change (v_session_user (st_req (snd (ip_middleware rq2 (Pages.base we) s2))))
    with (v_session_user (st_req s2)).
  rewrite Hsession. cbn [ret]. cbv iota. unfold bind at 1.
  destruct (dashboard_shows (Pages.base we)
              (snd (ip_middleware rq2 (Pages.base we) s2))
              (mkSessionUser (su_row u) (Spec.given b) (su_sessions u)) Hi Hs)
    as [Hreply _]; [exact Hsession |].
  destruct (Pages.dashboard (Pages.base we)
              (snd (ip_middleware rq2 (Pages.base we) s2))) as [o s3].
  cbn [fst] in Hreply. subst o. cbn [fst ret].
  change (st_db (snd (ip_middleware rq2 (Pages.base we) s2))) with (st_db s2).
  cbn [su_row]. rewrite Hdb, Haddr. eexists _, _, _. reflexivity.
Qed.

Lemma X25_dashboard_lists_the_new_addresses_witness :
  exists ip rows member,
    fst (Pages.get_root Sample.rq_alice_stale Sample.world
           (fst (snd (Pages.post_root Sample.rq_alice_stale Sample.two_addresses
                        (Pages.mkWenv Sample.world false)
                        (start Sample.richer_db Sample.rq_alice_stale, []))))) =
      Ok (Render "dashboard.handlebars"
            [("ip", ip);
             ("ips", Js.JArr (map Js.JStr (Spec.given Sample.two_addresses)));
             ("sessions", rows); ("member", member)]).
Proof.
  apply (X25_dashboard_lists_the_new_addresses (Pages.mkWenv Sample.world false)
           Sample.rq_alice_stale Sample.rq_alice_stale Sample.two_addresses
           (start Sample.richer_db Sample.rq_alice_stale)
           (fst (snd (Pages.post_root Sample.rq_alice_stale Sample.two_addresses
                        (Pages.mkWenv Sample.world false)
                        (start Sample.richer_db Sample.rq_alice_stale, []))))
           [] (mkSessionUser Sample.alice [] [])
           (snd (Pages.post_root Sample.rq_alice_stale Sample.two_addresses
                   (Pages.mkWenv Sample.world false)
                   (start Sample.richer_db Sample.rq_alice_stale, []))));
    reflexivity.
Defined.

(** * Creation and resolution together *)

(** ** CACHEBUST on a stored destination that is not a URL *)

(** C10.  A row whose linkbust list was stored by [POST /l] with CACHEBUST
    requested, and whose destination (after the RANDOM loop, when RANDOM was
    requested too) [new URL] cannot parse, makes the second handler of
    [GET /l/:code] throw: no redirect, no rendered payload.  And such rows
    are stored: [POST /l] accepts a request with an array of ASCII names
    that requests CACHEBUST and with any non-empty destination, without
    consulting [new URL]; it queues the row with the destination as sent
    and with the normalized list, which holds CACHEBUST; and once the insert
    has completed, the request for the code it answered throws. *)
Theorem C10_cachebust_throws_on_unparseable_destination :
  (forall e (rq : request session_row) (s : Richer.rstate) sl items,
      faults e (Select, Shortlinks) = false ->
      shortlink_by_code (st_db s) (rq_code rq) = Some sl ->
      sl_linkbust sl = Some (Js.join "|" (Spec.normalized items)) ->
      Spec.requested items "CACHEBUST" = true ->
      url_valid e
        (Spec.before_cachebust items (rnd e) (sl_destination sl) (st_draws s)) = false ->
      fst (Richer.resolve rq e s) = Throw) /\
  (forall e (s s2 : Richer.rstate) b m d items (rq : request session_row),
      Spec.ascii_names items = true ->
      Richer.b_method b = Some m ->
      Js.includes ["GET"; "POST"] (Js.toUpperCase m) = true ->
      Richer.b_destination b = Some d ->
      d <> "" ->
      Richer.check_data m (Richer.b_data b) = None ->
      Richer.b_linkbust b = Js.JArr (map Js.JStr items) ->
      Spec.requested items "CACHEBUST" = true ->
      st_pending s = [] ->
      faults e (Insert, Shortlinks) = false ->
      faults e (Select, Shortlinks) = false ->
      st_db s2 = settle e (snd (Richer.create b e s)) ->
      rq_code rq = Spec.code_of b e s ->
      url_valid e (Spec.before_cachebust items (rnd e) d (st_draws s2)) = false ->
      fst (Richer.create b e s) =
        Ok (Json [("message", Js.JStr "Shortlink creation in progress.");
                  ("code", Js.JStr (Spec.code_of b e s))]) /\
      st_pending (snd (Richer.create b e s)) =
        [WShortlink (Spec.code_of b e s) (Js.toUpperCase m)
           (if Js.truthy (Richer.b_data b)
            then Some (json_stringify e (Richer.b_data b)) else None)
           d (Some (Js.join "|" (Spec.normalized items)))] /\
      In "CACHEBUST" (Spec.normalized items) /\
      fst (Richer.resolve rq e s2) = Throw).
Proof.
  split.
  - intros e rq s sl items. apply richer_resolve_throws.
  - intros e s s2 b m d items rq _ Hm Hinc Hd Hne Hdata Hlb Hreq Hnil Hf Hsel
      Hdb Hcode Hurl.
    assert (Hnorm : Richer.normalize_linkbust (Richer.b_linkbust b) =
                    inr (Some (Some (Js.join "|" (Spec.normalized items)))))
      by (rewrite Hlb; apply normalize_linkbust_strings).
    destruct (create_cases b e s) as [Hsame [Hbad | [Hthrow | Hok]]].
    + exfalso.
      destruct (create_accepts e s b m d _ Hm Hinc Hd Hne Hdata Hnorm)
        as [code [H1 _]].
      destruct Hbad as [msg [Hr _]]. rewrite Hr in H1. discriminate H1.
    + exfalso.
      destruct (create_accepts e s b m d _ Hm Hinc Hd Hne Hdata Hnorm)
        as [code [H1 _]].
      destruct Hthrow as [Hr _]. rewrite Hr in H1. discriminate H1.
    + destruct Hok as [m' [d' [lb [Hm' [_ [Hd' [_ [_ [Hlb' [Hr [Hp _]]]]]]]]]]].
      rewrite Hm in Hm'. injection Hm' as <-.
      rewrite Hd in Hd'. injection Hd' as <-.
      rewrite Hnorm in Hlb'. injection Hlb' as <-.
      rewrite Hnil in Hp. cbn [app] in Hp.
      split; [exact Hr |]. split; [exact Hp |]. split.
      * unfold Spec.normalized, Spec.priority. apply filter_In.
        split; [right; left; reflexivity | exact Hreq].
      * assert (Hp' : st_pending (snd (Richer.create b e s)) =
                      st_pending s ++
                        [WShortlink (Spec.code_of b e s) (Js.toUpperCase m)
                           (if Js.truthy (Richer.b_data b)
                            then Some (json_stringify e (Richer.b_data b)) else None)
                           d (Some (Js.join "|" (Spec.normalized items)))])
          by (rewrite Hnil; exact Hp).
        pose proof (settle_one e s _ _ Hnil Hp' Hsame Hf) as Hsettle.
        apply (richer_resolve_throws e rq s2
                 (mkShortlink (next_id sl_id (shortlinks (st_db s)))
                    (Spec.code_of b e s) (Js.toUpperCase m)
                    (if Js.truthy (Richer.b_data b)
                     then Some (json_stringify e (Richer.b_data b)) else None)
                    (Some (Js.join "|" (Spec.normalized items))) d)
                 items Hsel).
        -- rewrite Hdb, Hsettle, Hcode. apply shortlink_by_code_after_insert.
        -- reflexivity.
        -- exact Hreq.
        -- exact Hurl.
Qed.

(** C10 from end to end: [POST /l] with [{code: "oops", method: "GET",
    destination: "not a url", linkbust: ["cachebust"]}] is accepted, and the
    request for "oops" throws. *)
Lemma C10_cachebust_throws_on_unparseable_destination_witness :
  fst (Richer.create Sample.body_broken Sample.world
         (start Sample.richer_db (Sample.rq_granted ""))) =
    Ok (Json [("message", Js.JStr "Shortlink creation in progress.");
              ("code", Js.JStr "oops")]) /\
  st_pending (snd (Richer.create Sample.body_broken Sample.world
                     (start Sample.richer_db (Sample.rq_granted "")))) =
    [WShortlink "oops" "GET" None "not a url" (Some "CACHEBUST")] /\
  In "CACHEBUST" (Spec.normalized ["cachebust"]) /\
  fst (Richer.resolve (Sample.rq_granted "oops") Sample.world
         (start
            (settle Sample.world
               (snd (Richer.create Sample.body_broken Sample.world
                       (start Sample.richer_db (Sample.rq_granted "")))))
            (Sample.rq_granted "oops"))) = Throw.
Proof.
  apply (proj2 C10_cachebust_throws_on_unparseable_destination Sample.world
           (start Sample.richer_db (Sample.rq_granted ""))
           (start
              (settle Sample.world
                 (snd (Richer.create Sample.body_broken Sample.world
                         (start Sample.richer_db (Sample.rq_granted "")))))
              (Sample.rq_granted "oops"))
           Sample.body_broken "GET" "not a url" ["cachebust"]
           (Sample.rq_granted "oops"));
    try reflexivity.
  intros H; discriminate H.
Defined.

(** ** A rejected audit write *)

Lemma resolve_has_queued_outbound (e : env) (rq : request session_row)
  (s s' : Richer.rstate) (f : flow) :
  Richer.resolve rq e s = (Ok f, s') ->
  existsb Richer.outbound_write (st_pending s') = true.
Proof.
  unfold Richer.resolve, bind, gets, dispatch, query, await. cbn.
  destruct (faults e (Select, Shortlinks)); cbn; [discriminate |].
  destruct (shortlink_by_code (st_db s) (rq_code rq)) as [sl |]; cbn.
  - match goal with
    | |- context [Richer.linkbust sl e ?s1] =>
        destruct (only_draws_linkbust sl e s1) as [p Hp];
        destruct (Richer.linkbust sl e s1) as [[d |] s2]; [| discriminate]
    end.
    cbn in Hp. subst s2. cbn.
    intros H. apply deliver_delivers in H. destruct H as [-> _].
    cbn. rewrite !existsb_app. cbn. rewrite orb_true_r. reflexivity.
  - unfold ret. intros [= _ <-]. cbn. rewrite existsb_app. cbn.
    apply orb_true_r.
Qed.

Lemma unhandled_outbound (e : env) (pending : list write) :
  existsb Richer.outbound_write (unhandled e pending) =
  faults e (Insert, Outbound) && existsb Richer.outbound_write pending.
Proof.
  unfold unhandled. induction pending as [| w ws IH];
    [cbn; rewrite andb_false_r; reflexivity |].
  destruct w; cbn [filter caught negb andb write_op Richer.outbound_write existsb].
  - destruct (faults e (Insert, Outbound)); cbn; [reflexivity | exact IH].
  - destruct (faults e (Insert, DynamicUrls)); cbn; exact IH.
  - exact IH.
Qed.

(** With the outbound insert accepted the process runs the handler to its
    end; with it rejected the handler never answers. *)
Lemma resolve_in_process_cases (e : env) (rq : request session_row)
  (s : Richer.rstate) :
  (faults e (Insert, Outbound) = false ->
   Richer.resolve_in_process rq e s = Richer.resolve rq e s) /\
  (faults e (Insert, Outbound) = true ->
   fst (Richer.resolve_in_process rq e s) = Throw).
Proof.
  unfold Richer.resolve_in_process.
  destruct (Richer.resolve rq e s) as [[f |] s'] eqn:Hrun.
  - rewrite unhandled_outbound, (resolve_has_queued_outbound e rq s s' f Hrun).
    split; intros ->; reflexivity.
  - split; intros _; reflexivity.
Qed.

(** The simplified second handler awaits the outbound row. *)
Lemma simplified_resolve_awaits_outbound (e : env)
  (rq : request Simplified.session_row) (s : Simplified.sstate) :
  faults e (Insert, Outbound) = true ->
  Simplified.resolve rq e s = (Throw, log (Awaited (Insert, Outbound)) s).
Proof.
  intros Hf. unfold Simplified.resolve. unfold_monad. cbn. rewrite Hf. reflexivity.
Qed.

(** C9 fails on the code, in both revisions.  No request for
    [GET /l/:code] that passes the trust middleware is answered when the
    database rejects the insert into [outbound]: the only answer left is the
    401 of the trust middleware.  In the richer revision the insert is
    dispatched with a [.then] and no [.catch], so its rejection is an
    unhandled one and ends the process while the handler waits for the
    shortlinks query; in the simplified revision the insert is awaited, and
    its rejection is thrown by the handler before the lookup.  From Alice's
    granted address the request for "promo" is redirected when the insert is
    accepted and gets no response when it is rejected. *)
Theorem C9_rejected_outbound_insert_blocks_the_response :
  (forall e (rq : request session_row) (s : Richer.rstate) r,
      faults e (Insert, Outbound) = true ->
      fst (Richer.get_l_code rq e s) = Ok r ->
      r = Render "unauthorized.handlebars" []) /\
  (forall e (rq : request Simplified.session_row) (s : Simplified.sstate) r,
      faults e (Insert, Outbound) = true ->
      fst (Simplified.get_l_code rq e s) = Ok r ->
      r = Render "unauthorized.handlebars" []) /\
  fst (Richer.get_l_code (Sample.rq_granted "promo") Sample.world
         (start Sample.richer_db (Sample.rq_granted "promo"))) =
    Ok (Redirect "https://new.example.com") /\
  fst (Richer.get_l_code (Sample.rq_granted "promo") Sample.world_outbound_down
         (start Sample.richer_db (Sample.rq_granted "promo"))) = Throw /\
  fst (Simplified.get_l_code (Sample.rq_granted_simplified "promo") Sample.world
         (start Sample.simplified_db (Sample.rq_granted_simplified "promo"))) =
    Ok (Redirect "https://new.example.com") /\
  fst (Simplified.get_l_code (Sample.rq_granted_simplified "promo")
         Sample.world_outbound_down
         (start Sample.simplified_db (Sample.rq_granted_simplified "promo"))) = Throw.
Proof.
  split; [| split; [| repeat split]].
  - intros e rq s r Hf. unfold Richer.get_l_code, route. unfold bind at 1.
    change (ip_middleware rq e s) with (Ok tt, snd (ip_middleware rq e s)).
    cbv iota. unfold bind at 1.
    destruct (Richer.trust rq e (snd (ip_middleware rq e s))) as [[[| r'] |] s1]
      eqn:Htrust; cbn [fst].
    + unfold bind.
      pose proof (proj2 (resolve_in_process_cases e rq s1) Hf) as Hthrow.
      destruct (Richer.resolve_in_process rq e s1) as [[f |] s2];
        [discriminate Hthrow |].
      intros H; discriminate H.
    + apply richer_trust_sent in Htrust. destruct Htrust as [-> _].
      unfold ret. cbn. intros [= <-]. reflexivity.
    + intros H; discriminate H.
  - intros e rq s r Hf. unfold Simplified.get_l_code, route. unfold bind at 1.
    change (ip_middleware rq e s) with (Ok tt, snd (ip_middleware rq e s)).
    cbv iota. unfold bind at 1.
    destruct (Simplified.trust rq e (snd (ip_middleware rq e s))) as [[[| r'] |] s1]
      eqn:Htrust; cbn [fst].
    + unfold bind. rewrite (simplified_resolve_awaits_outbound e rq s1 Hf).
      intros H; discriminate H.
    + apply simplified_trust_sent in Htrust. destruct Htrust as [-> _].
      unfold ret. cbn. intros [= <-]. reflexivity.
    + intros H; discriminate H.
Qed.

(** C9 on a request from an address nobody granted, with the insert into
    [outbound] rejected: the one answer there is, is the 401. *)
Lemma C9_rejected_outbound_insert_blocks_the_response_witness :
  Render "unauthorized.handlebars" [] = Render "unauthorized.handlebars" [].
Proof.
  apply (proj1 C9_rejected_outbound_insert_blocks_the_response
           Sample.world_outbound_down Sample.rq_stranger
           (start Sample.richer_db Sample.rq_stranger)
           (Render "unauthorized.handlebars" [])).
  - reflexivity.
  - reflexivity.
Defined.
